(** * Songbird / Patricia Voice Studio: booking lifecycle and scheduling core

    A shallow embedding of the Express handlers of the backend
    ([middleware/auth.ts], [middleware/policies.ts], [routes/bookings.ts],
    the recurring-booking router, the make-up router and
    [services/googleCalendar.ts]) over an in-memory picture of the SQLite
    store, followed by the properties of the design document that those
    handlers decide.

    Conventions of the embedding.
    - Instants are integers: milliseconds since the epoch, as
      [Date.prototype.getTime] reports them.  A JavaScript [Date] is an
      [option Z]; [None] is the Invalid Date, whose time value is NaN.
    - Money and hour counts are rationals.  The only arithmetic the
      handlers do on them is a division by 3600000 followed by a comparison
      with an integer, and a multiplication by 4 or by 2; on the values a
      booking system meets, binary64 agrees with the exact result of both.
    - The time zone of the process is a fixed offset from UTC, in minutes
      (a process started with [TZ=UTC] or [TZ=Etc/GMT+8], say); a zone with
      daylight saving changes is not part of the picture, and the properties
      that read local calendar fields are stated for such a process.
    - The language fixes how [new Date(s)] reads a string in its date-time
      format and leaves every other string to the engine.  The first part is
      defined here; the second is a function the environment of a request
      carries ([engine]), about which nothing is assumed.
    - The store is the tables of [world].  The columns in which the
      calendar service keeps its credentials ([google_access_token],
      [google_refresh_token], [google_token_expiry] of the instructor's row)
      belong to that service, which reads and renews them on its own; they
      are on the side of the calendar oracle, not of the store.
    - Every [await] on the database or on the calendar service is one
      [Op] node of the handler, so that a handler can be run alone or
      interleaved with another one at exactly the points where Node's event
      loop may switch requests. *)

From Stdlib Require Import ZArith QArith Lia List String Ascii Bool.
From stdpp Require Import base option list gmap strings pretty.
Import ListNotations.

Local Open Scope string_scope.
Local Open Scope Z_scope.

(** ** JavaScript primitives used by the handlers *)

Module Js.

(** [parseInt(s)] without a radix: leading white space is skipped, a sign
    is read, a [0x]/[0X] prefix switches to base 16, and the longest prefix
    of digits is converted.  [None] stands for NaN.  The value is the exact
    integer; the language rounds it to binary64, which changes nothing up to
    [2^53] in magnitude ([safe_integer]).  The handlers compare the result
    with row counts and hour counts far below that bound, and where a
    handler hands the number itself back to the caller the property about it
    is stated for safe integers. *)

Definition is_space (c : ascii) : bool :=
  let n := nat_of_ascii c in
  ((n =? 32) || (n =? 9) || (n =? 10) || (n =? 11) || (n =? 12) || (n =? 13))%nat.

Fixpoint skip_spaces (s : string) : string :=
  match s with
  | String c s' => if is_space c then skip_spaces s' else s
  | EmptyString => s
  end.

Definition digit_value (c : ascii) : option Z :=
  let n := Z.of_nat (nat_of_ascii c) in
  if (48 <=? n) && (n <=? 57) then Some (n - 48)
  else if (97 <=? n) && (n <=? 102) then Some (n - 87)
  else if (65 <=? n) && (n <=? 70) then Some (n - 55)
  else None.

(** Longest prefix of digits below [radix]; the accumulator is [None]
    until a first digit has been read.  Returns the value and the rest. *)
Fixpoint read_digits (radix : Z) (acc : option Z) (s : string) : option Z * string :=
  match s with
  | String c s' =>
      match digit_value c with
      | Some d =>
          if d <? radix
          then read_digits radix (Some (default 0 acc * radix + d)) s'
          else (acc, s)
      | None => (acc, s)
      end
  | EmptyString => (acc, s)
  end.

Definition read_sign (s : string) : Z * string :=
  match s with
  | String "-" s' => (-1, s')
  | String "+" s' => (1, s')
  | _ => (1, s)
  end.


Definition parseInt (s : string) : option Z :=
  let '(sign, s1) := read_sign (skip_spaces s) in
  let '(radix, s2) :=
    match s1 with
    | String "0" (String "x" r) => (16, r)
    | String "0" (String "X" r) => (16, r)
    | _ => (10, s1)
    end in
  (fun n => sign * n) <$> fst (read_digits radix None s2).

(** [parseFloat(s)] on decimal literals: sign, digits, an optional
    fraction, an optional exponent; [None] stands for NaN.  Numbers are
    rationals here, so the [Infinity] literal, which the language reads as
    an infinite number, has no value in this picture: wherever a property
    depends on the outcome of [parseFloat] it takes a text that reads as a
    finite number. *)

Fixpoint count_digits (s : string) : nat :=
  match s with
  | String c s' =>
      match digit_value c with
      | Some d => if d <? 10 then S (count_digits s') else O
      | None => O
      end
  | EmptyString => O
  end.

Definition read_fraction (s : string) : option (Z * nat) * string :=
  match s with
  | String "." s' =>
      let '(f, rest) := read_digits 10 None s' in
      (Some (default 0 f, count_digits s'), rest)
  | _ => (None, s)
  end.

Definition read_exponent (s : string) : Z :=
  match s with
  | String c s' =>
      if (nat_of_ascii c =? 101)%nat || (nat_of_ascii c =? 69)%nat
      then let '(sg, s2) := read_sign s' in
           match fst (read_digits 10 None s2) with
           | Some e => sg * e
           | None => 0
           end
      else 0
  | EmptyString => 0
  end.

Definition parseFloat (s : string) : option Q :=
  let '(sign, s1) := read_sign (skip_spaces s) in
  let '(ip, s2) := read_digits 10 None s1 in
  let '(fp, s3) := read_fraction s2 in
  let mantissa : option Q :=
    match ip, fp with
    | None, None => None
    | None, Some (_, O) => None
    | _, _ =>
        let i := default 0 ip in
        let '(f, k) := default (0, O) fp in
        Some (inject_Z i + (f # 1) / inject_Z (10 ^ Z.of_nat k))%Q
    end in
  (fun m => Qred (inject_Z sign * m * Qpower (10 # 1) (read_exponent s3))%Q) <$> mantissa.

(** *** Dates

    Proleptic Gregorian calendar on day numbers (days since 1970-01-01),
    as the time-value functions of the language define it. *)

Definition msPerDay : Z := 86400000.
Definition msPerMinute : Z := 60000.

Record ymd := Ymd { year : Z; month : Z; day : Z }.

(** Day number of the civil date [y]-[m]-[d], [m] in 1..12. *)
Definition days_from_civil (y m d : Z) : Z :=
  let y' := if m <=? 2 then y - 1 else y in
  let era := y' / 400 in
  let yoe := y' - era * 400 in
  let doy := (153 * (if 2 <? m then m - 3 else m + 9) + 2) / 5 + d - 1 in
  let doe := yoe * 365 + yoe / 4 - yoe / 100 + doy in
  era * 146097 + doe - 719468.

(** Civil date of a day number. *)
Definition civil_from_days (z : Z) : ymd :=
  let z := z + 719468 in
  let era := z / 146097 in
  let doe := z - era * 146097 in
  let yoe := (doe - doe / 1460 + doe / 36524 - doe / 146096) / 365 in
  let doy := doe - (365 * yoe + yoe / 4 - yoe / 100) in
  let mp := (5 * doy + 2) / 153 in
  let d := doy - (153 * mp + 2) / 5 + 1 in
  let m := if mp <? 10 then mp + 3 else mp - 9 in
  Ymd (yoe + era * 400 + (if m <=? 2 then 1 else 0)) m d.

(** The calendar fields of an instant in UTC: what [toISOString] prints
    before the [T], and what SQLite's [DATE] and [strftime] read back from
    such a string. *)
Definition utc_date (t : Z) : ymd := civil_from_days (t / msPerDay).

(** The process runs in a zone [tz] minutes east of UTC (a fixed offset:
    daylight saving is not modelled).  [getFullYear], [getMonth] and
    [getDate] read the fields of the local date; [getMonth] counts from 0. *)
Definition local_date (tz : Z) (t : Z) : ymd := utc_date (t + tz * msPerMinute).
Definition getFullYear (tz : Z) (t : Z) : Z := year (local_date tz t).
Definition getMonth (tz : Z) (t : Z) : Z := month (local_date tz t) - 1.
Definition getDate (tz : Z) (t : Z) : Z := day (local_date tz t).

(** Local midnight of day [d] of month index [m] of year [y] ([MakeDay]
    followed by [UTC]).  The month index may leave 0..11; the year absorbs
    the overflow. *)
Definition local_midnight (tz : Z) (y m d : Z) : Z :=
  days_from_civil (y + m / 12) (m mod 12 + 1) 1 * msPerDay
  + (d - 1) * msPerDay - tz * msPerMinute.

(** [new Date(y, m, d)]: a year argument from 0 to 99 stands for 1900 to
    1999. *)
Definition make_local (tz : Z) (y m d : Z) : Z :=
  local_midnight tz (if (0 <=? y) && (y <=? 99) then 1900 + y else y) m d.

(** Order of two zero-padded [YYYY-MM-DD] strings, which is how SQLite
    evaluates [BETWEEN] on the TEXT columns holding them. *)
Definition ymd_leb (a b : ymd) : bool :=
  (year a <? year b)
  || ((year a =? year b)
      && ((month a <? month b) || ((month a =? month b) && (day a <=? day b)))).

Definition ymd_eqb (a b : ymd) : bool :=
  (year a =? year b) && (month a =? month b) && (day a =? day b).

(** The [YYYY-MM-DD] rendering of a date. *)
Definition pad (width : nat) (n : Z) : string :=
  let digits := pretty n in
  String.concat "" (List.repeat "0" (width - String.length digits)) +:+ digits.

Definition ymd_to_string (d : ymd) : string :=
  pad 4 (year d) +:+ "-" +:+ pad 2 (month d) +:+ "-" +:+ pad 2 (day d).

(** date-fns [addMinutes]. *)
Definition addMinutes (t : Z) (amount : Z) : Z := t + amount * msPerMinute.

(** The time values of the language end 100,000,000 days from the epoch on
    either side; a [Date] made from a number beyond is the Invalid Date. *)
Definition max_time : Z := 8640000000000000.
Definition is_time (t : Z) : bool := Z.abs t <=? max_time.

(** *** Date-time strings

    [new Date(s)] and [Date.parse(s)].  [iso_date_time] reads the date-time
    format of the language: [YYYY-MM-DD], alone (UTC) or followed by
    [THH:mm], [THH:mm:ss] or [THH:mm:ss.sss] and then nothing (local time),
    [Z] or [+hh:mm]/[-hh:mm]; like V8, it takes a day up to 31 in every
    month.  It is deliberately narrow: on every other string (an hour 24, a
    fraction of another length, a blank for the [T], [September 1, 2025],
    [2025/09/01], ...) it gives up, and [Date_parse] asks the engine. *)

Fixpoint read_num (n : nat) (acc : Z) (s : string) : option (Z * string) :=
  match n with
  | O => Some (acc, s)
  | S n' =>
      match s with
      | String c s' =>
          match digit_value c with
          | Some d => if d <? 10 then read_num n' (acc * 10 + d) s' else None
          | None => None
          end
      | EmptyString => None
      end
  end.

Definition expect (c : ascii) (s : string) : option string :=
  match s with
  | String c' s' => if Ascii.eqb c c' then Some s' else None
  | EmptyString => None
  end.

(** The [YYYY-MM-DD] prefix of a string and what follows it. *)
Definition read_ymd (s : string) : option (ymd * string) :=
  '(y, s) ← read_num 4 0 s;
  s ← expect "-" s;
  '(m, s) ← read_num 2 0 s;
  s ← expect "-" s;
  '(d, s) ← read_num 2 0 s;
  Some (Ymd y m d, s).


Definition read_seconds (s : string) : option (Z * string) :=
  match s with
  | String ":" s1 =>
      '(sec, s2) ← read_num 2 0 s1;
      match s2 with
      | String "." s3 => '(ms, s4) ← read_num 3 0 s3; Some (sec * 1000 + ms, s4)
      | _ => Some (sec * 1000, s2)
      end
  | _ => Some (0, s)
  end.

(** Offset from UTC, in minutes, that the zone designator gives. *)
Definition read_zone (tz : Z) (s : string) : option Z :=
  match s with
  | EmptyString => Some tz
  | String "Z" EmptyString => Some 0
  | String c s1 =>
      '(h, s2) ← read_num 2 0 s1;
      s3 ← expect ":" s2;
      '(m, s4) ← read_num 2 0 s3;
      match s4 with
      | EmptyString =>
          if negb ((h <=? 23) && (m <=? 59)) then None
          else if Ascii.eqb c "+" then Some (h * 60 + m)
          else if Ascii.eqb c "-" then Some (- (h * 60 + m))
          else None
      | _ => None
      end
  end.

Definition iso_date_time (tz : Z) (s : string) : option Z :=
  '(d, rest) ← read_ymd s;
  if negb ((1 <=? month d) && (month d <=? 12) && (1 <=? day d) && (day d <=? 31))
  then None
  else
    let midnight := (days_from_civil (year d) (month d) 1 + day d - 1) * msPerDay in
    match rest with
    | EmptyString => Some midnight
    | String "T" s1 =>
        '(h, s2) ← read_num 2 0 s1;
        s3 ← expect ":" s2;
        '(mi, s4) ← read_num 2 0 s3;
        '(ms, s5) ← read_seconds s4;
        off ← read_zone tz s5;
        if (h <=? 23) && (mi <=? 59) && (ms <? 60000)
        then Some (midnight + h * 3600000 + mi * msPerMinute + ms - off * msPerMinute)
        else None
    | _ => None
    end.

(** [Date.parse(s)]: the format of the language first, then whatever the
    engine makes of the string; [other s] is [None] where the engine gives
    NaN.  The empty string is no date.  [None] is the Invalid Date. *)
Definition Date_parse (other : string -> option Z) (tz : Z) (s : string) : option Z :=
  match iso_date_time tz s with
  | Some t => Some t
  | None =>
      match s with
      | EmptyString => None
      | _ => other s
      end
  end.

(** [new Date(v)] for a body field [v] that is absent ([undefined]) or a
    string. *)
Definition new_Date (other : string -> option Z) (tz : Z) (v : option string) : option Z :=
  s ← v; Date_parse other tz s.

(** Truthiness of such a field: [undefined] and the empty string are falsy. *)
Definition truthy (v : option string) : bool :=
  match v with
  | Some (String _ _) => true
  | _ => false
  end.

End Js.


(** ** The store

    One record per table of [models/database.ts], with the columns the
    handlers read or write.  [lesson_date] holds the instant whose
    [toISOString] rendering the column stores. *)

Inductive booking_status :=
| Pending | Confirmed | Completed | Cancelled | Rescheduled.

Definition booking_status_eqb (a b : booking_status) : bool :=
  match a, b with
  | Pending, Pending | Confirmed, Confirmed | Completed, Completed
  | Cancelled, Cancelled | Rescheduled, Rescheduled => true
  | _, _ => false
  end.

Record booking := Booking {
  id : Z;
  user_id : Z;
  lesson_date : Z;
  duration : Z;
  price : Q;
  status : booking_status;
  notes : option string;
  reschedule_count : Z;
  original_date : option Z;
  cancellation_reason : option string;
  cancelled_at : option Z;
  updated_at : option Z;
  google_calendar_event_id : option string
}.

Record payment := Payment {
  pay_booking_id : Z;
  amount : Q;
  payment_method : string;
  pay_status : string;
  payment_reference : string
}.

Inductive makeup_status :=
| MkPending | MkScheduled | MkCompleted | MkExpired.

Record makeup_lesson := MakeupLesson {
  mk_id : Z;
  mk_user_id : Z;
  original_booking_id : Z;
  makeup_date : option string;
  reason : string;
  mk_status : makeup_status
}.

Record recurring_booking := RecurringBooking {
  rb_id : Z;
  rb_user_id : Z;
  rb_duration : Z;
  rb_price : Q;
  day_of_week : Z;
  time : string;
  frequency : string;
  start_date : string;
  end_date : string;
  lesson_type : string
}.

Record billing_cycle := BillingCycle {
  bc_user_id : Z;
  recurring_booking_id : Z;
  cycle_month : Z;
  cycle_year : Z;
  total_amount : Q;
  lessons_count : Z;
  billing_date : Js.ymd;
  due_date : Js.ymd
}.

Record blackout_date := BlackoutDate {
  bo_start_date : Js.ymd;
  bo_end_date : Js.ymd;
  bo_reason : string;
  is_active : bool
}.

Record sync_entry := SyncEntry {
  action : string;
  log_booking_id : Z;
  google_event_id : option string;
  log_status : string;
  error_message : option string
}.

Record user := User {
  u_id : Z;
  first_name : string;
  last_name : string;
  email : string;
  role : string;
  is_verified : bool
}.

(** What the handlers hand to the calendar service. *)
Record booking_details := BookingDetails {
  bd_id : Z;
  bd_user_id : Z;
  bd_lesson_date : Z;
  bd_duration : Z;
  client_name : string;
  client_email : string;
  bd_notes : option string
}.

(** The external calendar is an oracle, and so is the calendar service of
    [services/googleCalendar.ts] in front of it, with the credentials it
    keeps for itself (the [google_*] columns of the instructor's row, which
    the service reads and renews on its own).  A push either succeeds, or
    reports failure in its return value ([null], [false]: the service caught
    the error itself), or rejects. *)
Inductive cal_result (A : Type) :=
| CalOk (a : A)
| CalFailed
| CalThrows (msg : string).
Arguments CalOk {A} a.
Arguments CalFailed {A}.
Arguments CalThrows {A} msg.

Record calendar := Calendar {
  createBookingEvent : booking_details -> cal_result string;
  updateBookingEvent : string -> booking_details -> cal_result unit;
  deleteBookingEvent : string -> cal_result unit;
  (** [getBusyTimes]: the busy intervals between two instants.  The service
      catches every error of the lookup and then answers with the empty
      list, as it does when it has no credentials. *)
  getBusyTimes : Z -> Z -> list (string * string)
}.

Record world := World {
  bookings : list booking;
  bookings_seq : Z;
  payments : list payment;
  settings : gmap string string;
  blackout_dates : list blackout_date;
  makeup_lessons : list makeup_lesson;
  makeup_seq : Z;
  recurring_bookings : list recurring_booking;
  recurring_seq : Z;
  billing_cycles : list billing_cycle;
  calendar_sync_log : list sync_entry;
  users : list user;
  (** [calendar_sync_enabled] of the admin row. *)
  calendar_sync_enabled : bool;
  (** How many more [db.run] statements the database accepts before one is
      rejected; [None] when it never rejects. *)
  writes_left : option nat
}.

(** What a request finds around it besides the store: the wall clock (one
    reading serves a whole request), the time zone of the process in minutes
    east of UTC, the calendar service, the configuration of the process and
    the JavaScript engine. *)
Record env := Env {
  now : Z;
  tz : Z;
  gcal : calendar;
  (** Whether [process.env.JWT_SECRET] is set. *)
  jwt_secret : bool;
  (** What the engine reads in a date string that is not in the date-time
      format of the language; [None] where it reads nothing. *)
  engine : string -> option Z
}.

Definition set_bookings (f : list booking -> list booking) (w : world) : world :=
  World (f (bookings w)) (bookings_seq w) (payments w) (settings w) (blackout_dates w)
        (makeup_lessons w) (makeup_seq w) (recurring_bookings w) (recurring_seq w)
        (billing_cycles w) (calendar_sync_log w) (users w) (calendar_sync_enabled w)
        (writes_left w).

Definition insert_booking (b : booking) (w : world) : world :=
  World (bookings w ++ [b]) (id b) (payments w) (settings w) (blackout_dates w)
        (makeup_lessons w) (makeup_seq w) (recurring_bookings w) (recurring_seq w)
        (billing_cycles w) (calendar_sync_log w) (users w) (calendar_sync_enabled w)
        (writes_left w).

Definition insert_payment (p : payment) (w : world) : world :=
  World (bookings w) (bookings_seq w) (payments w ++ [p]) (settings w) (blackout_dates w)
        (makeup_lessons w) (makeup_seq w) (recurring_bookings w) (recurring_seq w)
        (billing_cycles w) (calendar_sync_log w) (users w) (calendar_sync_enabled w)
        (writes_left w).

Definition set_makeup_lessons (f : list makeup_lesson -> list makeup_lesson) (w : world) : world :=
  World (bookings w) (bookings_seq w) (payments w) (settings w) (blackout_dates w)
        (f (makeup_lessons w)) (makeup_seq w) (recurring_bookings w) (recurring_seq w)
        (billing_cycles w) (calendar_sync_log w) (users w) (calendar_sync_enabled w)
        (writes_left w).

Definition insert_makeup (m : makeup_lesson) (w : world) : world :=
  World (bookings w) (bookings_seq w) (payments w) (settings w) (blackout_dates w)
        (makeup_lessons w ++ [m]) (mk_id m) (recurring_bookings w) (recurring_seq w)
        (billing_cycles w) (calendar_sync_log w) (users w) (calendar_sync_enabled w)
        (writes_left w).

Definition insert_recurring (r : recurring_booking) (w : world) : world :=
  World (bookings w) (bookings_seq w) (payments w) (settings w) (blackout_dates w)
        (makeup_lessons w) (makeup_seq w) (recurring_bookings w ++ [r]) (rb_id r)
        (billing_cycles w) (calendar_sync_log w) (users w) (calendar_sync_enabled w)
        (writes_left w).

Definition insert_billing_cycle (c : billing_cycle) (w : world) : world :=
  World (bookings w) (bookings_seq w) (payments w) (settings w) (blackout_dates w)
        (makeup_lessons w) (makeup_seq w) (recurring_bookings w) (recurring_seq w)
        (billing_cycles w ++ [c]) (calendar_sync_log w) (users w) (calendar_sync_enabled w)
        (writes_left w).

Definition insert_sync_entry (e : sync_entry) (w : world) : world :=
  World (bookings w) (bookings_seq w) (payments w) (settings w) (blackout_dates w)
        (makeup_lessons w) (makeup_seq w) (recurring_bookings w) (recurring_seq w)
        (billing_cycles w) (calendar_sync_log w ++ [e]) (users w) (calendar_sync_enabled w)
        (writes_left w).

Definition with_sync_log (l : list sync_entry) (w : world) : world :=
  World (bookings w) (bookings_seq w) (payments w) (settings w) (blackout_dates w)
        (makeup_lessons w) (makeup_seq w) (recurring_bookings w) (recurring_seq w)
        (billing_cycles w) l (users w) (calendar_sync_enabled w)
        (writes_left w).

Definition set_writes_left (n : option nat) (w : world) : world :=
  World (bookings w) (bookings_seq w) (payments w) (settings w) (blackout_dates w)
        (makeup_lessons w) (makeup_seq w) (recurring_bookings w) (recurring_seq w)
        (billing_cycles w) (calendar_sync_log w) (users w) (calendar_sync_enabled w)
        n.

(** ** Responses *)

Record slot := Slot {
  slot_start : Z;
  slot_end : Z;
  available : bool
}.

Inductive payload :=
| NoData
| Slots (date : string) (duration : Z) (slots : list slot)
| HourlySlots (slots : list (Z * bool))
| BookingCreated (bookingId : Z) (amount : Q) (duration : Z) (lessonDate : Z)
                 (calendarSynced : bool)
| BookingRescheduled (calendarUpdated : bool)
| BookingCancelled (calendarDeleted : bool)
| Charged (amount : Q)
| Created (id : Z).

Record response := Response {
  code : Z;
  success : bool;
  message : string;
  data : payload
}.

Definition fail (c : Z) (msg : string) : response := Response c false msg NoData.
Definition ok (msg : string) (d : payload) : response := Response 200 true msg d.

(** ** Handlers

    A handler is a tree of [await]s.  [Op op k] performs [op] on the world in
    one indivisible step and continues with [k]; control may pass to another
    request between two [Op]s.  A handler ends by falling through to the next
    middleware ([Val]), by sending a response ([Reply]) or by throwing
    ([Throw]). *)

Inductive result (A : Type) :=
| Val (a : A)
| Reply (r : response)
| Throw (msg : string).
Arguments Val {A} a.
Arguments Reply {A} r.
Arguments Throw {A} msg.

Inductive prog (A : Type) : Type :=
| Ret (r : result A)
| Op {X : Type} (op : world -> X * world) (k : X -> prog A).
Arguments Ret {A} r.
Arguments Op {A X} op k.

Fixpoint bind {A B : Type} (p : prog A) (f : A -> prog B) : prog B :=
  match p with
  | Ret (Val a) => f a
  | Ret (Reply r) => Ret (Reply r)
  | Ret (Throw m) => Ret (Throw m)
  | Op op k => Op op (fun x => bind (k x) f)
  end.

(** [try { p } catch (e) { h e }] *)
Fixpoint try_catch {A : Type} (p : prog A) (h : string -> prog A) : prog A :=
  match p with
  | Ret (Throw m) => h m
  | Ret r => Ret r
  | Op op k => Op op (fun x => try_catch (k x) h)
  end.

Declare Scope prog_scope.
Delimit Scope prog_scope with prog.
Bind Scope prog_scope with prog.
Notation "x <- p ;; q" := (bind p (fun x => q))
  (at level 100, p at next level, right associativity) : prog_scope.
Notation "p ;; q" := (bind p (fun _ => q))
  (at level 100, right associativity) : prog_scope.

Definition ret {A : Type} (a : A) : prog A := Ret (Val a).
Definition reply {A : Type} (r : response) : prog A := Ret (Reply r).
Definition throw {A : Type} (msg : string) : prog A := Ret (Throw msg).
Definition next : prog unit := ret tt.

(** Running a request to its end with no other request in between. *)
Fixpoint run {A : Type} (p : prog A) (w : world) : result A * world :=
  match p with
  | Ret r => (r, w)
  | Op op k => let '(x, w') := op w in run (k x) w'
  end.

(** One step of a request: up to and including its next [await]. *)
Definition step {A : Type} (p : prog A) (w : world) : prog A * world :=
  match p with
  | Ret r => (Ret r, w)
  | Op op k => let '(x, w') := op w in (k x, w')
  end.

(** Several requests in flight; the schedule names, step after step, the
    request whose pending [await] completes next. *)
Fixpoint interleave {A : Type} (schedule : list nat) (ps : list (prog A)) (w : world)
  : list (prog A) * world :=
  match schedule with
  | [] => (ps, w)
  | i :: rest =>
      match ps !! i with
      | Some p => let '(p', w') := step p w in interleave rest (<[i := p']> ps) w'
      | None => interleave rest ps w
      end
  end.

(** *** Database primitives *)

(** [await] on a call of the calendar service. *)
Definition call {X : Type} (outcome : X) : prog X :=
  Op (fun w => (outcome, w)) ret.

(** [await db.get(...)] and [await db.all(...)]: a query. *)
Definition db_get {X : Type} (q : world -> X) : prog X :=
  Op (fun w => (q w, w)) ret.

(** [await db.run(...)]: a statement; it rejects once the database accepts
    no more writes. *)
Definition db_run (stmt : world -> world) : prog unit :=
  Op (fun w =>
        match writes_left w with
        | None => (true, stmt w)
        | Some (S n) => (true, set_writes_left (Some n) (stmt w))
        | Some O => (false, w)
        end)
     (fun accepted : bool => if accepted then ret tt else throw "SQLITE_ERROR").

(** [INSERT] into a table with an AUTOINCREMENT key; yields [lastID]. *)
Definition db_insert (seq : world -> Z) (stmt : Z -> world -> world) : prog Z :=
  Op (fun w =>
        match writes_left w with
        | None => (Some (seq w + 1), stmt (seq w + 1) w)
        | Some (S n) => (Some (seq w + 1), set_writes_left (Some n) (stmt (seq w + 1) w))
        | Some O => (None, w)
        end)
     (fun lastID : option Z =>
        match lastID with Some i => ret i | None => throw "SQLITE_ERROR" end).

(** [SELECT value FROM settings WHERE key = ?] *)
Definition get_setting (key : string) : prog (option string) :=
  db_get (fun w => settings w !! key).

(** [parseInt(row?.value || dflt)] *)
Definition setting_or (row : option string) (dflt : string) : string :=
  if Js.truthy row then default dflt row else dflt.

(** ** Requests *)

(** The bearer token of a request: absent, one that [jwt.verify] rejects, or
    one that it decodes to a user id. *)
Inductive bearer_token :=
| NoToken
| BadToken
| Token (userId : Z).

Record request := Request {
  authorization : bearer_token;
  (** [req.user], set by [authenticateToken]. *)
  req_user : option user;
  (** [req.params.id] *)
  params_id : Z;
  body_lesson_date : option string;
  body_new_date : option string;
  body_duration : option Z;
  body_notes : option string;
  body_original_booking_id : option Z;
  body_reason : option string;
  body_day_of_week : Z;
  body_time : string;
  body_frequency : string;
  body_start_date : string;
  body_lesson_type : option string
}.

(** ** middleware/auth.ts *)

(** [SELECT ... FROM users WHERE id = ?] *)
Definition user_by_id (uid : Z) (w : world) : option user :=
  List.find (fun u => u_id u =? uid) (users w).

Definition set_user (req : request) (u : user) : request :=
  Request (authorization req) (Some u) (params_id req) (body_lesson_date req)
          (body_new_date req) (body_duration req) (body_notes req)
          (body_original_booking_id req) (body_reason req) (body_day_of_week req)
          (body_time req) (body_frequency req) (body_start_date req)
          (body_lesson_type req).

(** Yields the request with [req.user] set. *)
Definition authenticateToken (e : env) (req : request) : prog request :=
  try_catch
    (match authorization req with
     | NoToken => reply (fail 401 "Access token required")
     | token =>
         if negb (jwt_secret e)
         then reply (fail 500 "Server configuration error")
         else
           match token with
           | Token userId =>
               found <- db_get (user_by_id userId) ;;
               match found with
               | None => reply (fail 401 "Invalid token")
               | Some u => ret (set_user req u)
               end
           | _ => throw "JsonWebTokenError"
           end
     end)%prog
    (fun _ => reply (fail 401 "Invalid token")).

Definition requireVerified (req : request) : prog unit :=
  match req_user req with
  | Some u => if is_verified u then next else reply (fail 403 "Email verification required")
  | None => reply (fail 403 "Email verification required")
  end.

(** A request whose token names user [u] of the store, on a process that
    can verify tokens: the requests that pass [authenticateToken]. *)
Definition signed_in (e : env) (req : request) (w : world) (u : user) : Prop :=
  jwt_secret e = true
  /\ authorization req = Token (u_id u)
  /\ user_by_id (u_id u) w = Some u.

Definition requireRole (r : string) (req : request) : prog unit :=
  match req_user req with
  | Some u => if String.eqb (role u) r then next
              else reply (fail 403 (r +:+ " access required"))
  | None => reply (fail 403 (r +:+ " access required"))
  end.

(** [req.user!.id]: dereferencing an absent user throws. *)
Definition user_of (req : request) : prog Z :=
  match req_user req with
  | Some u => ret (u_id u)
  | None => throw "TypeError: Cannot read properties of undefined (reading 'id')"
  end.

(** ** Queries of the policy middleware and of the booking routes *)

(** [SELECT * FROM bookings WHERE id = ? AND user_id = ?] *)
Definition booking_of_user (bid uid : Z) (w : world) : option booking :=
  List.find (fun b => (id b =? bid) && (user_id b =? uid)) (bookings w).

(** [SELECT * FROM bookings WHERE id = ?] *)
Definition booking_by_id (bid : Z) (w : world) : option booking :=
  List.find (fun b => id b =? bid) (bookings w).

(** [status NOT IN ('cancelled', 'completed')] *)
Definition blocks_slot (s : booking_status) : bool :=
  match s with
  | Cancelled | Completed => false
  | _ => true
  end.

(** [status IN ('confirmed', 'pending')]: the non-terminal states. *)
Definition non_terminal (s : booking_status) : bool :=
  match s with
  | Pending | Confirmed => true
  | _ => false
  end.

(** [UPDATE bookings SET ... WHERE id = ?] *)
Definition update_booking (bid : Z) (f : booking -> booking) (w : world) : world :=
  set_bookings (List.map (fun b => if id b =? bid then f b else b)) w.

(** Number of the client's bookings that were rescheduled at least once and
    whose stored date reads month [m] (1..12) of year [y]:
    [COUNT( * ) ... WHERE user_id = ? AND reschedule_count > 0
     AND strftime('%m', lesson_date) = ? AND strftime('%Y', lesson_date) = ?]. *)
Definition reschedule_count_in_month (uid m y : Z) (w : world) : Z :=
  Z.of_nat (List.length (List.filter
    (fun b => (user_id b =? uid) && (0 <? reschedule_count b)
              && (Js.month (Js.utc_date (lesson_date b)) =? m)
              && (Js.year (Js.utc_date (lesson_date b)) =? y))
    (bookings w))).

(** [COUNT( * ) FROM makeup_lessons WHERE user_id = ? AND status = 'pending'] *)
Definition pending_makeups (uid : Z) (w : world) : Z :=
  Z.of_nat (List.length (List.filter
    (fun m => (mk_user_id m =? uid)
              && match mk_status m with MkPending => true | _ => false end)
    (makeup_lessons w))).

(** [SELECT * FROM blackout_dates WHERE is_active = 1
     AND ? BETWEEN start_date AND end_date] *)
Definition blackout_conflict (d : Js.ymd) (w : world) : option blackout_date :=
  List.find (fun r => is_active r && Js.ymd_leb (bo_start_date r) d
                      && Js.ymd_leb d (bo_end_date r))
            (blackout_dates w).

(** [n >= limit] where [limit] may be NaN, against which every comparison
    is false. *)
Definition ge_num (n : Z) (limit : option Z) : bool :=
  match limit with
  | Some l => l <=? n
  | None => false
  end.

(** ** middleware/policies.ts *)

Record policyChecks := PolicyChecks {
  cancellationAllowed : bool;
  rescheduleAllowed : bool;
  makeupAllowed : bool
}.

Definition hoursUntilLesson (e : env) (b : booking) : Q :=
  (inject_Z (lesson_date b - now e) / inject_Z (1000 * 60 * 60))%Q.

(** [hoursUntilLesson >= policyHours] *)
Definition within_policy (hours : Q) (policyHours : option Z) : bool :=
  match policyHours with
  | Some h => Qle_bool (inject_Z h) hours
  | None => false
  end.

Definition checkCancellationPolicy (e : env) (req : request) : prog policyChecks :=
  try_catch
    (match req_user req with
     | None => reply (fail 401 "User not authenticated")
     | Some u =>
         let uid := u_id u in
         booking <- db_get (booking_of_user (params_id req) uid) ;;
         match booking with
         | None => reply (fail 404 "Booking not found")
         | Some b =>
             policySetting <- get_setting "cancellation_policy_hours" ;;
             let policyHours := Js.parseInt (setting_or policySetting "24") in
             let allowed := within_policy (hoursUntilLesson e b) policyHours in
             ret (PolicyChecks allowed allowed true)
         end
     end)%prog
    (fun _ => reply (fail 500 "Failed to check policy")).

(** [a.getMonth() === b.getMonth() && a.getFullYear() === b.getFullYear()];
    the fields of the Invalid Date are NaN, which equals nothing. *)
Definition same_month (zone : Z) (a b : option Z) : bool :=
  match a, b with
  | Some x, Some y =>
      (Js.getMonth zone x =? Js.getMonth zone y)
      && (Js.getFullYear zone x =? Js.getFullYear zone y)
  | _, _ => false
  end.

Definition checkReschedulePolicy (e : env) (req : request) : prog unit :=
  try_catch
    (match req_user req with
     | None => reply (fail 401 "User not authenticated")
     | Some u =>
         let uid := u_id u in
         let new_date := body_new_date req in
         booking <- db_get (booking_of_user (params_id req) uid) ;;
         match booking with
         | None => reply (fail 404 "Booking not found")
         | Some b =>
             let originalDate := Some (lesson_date b) in
             let newDate := Js.new_Date (engine e) (tz e) new_date in
             if negb (same_month (tz e) originalDate newDate)
             then reply (fail 400 "Lessons can only be rescheduled within the same month")
             else
               maxReschedulesSetting <- get_setting "max_reschedules_per_month" ;;
               let maxReschedules := Js.parseInt (setting_or maxReschedulesSetting "2") in
               let currentMonth := Js.getMonth (tz e) (lesson_date b) + 1 in
               let currentYear := Js.getFullYear (tz e) (lesson_date b) in
               rescheduleCount <-
                 db_get (reschedule_count_in_month uid currentMonth currentYear) ;;
               if ge_num rescheduleCount maxReschedules
               then reply (fail 400 ("Maximum " +:+ pretty (default 0 maxReschedules)
                                     +:+ " reschedules per month allowed"))
               else next
         end
     end)%prog
    (fun _ => reply (fail 500 "Failed to check reschedule policy")).

Definition checkMakeupPolicy (e : env) (req : request) : prog unit :=
  try_catch
    (match req_user req with
     | None => reply (fail 401 "User not authenticated")
     | Some u =>
         let uid := u_id u in
         maxPendingSetting <- get_setting "max_pending_makeups" ;;
         let maxPending := Js.parseInt (setting_or maxPendingSetting "2") in
         pendingCount <- db_get (pending_makeups uid) ;;
         if ge_num pendingCount maxPending
         then reply (fail 400 ("Maximum " +:+ pretty (default 0 maxPending)
                               +:+ " pending make-up lessons allowed"))
         else next
     end)%prog
    (fun _ => reply (fail 500 "Failed to check make-up policy")).

(** [date.toISOString()]: throws on the Invalid Date. *)
Definition toISOString (d : option Z) : prog Z :=
  match d with
  | Some t => ret t
  | None => throw "RangeError: Invalid time value"
  end.

Definition checkBlackoutDates (e : env) (req : request) : prog unit :=
  try_catch
    (let dateToCheck :=
       if Js.truthy (body_new_date req) then body_new_date req else body_lesson_date req in
     if negb (Js.truthy dateToCheck) then next
     else
       t <- toISOString (Js.new_Date (engine e) (tz e) dateToCheck) ;;
       let checkDate := Js.utc_date t in
       blackoutConflict <- db_get (blackout_conflict checkDate) ;;
       match blackoutConflict with
       | Some r =>
           reply (fail 400 ("Cannot book during " +:+ bo_reason r +:+ " ("
                            +:+ Js.ymd_to_string (bo_start_date r) +:+ " to "
                            +:+ Js.ymd_to_string (bo_end_date r) +:+ ")"))
       | None => next
       end)%prog
    (fun _ => reply (fail 500 "Failed to check blackout dates")).

Definition late_cancellation_reason : string :=
  "Late cancellation - automatic charge applied".

Definition enforceCancellationCharging (e : env) (req : request) (checks : policyChecks)
  : prog unit :=
  try_catch
    (if negb (cancellationAllowed checks)
     then
       let bookingId := params_id req in
       booking <- db_get (booking_by_id bookingId) ;;
       match booking with
       | None => throw "TypeError: Cannot read properties of undefined (reading 'price')"
       | Some b =>
           db_run (insert_payment
                     (Payment bookingId (price b) "automatic_charge" "pending"
                              "late_cancellation_fee")) ;;
           db_run (update_booking bookingId (fun r =>
                     Booking (id r) (user_id r) (lesson_date r) (duration r) (price r)
                             Cancelled (notes r) (reschedule_count r) (original_date r)
                             (Some late_cancellation_reason) (Some (now e))
                             (updated_at r) (google_calendar_event_id r))) ;;
           reply (Response 200 true
                    "Booking cancelled with automatic charge due to 24-hour policy violation"
                    (Charged (price b)))
       end
     else next)%prog
    (fun _ => reply (fail 500 "Failed to process cancellation")).

(** ** routes/bookings.ts *)

(** [SELECT id FROM bookings WHERE lesson_date = ?
     AND status NOT IN ('cancelled', 'completed')] *)
Definition conflicting_booking (t : Z) (w : world) : option booking :=
  List.find (fun b => (lesson_date b =? t) && blocks_slot (status b)) (bookings w).

(** The same with [AND id != ?]. *)
Definition conflicting_booking_except (t bid : Z) (w : world) : option booking :=
  List.find (fun b => (lesson_date b =? t) && blocks_slot (status b) && negb (id b =? bid))
            (bookings w).

(** [lessonDateTime <= new Date()] *)
Definition not_after (d : option Z) (t : Z) : bool :=
  match d with
  | Some x => x <=? t
  | None => false
  end.

Definition sync_log (act : string) (bid : Z) (ev : option string) (st : string)
           (err : option string) : prog unit :=
  db_run (insert_sync_entry (SyncEntry act bid ev st err)).

(** [googleCalendarService.isCalendarSyncEnabled()] *)
Definition isCalendarSyncEnabled : prog bool :=
  db_get calendar_sync_enabled.

(** [SELECT first_name, last_name, email FROM users WHERE id = ?], followed
    by the reads of its fields, which throw when there is no such row. *)
Definition client_of (uid : Z) : prog user :=
  (row <- db_get (user_by_id uid) ;;
   match row with
   | Some u => ret u
   | None => throw "TypeError: Cannot read properties of undefined (reading 'first_name')"
   end)%prog.

Definition set_google_event (ev : string) (r : booking) : booking :=
  Booking (id r) (user_id r) (lesson_date r) (duration r) (price r) (status r) (notes r)
          (reschedule_count r) (original_date r) (cancellation_reason r) (cancelled_at r)
          (updated_at r) (Some ev).

(** The calendar part of [POST /]: the value [googleEventId] ends with. *)
Definition push_created (e : env) (uid lastID t dur : Z) (nts : option string)
  : prog (option string) :=
  let on_error (msg : string) : prog unit :=
    if negb (lastID =? 0)
    then sync_log "create" lastID None "error" (Some msg)
    else next in
  (created <-
     try_catch
       (syncEnabled <- isCalendarSyncEnabled ;;
        if syncEnabled && negb (lastID =? 0)
        then
          u <- client_of uid ;;
          let bookingDetails :=
            BookingDetails lastID uid t dur (first_name u +:+ " " +:+ last_name u)
                           (email u) nts in
          outcome <- call (createBookingEvent (gcal e) bookingDetails) ;;
          match outcome with
          | CalThrows msg => throw msg
          | CalOk (String c ev) => ret (Some (String c ev))
          | _ =>
              sync_log "create" lastID None "error"
                       (Some "Failed to create Google Calendar event") ;;
              ret None
          end
        else ret None)
       (fun msg => on_error msg ;; ret None) ;;
   match created with
   | Some ev =>
       try_catch
         (db_run (update_booking lastID (set_google_event ev)) ;;
          sync_log "create" lastID (Some ev) "success" None ;;
          ret (Some ev))
         (fun msg => on_error msg ;; ret (Some ev))
   | None => ret None
   end)%prog.

(** The handler proper of [POST /]. *)
Definition create_booking (e : env) (req : request) : prog unit :=
  try_catch
    (let new_lesson_date := body_lesson_date req in
     let new_duration := body_duration req in
     let new_notes := body_notes req in
     if negb (Js.truthy new_lesson_date) || negb (bool_decide (default 0 new_duration ≠ 0))
     then reply (fail 400 "Lesson date and duration are required")
     else
       let lessonDateTime := Js.new_Date (engine e) (tz e) new_lesson_date in
       if not_after lessonDateTime (now e)
       then reply (fail 400 "Lesson must be scheduled for a future date and time")
       else
         let new_price : Q := if bool_decide (new_duration = Some 45) then 70%Q else 85%Q in
         t <- toISOString lessonDateTime ;;
         conflictingBooking <- db_get (conflicting_booking t) ;;
         match conflictingBooking with
         | Some _ => reply (fail 400 "This time slot is already booked")
         | None =>
             uid <- user_of req ;;
             lastID <- db_insert bookings_seq (fun i =>
                         insert_booking
                           (Booking i uid t (default 0 new_duration) new_price Pending new_notes 0
                                    None None None None None)) ;;
             googleEventId <- push_created e uid lastID t (default 0 new_duration) new_notes ;;
             reply (Response 201 true
                      ("Booking created successfully"
                       +:+ match googleEventId with
                           | Some _ => " and added to calendar"
                           | None => ""
                           end)
                      (BookingCreated lastID new_price (default 0 new_duration) t
                                      (bool_decide (is_Some googleEventId))))
         end)%prog
    (fun _ => reply (fail 500 "Failed to create booking")).

(** [router.post('/', authenticateToken, requireVerified, checkBlackoutDates, ...)] *)
Definition bookings_post (e : env) (req : request) : prog unit :=
  (req <- authenticateToken e req ;;
   requireVerified req ;;
   checkBlackoutDates e req ;;
   create_booking e req)%prog.

(** The calendar part of [PUT /:id]: the value [calendarUpdated] ends with. *)
Definition push_updated (e : env) (uid bid : Z) (b : booking) (t : Z) (nts : option string)
  : prog bool :=
  let ev := google_calendar_event_id b in
  let on_error (msg : string) : prog unit :=
    sync_log "update" bid ev "error" (Some msg) in
  (pushed <-
     try_catch
       (syncEnabled <- isCalendarSyncEnabled ;;
        if syncEnabled && Js.truthy ev
        then
          u <- client_of uid ;;
          let updatedBookingDetails :=
            BookingDetails (id b) uid t (duration b) (first_name u +:+ " " +:+ last_name u)
                           (email u) nts in
          outcome <- call (updateBookingEvent (gcal e) (default "" ev) updatedBookingDetails) ;;
          match outcome with
          | CalOk _ => ret (Some true)
          | CalFailed => ret (Some false)
          | CalThrows msg => throw msg
          end
        else ret None)
       (fun msg => on_error msg ;; ret None) ;;
   match pushed with
   | Some calendarUpdated =>
       try_catch
         (sync_log "update" bid ev (if calendarUpdated then "success" else "error")
                   (if calendarUpdated then None
                    else Some "Failed to update Google Calendar event") ;;
          ret calendarUpdated)
         (fun msg => on_error msg ;; ret calendarUpdated)
   | None => ret false
   end)%prog.

(** [SET lesson_date = ?, notes = ?, reschedule_count = reschedule_count + 1,
     original_date = COALESCE(original_date, ?), updated_at = CURRENT_TIMESTAMP] *)
Definition rescheduled_row (e : env) (t : Z) (nts : option string) (previous : Z)
           (r : booking) : booking :=
  Booking (id r) (user_id r) t (duration r) (price r) (status r) nts
          (reschedule_count r + 1)
          (Some (default previous (original_date r)))
          (cancellation_reason r) (cancelled_at r) (Some (now e))
          (google_calendar_event_id r).

(** The handler proper of [PUT /:id]. *)
Definition reschedule_booking (e : env) (req : request) : prog unit :=
  try_catch
    (let bookingId := params_id req in
     let new_lesson_date := body_lesson_date req in
     let new_notes := body_notes req in
     if negb (Js.truthy new_lesson_date)
     then reply (fail 400 "New lesson date is required")
     else
       uid <- user_of req ;;
       booking <- db_get (booking_of_user bookingId uid) ;;
       match booking with
       | None => reply (fail 404 "Booking not found")
       | Some b =>
           let newLessonDate := Js.new_Date (engine e) (tz e) new_lesson_date in
           let currentLessonDate := Some (lesson_date b) in
           if negb (same_month (tz e) newLessonDate currentLessonDate)
           then reply (fail 400 "Lessons can only be rescheduled within the same month")
           else
             t <- toISOString newLessonDate ;;
             conflictingBooking <- db_get (conflicting_booking_except t bookingId) ;;
             match conflictingBooking with
             | Some _ => reply (fail 400 "This time slot is already booked")
             | None =>
                 db_run (update_booking bookingId
                           (rescheduled_row e t new_notes (lesson_date b))) ;;
                 calendarUpdated <- push_updated e uid bookingId b t new_notes ;;
                 reply (ok ("Booking rescheduled successfully"
                            +:+ if calendarUpdated then " and calendar updated" else "")
                           (BookingRescheduled calendarUpdated))
             end
       end)%prog
    (fun _ => reply (fail 500 "Failed to update booking")).

(** [router.put('/:id', authenticateToken, requireVerified, checkReschedulePolicy,
     checkBlackoutDates, ...)] *)
Definition bookings_put (e : env) (req : request) : prog unit :=
  (req <- authenticateToken e req ;;
   requireVerified req ;;
   checkReschedulePolicy e req ;;
   checkBlackoutDates e req ;;
   reschedule_booking e req)%prog.

(** The calendar part of [DELETE /:id]: the value [calendarDeleted] ends with. *)
Definition push_deleted (e : env) (bid : Z) (b : booking) : prog bool :=
  let ev := google_calendar_event_id b in
  let on_error (msg : string) : prog unit :=
    sync_log "delete" bid ev "error" (Some msg) in
  (pushed <-
     try_catch
       (syncEnabled <- isCalendarSyncEnabled ;;
        if syncEnabled && Js.truthy ev
        then
          outcome <- call (deleteBookingEvent (gcal e) (default "" ev)) ;;
          match outcome with
          | CalOk _ => ret (Some true)
          | CalFailed => ret (Some false)
          | CalThrows msg => throw msg
          end
        else ret None)
       (fun msg => on_error msg ;; ret None) ;;
   match pushed with
   | Some calendarDeleted =>
       try_catch
         (sync_log "delete" bid ev (if calendarDeleted then "success" else "error")
                   (if calendarDeleted then None
                    else Some "Failed to delete Google Calendar event") ;;
          ret calendarDeleted)
         (fun msg => on_error msg ;; ret calendarDeleted)
   | None => ret false
   end)%prog.

(** [SET status = 'cancelled', cancelled_at = CURRENT_TIMESTAMP,
     updated_at = CURRENT_TIMESTAMP] *)
Definition cancelled_row (e : env) (r : booking) : booking :=
  Booking (id r) (user_id r) (lesson_date r) (duration r) (price r) Cancelled (notes r)
          (reschedule_count r) (original_date r) (cancellation_reason r)
          (Some (now e)) (Some (now e)) (google_calendar_event_id r).

(** The handler proper of [DELETE /:id]. *)
Definition cancel_booking (e : env) (req : request) : prog unit :=
  try_catch
    (let bookingId := params_id req in
     uid <- user_of req ;;
     booking <- db_get (booking_of_user bookingId uid) ;;
     match booking with
     | None => reply (fail 404 "Booking not found")
     | Some b =>
         db_run (update_booking bookingId (cancelled_row e)) ;;
         calendarDeleted <- push_deleted e bookingId b ;;
         reply (ok ("Booking cancelled successfully"
                    +:+ if calendarDeleted then " and removed from calendar" else "")
                   (BookingCancelled calendarDeleted))
     end)%prog
    (fun _ => reply (fail 500 "Failed to cancel booking")).

(** [router.delete('/:id', authenticateToken, requireVerified,
     checkCancellationPolicy, enforceCancellationCharging, ...)] *)
Definition bookings_delete (e : env) (req : request) : prog unit :=
  (req <- authenticateToken e req ;;
   requireVerified req ;;
   checks <- checkCancellationPolicy e req ;;
   enforceCancellationCharging e req checks ;;
   cancel_booking e req)%prog.

(** ** The recurring-booking router *)

(** Template-literal rendering of the [duration] field. *)
Definition duration_text (d : option Z) : string :=
  match d with
  | Some n => pretty n
  | None => "undefined"
  end.

Definition billing_row (e : env) (userId recurringBookingId : Z) (monthlyAmount : Q)
           (lessonsPerMonth : Z) (currentDate : Z) : billing_cycle :=
  let cycleMonth := Js.getMonth (tz e) currentDate + 1 in
  let cycleYear := Js.getFullYear (tz e) currentDate in
  (* First of the month billing date *)
  let billingDate := Js.make_local (tz e) cycleYear (cycleMonth - 1) 1 in
  (* Due date is 15th of the month *)
  let dueDate := Js.make_local (tz e) cycleYear (cycleMonth - 1) 15 in
  BillingCycle userId recurringBookingId cycleMonth cycleYear monthlyAmount
               lessonsPerMonth (Js.utc_date billingDate) (Js.utc_date dueDate).

(** [new Date(currentDate.getFullYear(), currentDate.getMonth() + 1, 1)] *)
Definition next_month (e : env) (currentDate : Z) : Z :=
  Js.make_local (tz e) (Js.getFullYear (tz e) currentDate)
                (Js.getMonth (tz e) currentDate + 1) 1.

(** The [while (currentDate <= end)] loop.  [fuel] bounds the number of
    turns; [billing_fuel] below always provides enough of it
    ([billing_loop_fuel_enough]), so the last branch is never reached. *)
Fixpoint billing_loop (fuel : nat) (e : env) (userId recurringBookingId : Z)
         (monthlyAmount : Q) (lessonsPerMonth : Z) (finish : Z) (currentDate : Z)
  : prog unit :=
  if currentDate <=? finish
  then
    match fuel with
    | S fuel' =>
        (db_run (insert_billing_cycle
                   (billing_row e userId recurringBookingId monthlyAmount lessonsPerMonth
                                currentDate)) ;;
         billing_loop fuel' e userId recurringBookingId monthlyAmount lessonsPerMonth
                      finish (next_month e currentDate))%prog
    | O => throw "unreachable"
    end
  else ret tt.

(** One turn per 28 days between the first month and the end, and one more. *)
Definition billing_fuel (finish currentDate : Z) : nat :=
  Z.to_nat ((finish - currentDate) / (28 * Js.msPerDay) + 1).

Definition generateBillingCycles (e : env) (recurringBookingId userId : Z)
           (startDate endDate : string) (lessonPrice : Q) (frequency : string)
  : prog unit :=
  let start := Js.Date_parse (engine e) (tz e) startDate in
  let finish := Js.Date_parse (engine e) (tz e) endDate in
  (* Calculate lessons per month based on frequency *)
  let lessonsPerMonth := if String.eqb frequency "weekly" then 4 else 2 in
  let monthlyAmount := (lessonPrice * inject_Z lessonsPerMonth)%Q in
  match start, finish with
  | Some s, Some f =>
      let currentDate :=
        Js.make_local (tz e) (Js.getFullYear (tz e) s) (Js.getMonth (tz e) s) 1 in
      billing_loop (billing_fuel f currentDate) e userId recurringBookingId
                   monthlyAmount lessonsPerMonth f currentDate
  | _, _ => ret tt   (* a comparison with the Invalid Date is false *)
  end.

(** [router.post('/', authenticateToken, ...)] of the recurring-booking routes. *)
Definition recurring_post (e : env) (req : request) : prog unit :=
  (req <- authenticateToken e req ;;
   try_catch
     (match req_user req with
      | None => reply (fail 401 "User not authenticated")
      | Some u =>
          let uid := u_id u in
          let new_duration := body_duration req in
          let new_lesson_type := default "regular" (body_lesson_type req) in
          (* Get pricing from settings *)
          let priceKey := "lesson_" +:+ duration_text new_duration +:+ "_price" in
          priceResult <- get_setting priceKey ;;
          match priceResult with
          | None => reply (fail 400 "Invalid lesson duration")
          | Some value =>
              let new_price := Js.parseFloat value in
              academicYearEnd <- get_setting "academic_year_end" ;;
              let startDateString := body_start_date req in
              let endDateString := setting_or academicYearEnd "2026-06-30" in
              match new_duration, new_price with
              | Some d, Some p =>
                  lastID <- db_insert recurring_seq (fun i =>
                              insert_recurring
                                (RecurringBooking i uid d p (body_day_of_week req)
                                   (body_time req) (body_frequency req) startDateString
                                   endDateString new_lesson_type)) ;;
                  generateBillingCycles e lastID uid startDateString endDateString p
                                        (body_frequency req) ;;
                  reply (ok "Recurring booking created successfully" (Created lastID))
              | _, _ =>
                  (* an absent duration and a NaN price are bound as NULL *)
                  throw "SQLITE_CONSTRAINT: NOT NULL constraint failed"
              end
          end
      end)
     (fun _ => reply (fail 500 "Failed to create recurring booking")))%prog.

(** ** The make-up router *)

(** [SELECT * FROM bookings WHERE id = ? AND user_id = ?
     AND status IN ('confirmed', 'cancelled')] *)
Definition makeup_eligible_booking (bid : option Z) (uid : Z) (w : world) : option booking :=
  b ← bid;
  List.find (fun r => (id r =? b) && (user_id r =? uid)
                      && match status r with Confirmed | Cancelled => true | _ => false end)
            (bookings w).

(** The handler proper of the make-up request route. *)
Definition request_makeup (e : env) (req : request) : prog unit :=
  try_catch
    (match req_user req with
     | None => reply (fail 401 "User not authenticated")
     | Some u =>
         let uid := u_id u in
         let original := body_original_booking_id req in
         originalBooking <- db_get (makeup_eligible_booking original uid) ;;
         match originalBooking with
         | None => reply (fail 404 "Original booking not found or not eligible for make-up")
         | Some ob =>
             (* Check current pending make-ups count *)
             maxPendingMakeups <- get_setting "max_pending_makeups" ;;
             pendingCount <- db_get (pending_makeups uid) ;;
             if ge_num pendingCount (Js.parseInt (setting_or maxPendingMakeups "2"))
             then reply (fail 400 ("Maximum " +:+ setting_or maxPendingMakeups "2"
                                   +:+ " pending make-up lessons allowed"))
             else
               match body_reason req with
               | None => throw "SQLITE_CONSTRAINT: NOT NULL constraint failed: makeup_lessons.reason"
               | Some why =>
                   lastID <- db_insert makeup_seq (fun i =>
                               insert_makeup (MakeupLesson i uid (id ob) None why MkPending)) ;;
                   reply (ok "Make-up lesson request created successfully" (Created lastID))
               end
         end
     end)%prog
    (fun _ => reply (fail 500 "Failed to create make-up lesson request")).

(** [router.post('/', authenticateToken, checkMakeupPolicy, ...)] *)
Definition makeup_post (e : env) (req : request) : prog unit :=
  (req <- authenticateToken e req ;;
   checkMakeupPolicy e req ;;
   request_makeup e req)%prog.

(** [UPDATE makeup_lessons SET ... WHERE id = ?] *)
Definition update_makeup (mid : Z) (f : makeup_lesson -> makeup_lesson) (w : world) : world :=
  set_makeup_lessons (List.map (fun m => if mk_id m =? mid then f m else m)) w.

(** The handler proper of the scheduling of a make-up by the instructor;
    [when] is [req.body.makeup_date]. *)
Definition schedule_makeup (mid : Z) (when : option string) : prog unit :=
  try_catch
    (db_run (update_makeup mid (fun m =>
               MakeupLesson (mk_id m) (mk_user_id m) (original_booking_id m) when
                            (reason m) MkScheduled)) ;;
     reply (ok "Make-up lesson scheduled successfully" NoData))%prog
    (fun _ => reply (fail 500 "Failed to schedule make-up lesson")).

(** [router.put('/:id/schedule', authenticateToken, requireRole('admin'), ...)] *)
Definition makeup_schedule (e : env) (req : request) (when : option string) : prog unit :=
  (req <- authenticateToken e req ;;
   requireRole "admin" req ;;
   schedule_makeup (params_id req) when)%prog.

(** The handler proper of the completion of a make-up. *)
Definition complete_makeup (mid : Z) : prog unit :=
  try_catch
    (db_run (update_makeup mid (fun m =>
               MakeupLesson (mk_id m) (mk_user_id m) (original_booking_id m) (makeup_date m)
                            (reason m) MkCompleted)) ;;
     reply (ok "Make-up lesson marked as completed" NoData))%prog
    (fun _ => reply (fail 500 "Failed to complete make-up lesson")).

(** [router.put('/:id/complete', authenticateToken, requireRole('admin'), ...)] *)
Definition makeup_complete (e : env) (req : request) : prog unit :=
  (req <- authenticateToken e req ;;
   requireRole "admin" req ;;
   complete_makeup (params_id req))%prog.

(** ** services/googleCalendar.ts: getAvailableSlots *)

(** Strict overlap of two intervals; a bound that is the Invalid Date makes
    both comparisons false. *)
Definition overlaps (slotStart slotEnd : Z) (otherStart otherEnd : option Z) : bool :=
  match otherStart, otherEnd with
  | Some s, Some f => (slotStart <? f) && (s <? slotEnd)
  | _, _ => false
  end.

(** The [while (currentTime < dayEnd)] loop that lays out the candidates.
    [slotEnd <= dayEnd] is false when [slotEnd] is the Invalid Date, which it
    is when the duration takes it out of the range of time values. *)
Fixpoint candidate_slots (fuel : nat) (dayEnd : Z) (dur : Z) (currentTime : Z) : list slot :=
  match fuel with
  | O => []
  | S fuel' =>
      if currentTime <? dayEnd
      then
        let slotEnd := Js.addMinutes currentTime dur in
        (if Js.is_time slotEnd && (slotEnd <=? dayEnd)
         then [Slot currentTime slotEnd true] else [])
        ++ candidate_slots fuel' dayEnd dur (Js.addMinutes currentTime 30)
      else []
  end.

(** Turns of that loop: one per half hour between the two bounds. *)
Definition slots_fuel (dayStart dayEnd : Z) : nat :=
  Z.to_nat ((dayEnd - dayStart) / (30 * Js.msPerMinute) + 1).

(** [for (const busy of busyTimes) { if (overlap) { slot.available = false; break } }] *)
Definition mark_busy (other : string -> option Z) (tzone : Z)
           (busyTimes : list (string * string)) (s : slot) : slot :=
  if existsb (fun busy => overlaps (slot_start s) (slot_end s)
                                   (Js.Date_parse other tzone (fst busy))
                                   (Js.Date_parse other tzone (snd busy)))
             busyTimes
  then Slot (slot_start s) (slot_end s) false
  else s.

(** The same against the bookings read from the store; slots already
    unavailable are skipped. *)
Definition mark_booked (existingBookings : list booking) (s : slot) : slot :=
  if negb (available s) then s
  else if existsb (fun b => overlaps (slot_start s) (slot_end s)
                                     (Some (lesson_date b))
                                     (Some (Js.addMinutes (lesson_date b) (duration b))))
                  existingBookings
  then Slot (slot_start s) (slot_end s) false
  else s.

(** [SELECT lesson_date, duration FROM bookings
     WHERE DATE(lesson_date) = ? AND status IN (?, ?)] *)
Definition bookings_on (date : string) (w : world) : list booking :=
  List.filter (fun b => String.eqb (Js.ymd_to_string (Js.utc_date (lesson_date b))) date
                        && non_terminal (status b))
              (bookings w).

Definition getAvailableSlots (e : env) (date : string) (dur : Z) : prog (list slot) :=
  try_catch
    (startHour <- get_setting "business_hours_start" ;;
     endHour <- get_setting "business_hours_end" ;;
     let businessStart := setting_or startHour "09:00" in
     let businessEnd := setting_or endHour "18:00" in
     let dayStart := Js.Date_parse (engine e) (tz e) (date +:+ "T" +:+ businessStart +:+ ":00") in
     let dayEnd := Js.Date_parse (engine e) (tz e) (date +:+ "T" +:+ businessEnd +:+ ":00") in
     let slots :=
       match dayStart, dayEnd with
       | Some s, Some f => candidate_slots (slots_fuel s f) f dur s
       | _, _ => []
       end in
     s <- toISOString dayStart ;;
     f <- toISOString dayEnd ;;
     busyTimes <- call (getBusyTimes (gcal e) s f) ;;
     let slots1 := List.map (mark_busy (engine e) (tz e) busyTimes) slots in
     existingBookings <- db_get (bookings_on date) ;;
     let slots2 := List.map (mark_booked existingBookings) slots1 in
     ret (List.filter available slots2))%prog
    (fun _ => ret []).


(** *** routes/bookings.ts: the hourly availability route *)

(** [TIME(lesson_date)]: the [HH:MM:SS] of a stored instant, as a count of
    seconds. *)
Definition utc_time (t : Z) : Z := (t mod Js.msPerDay) / 1000.

(** [SELECT id FROM bookings WHERE DATE(lesson_date) = DATE(?)
     AND TIME(lesson_date) = TIME(?) AND status NOT IN ('cancelled', 'completed')] *)
Definition booking_at (requestedDate slotTime : Z) (w : world) : option booking :=
  List.find (fun b => Js.ymd_eqb (Js.utc_date (lesson_date b)) (Js.utc_date requestedDate)
                      && (utc_time (lesson_date b) =? utc_time slotTime)
                      && blocks_slot (status b))
            (bookings w).

(** [slotTime.setHours(hour, 0, 0, 0)] on a copy of [requestedDate]. *)
Definition setHours (zone : Z) (d : Z) (hour : Z) : Z :=
  Js.local_midnight zone (Js.getFullYear zone d) (Js.getMonth zone d) (Js.getDate zone d)
  + hour * 3600000.

(** The body of [for (let hour = businessStart; hour < businessEnd; hour++)],
    over the hours still to visit. *)
Fixpoint hourly_slots (e : env) (requestedDate : option Z) (hours : list Z)
         (availableSlots : list (Z * bool)) : prog (list (Z * bool)) :=
  match hours with
  | [] => ret availableSlots
  | hour :: rest =>
      (r <- toISOString requestedDate ;;
       let slotTime := setHours (tz e) r hour in
       existingBooking <- db_get (booking_at r slotTime) ;;
       hourly_slots e requestedDate rest
                    (availableSlots ++ [(slotTime, negb (bool_decide (is_Some existingBooking)))]))%prog
  end.

(** [router.get('/availability/:date', ...)] of the booking routes: business
    hours fixed at 9 to 18, one slot per hour. *)
Definition bookings_availability (e : env) (date : string) : prog unit :=
  try_catch
    (let requestedDate := Js.Date_parse (engine e) (tz e) date in
     let businessStart := 9 in
     let businessEnd := 18 in
     availableSlots <-
       hourly_slots e requestedDate (seqZ businessStart (businessEnd - businessStart)) [] ;;
     reply (ok "" (HourlySlots availableSlots)))%prog
    (fun _ => reply (fail 500 "Failed to fetch availability")).

(** ** A sample studio *)

(** An engine that reads no date beyond the format of the language.  The
    samples below carry dates in that format, or words without a digit,
    which no engine reads as a date. *)
Definition iso_only : string -> option Z := fun _ => None.

Definition no_calendar : calendar :=
  Calendar (fun _ => CalFailed) (fun _ _ => CalFailed) (fun _ => CalFailed)
           (fun _ _ => []).

(** The settings that [createTables] seeds. *)
Definition seeded_settings : gmap string string :=
  list_to_map
    [ ("business_hours_start", "09:00"); ("business_hours_end", "18:00");
      ("lesson_30_price", "60.00"); ("lesson_45_price", "80.00");
      ("lesson_60_price", "95.00"); ("max_reschedules_per_month", "2");
      ("max_pending_makeups", "2"); ("cancellation_policy_hours", "24");
      ("academic_year_start", "2025-09-01"); ("academic_year_end", "2026-06-30") ].

(** The instructor and two verified clients. *)
Definition patricia : user := User 1 "Patricia" "Freund" "patricia@example.org" "admin" true.
Definition ada : user := User 7 "Ada" "Byron" "ada@example.org" "client" true.
Definition bob : user := User 8 "Bob" "Dylan" "bob@example.org" "client" true.
Definition clients : list user := [patricia; ada; bob].

Definition empty_world : world :=
  World [] 0 [] seeded_settings [] [] 0 [] 0 [] [] clients false None.

Definition blank_request : request :=
  Request NoToken None 0 None None None None None None 0 "" "" "" None.

(** ** Outcomes and sample data named by the properties *)

Definition cross_month_rejection : response :=
  fail 400 "Lessons can only be rescheduled within the same month".

(** A studio with one confirmed lesson of client 7, on 2025-11-10 at 14:00 UTC,
    seen on 2025-11-01 by a process running in UTC. *)
Definition lesson_nov_10 : booking :=
  Booking 1 7 1762783200000 60 85 Confirmed None 0 None None None None None.

Definition studio : world :=
  World [lesson_nov_10] 1 [] seeded_settings [] [] 0 [] 0 [] [] clients false None.

Definition nov_1_utc : env := Env 1761955200000 0 no_calendar true iso_only.

Definition move_to_nov_12 : request :=
  Request (Token 7) None 1 (Some "2025-11-12T14:00:00.000Z") None None None None None
          0 "" "" "" None.

(** The tables that the booking routes and the make-up routes never write. *)
Definition other_tables_kept (w w' : world) : Prop :=
  settings w' = settings w /\ blackout_dates w' = blackout_dates w
  /\ recurring_bookings w' = recurring_bookings w /\ billing_cycles w' = billing_cycles w
  /\ users w' = users w.

(** The row a late cancellation leaves behind. *)
Definition late_cancelled_row (e : env) (r : booking) : booking :=
  Booking (id r) (user_id r) (lesson_date r) (duration r) (price r) Cancelled (notes r)
          (reschedule_count r) (original_date r) (Some late_cancellation_reason)
          (Some (now e)) (updated_at r) (google_calendar_event_id r).

Definition late_cancellation_fee (b : booking) : payment :=
  Payment (id b) (price b) "automatic_charge" "pending" "late_cancellation_fee".


(** A late cancellation, table by table.  The caller is told of the
    charge.  [payments] has one more row: a pending payment of the full
    price of the lesson, by [automatic_charge], tagged
    [late_cancellation_fee].  In [bookings] the row of booking [b] has the
    status [Cancelled], the reason that names the charge and the time of
    the request as [cancelled_at], and is otherwise as it was; the other rows
    are as they were. *)
Definition charged_cancellation (e : env) (b : booking) (w : world)
           (out : result unit * world) : Prop :=
  fst out = Reply (Response 200 true
                     "Booking cancelled with automatic charge due to 24-hour policy violation"
                     (Charged (price b)))
  /\ payments (snd out)
     = (payments w
        ++ [Payment (id b) (price b) "automatic_charge" "pending" "late_cancellation_fee"])%list
  /\ bookings (snd out)
     = List.map (fun r => if id r =? id b
                          then Booking (id r) (user_id r) (lesson_date r) (duration r)
                                       (price r) Cancelled (notes r) (reschedule_count r)
                                       (original_date r)
                                       (Some "Late cancellation - automatic charge applied")
                                       (Some (now e)) (updated_at r)
                                       (google_calendar_event_id r)
                          else r)
                (bookings w)
  /\ In (Booking (id b) (user_id b) (lesson_date b) (duration b) (price b) Cancelled
                 (notes b) (reschedule_count b) (original_date b)
                 (Some "Late cancellation - automatic charge applied")
                 (Some (now e)) (updated_at b) (google_calendar_event_id b))
        (bookings (snd out))
  /\ calendar_sync_log (snd out) = calendar_sync_log w
  /\ other_tables_kept w (snd out).

Definition one_second_inside : env := Env (1762783200000 - 24 * 3600000 + 1000) 0 no_calendar true iso_only.

Definition cancel_nov_10 : request :=
  Request (Token 7) None 1 None None None None None None 0 "" "" "" None.


(** The rows the pending count of a client counts. *)
Definition counts_for (uid : Z) (m : makeup_lesson) : bool :=
  (mk_user_id m =? uid) && match mk_status m with MkPending => true | _ => false end.


Definition makeup_granted (uid : Z) (ob : booking) (why : string) (w : world)
           (out : result unit * world) : Prop :=
  out = (Reply (ok "Make-up lesson request created successfully"
                   (Created (makeup_seq w + 1))),
         insert_makeup (MakeupLesson (makeup_seq w + 1) uid (id ob) None why MkPending) w).

(** A request that was recorded, table by table.  The caller is answered
    with the id of the new row.  [makeup_lessons] has one more row: pending,
    for the caller and the booking named, with the reason given and no date
    yet; the pending count of the caller is one higher.  Every other table
    is as it was. *)
Definition makeup_recorded (uid : Z) (ob : booking) (why : string) (w : world)
           (out : result unit * world) : Prop :=
  fst out = Reply (Response 200 true "Make-up lesson request created successfully"
                            (Created (makeup_seq w + 1)))
  /\ makeup_lessons (snd out)
     = (makeup_lessons w
        ++ [MakeupLesson (makeup_seq w + 1) uid (id ob) None why MkPending])%list
  /\ makeup_seq (snd out) = makeup_seq w + 1
  /\ pending_makeups uid (snd out) = pending_makeups uid w + 1
  /\ bookings (snd out) = bookings w
  /\ payments (snd out) = payments w
  /\ calendar_sync_log (snd out) = calendar_sync_log w
  /\ other_tables_kept w (snd out).

(** The ways a make-up request leaves the pending state. *)
Inductive makeup_transition :=
| Schedule (when : option string)
| Complete.

Definition apply_transition (e : env) (req : request) (t : makeup_transition) : prog unit :=
  match t with
  | Schedule when => makeup_schedule e req when
  | Complete => makeup_complete e req
  end.

(** The instructor's request on make-up [mid]. *)
Definition by_instructor (mid : Z) : request :=
  Request (Token 1) None mid None None None None None None 0 "" "" "" None.

(** Client 7 holds a cancelled lesson and two pending make-up requests. *)
Definition cancelled_lesson : booking :=
  Booking 1 7 1762783200000 60 85 Cancelled None 0 None None None None None.

Definition two_pending : world :=
  World [cancelled_lesson] 1 [] seeded_settings []
        [MakeupLesson 1 7 1 None "flu" MkPending; MakeupLesson 2 7 1 None "travel" MkPending]
        2 [] 0 [] [] clients false None.

Definition ask_makeup : request :=
  Request (Token 7) None 0 None None None None (Some 1) (Some "snow") 0 "" "" "" None.

(** The local state of the store: what remains when the references to
    calendar events and the sync log, which only mirror the external
    calendar, are put aside. *)
Definition forget_event (r : booking) : booking :=
  Booking (id r) (user_id r) (lesson_date r) (duration r) (price r) (status r) (notes r)
          (reschedule_count r) (original_date r) (cancellation_reason r) (cancelled_at r)
          (updated_at r) None.

Definition local_state (w : world) : world :=
  with_sync_log [] (set_bookings (List.map forget_event) w).

(** A request that is refused and leaves the store as it was. *)
Definition turned_away (w : world) (out : result unit * world) : Prop :=
  exists r, fst out = Reply r /\ success r = false /\ snd out = w.

(** The month and year whose reschedules the gate counts for booking [b]. *)
Definition reschedules_so_far (e : env) (uid : Z) (b : booking) (w : world) : Z :=
  reschedule_count_in_month uid (Js.getMonth (tz e) (lesson_date b) + 1)
                            (Js.getFullYear (tz e) (lesson_date b)) w.

Definition max_reschedules (w : world) : option Z :=
  Js.parseInt (setting_or (settings w !! "max_reschedules_per_month") "2").

Definition reschedule_done (e : env) (req : request) (w : world)
           (out : result unit * world) : Prop :=
  exists r u b t,
    fst out = Reply r /\ success r = true
    /\ signed_in e req w u /\ is_verified u = true
    /\ booking_of_user (params_id req) (u_id u) w = Some b
    /\ Js.new_Date (engine e) (tz e) (body_lesson_date req) = Some t
    /\ same_month (tz e) (Some t) (Some (lesson_date b)) = true
    /\ (forall h, max_reschedules w = Some h -> reschedules_so_far e (u_id u) b w < h)
    /\ conflicting_booking_except t (params_id req) w = None
    /\ bookings (snd out)
       = bookings (update_booking (params_id req)
                     (rescheduled_row e t (body_notes req) (lesson_date b)) w)
    /\ local_state (snd out)
       = local_state (update_booking (params_id req)
                        (rescheduled_row e t (body_notes req) (lesson_date b)) w).





(** Client 7 asks to move the lesson of 2025-11-10 to 2025-11-12, naming the
    new date in both fields. *)
Definition move_within_nov : request :=
  Request (Token 7) None 1 (Some "2025-11-12T14:00:00.000Z") (Some "2025-11-12T14:00:00.000Z")
          None None None None 0 "" "" "" None.

(** Two runs of one request that answer the caller with the same status and
    leave the same local state. *)
Definition same_local_outcome (out out' : result unit * world) : Prop :=
  exists r r',
    fst out = Reply r /\ fst out' = Reply r'
    /\ code r = code r' /\ success r = success r'
    /\ local_state (snd out) = local_state (snd out').

(** A push that did not go through: the service reported failure, or
    threw, or (for a creation) returned no usable event id. *)
Definition push_failed {A : Type} (r : cal_result A) : Prop :=
  match r with
  | CalOk _ => False
  | _ => True
  end.

Definition create_failed (r : cal_result string) : Prop :=
  match r with
  | CalOk (String _ _) => False
  | _ => True
  end.

(** From [w] to [w'] the sync log gained exactly one entry, an error for
    action [act] on booking [bid], and no other table changed. *)
Definition logged_error (act : string) (bid : Z) (w w' : world) : Prop :=
  (exists ev msg,
      calendar_sync_log w'
      = (calendar_sync_log w ++ [SyncEntry act bid ev "error" (Some msg)])%list)
  /\ bookings w' = bookings w /\ payments w' = payments w
  /\ makeup_lessons w' = makeup_lessons w
  /\ other_tables_kept w w'.

(** A creation that went through while the push to the calendar failed.
    The caller is told 201, with no mention of the calendar.  [bookings] has
    one more row, pending and with no calendar event.  The sync log has one
    more entry: an error for the action [create] on the new booking.  No
    other table changed. *)
Definition created_unsynced (e : env) (req : request) (w : world)
           (out : result unit * world) : Prop :=
  exists u t msg,
    signed_in e req w u
    /\ Js.new_Date (engine e) (tz e) (body_lesson_date req) = Some t
    /\ fst out = Reply (Response 201 true "Booking created successfully"
                          (BookingCreated (bookings_seq w + 1)
                             (if bool_decide (body_duration req = Some 45) then 70%Q else 85%Q)
                             (default 0 (body_duration req)) t false))
    /\ bookings (snd out)
       = (bookings w
          ++ [Booking (bookings_seq w + 1) (u_id u) t (default 0 (body_duration req))
                      (if bool_decide (body_duration req = Some 45) then 70%Q else 85%Q)
                      Pending (body_notes req) 0 None None None None None])%list
    /\ calendar_sync_log (snd out)
       = (calendar_sync_log w
          ++ [SyncEntry "create" (bookings_seq w + 1) None "error" (Some msg)])%list
    /\ payments (snd out) = payments w
    /\ makeup_lessons (snd out) = makeup_lessons w
    /\ other_tables_kept w (snd out).

(** A reschedule that went through while the push to the calendar failed.
    The caller is told 200, with no mention of the calendar.  In [bookings]
    the row of the booking has the new date and the new notes, one more
    reschedule, its first date as original date and the time of the request
    as [updated_at]; the other rows are as they were.  If the booking had a
    calendar event, the sync log has one more entry: an error for the action
    [update] on the booking; if it had none, nothing was pushed and the log
    is as it was.  No other table changed. *)
Definition moved_unsynced (e : env) (req : request) (w : world)
           (out : result unit * world) : Prop :=
  exists u b t,
    signed_in e req w u
    /\ booking_of_user (params_id req) (u_id u) w = Some b
    /\ Js.new_Date (engine e) (tz e) (body_lesson_date req) = Some t
    /\ fst out = Reply (Response 200 true "Booking rescheduled successfully"
                          (BookingRescheduled false))
    /\ bookings (snd out)
       = List.map (fun r => if id r =? params_id req
                            then Booking (id r) (user_id r) t (duration r) (price r)
                                         (status r) (body_notes req)
                                         (reschedule_count r + 1)
                                         (Some (default (lesson_date b) (original_date r)))
                                         (cancellation_reason r) (cancelled_at r)
                                         (Some (now e)) (google_calendar_event_id r)
                            else r)
                  (bookings w)
    /\ (if Js.truthy (google_calendar_event_id b)
        then exists msg,
               calendar_sync_log (snd out)
               = (calendar_sync_log w
                  ++ [SyncEntry "update" (params_id req) (google_calendar_event_id b)
                                "error" (Some msg)])%list
        else calendar_sync_log (snd out) = calendar_sync_log w)
    /\ payments (snd out) = payments w
    /\ makeup_lessons (snd out) = makeup_lessons w
    /\ other_tables_kept w (snd out).

(** A cancellation free of charge that went through while the push to the
    calendar failed.  The caller is told 200, with no mention of the
    calendar.  In [bookings] the row of the booking is cancelled at the
    time of the request; the other rows are as they were.  If the booking
    had a calendar event, the sync log has one more entry: an error for the
    action [delete] on the booking; if it had none, nothing was pushed and
    the log is as it was.  No other table changed. *)
Definition cancelled_unsynced (e : env) (req : request) (w : world)
           (out : result unit * world) : Prop :=
  exists u b,
    signed_in e req w u
    /\ booking_of_user (params_id req) (u_id u) w = Some b
    /\ fst out = Reply (Response 200 true "Booking cancelled successfully"
                          (BookingCancelled false))
    /\ bookings (snd out)
       = List.map (fun r => if id r =? params_id req
                            then Booking (id r) (user_id r) (lesson_date r) (duration r)
                                         (price r) Cancelled (notes r) (reschedule_count r)
                                         (original_date r) (cancellation_reason r)
                                         (Some (now e)) (Some (now e))
                                         (google_calendar_event_id r)
                            else r)
                  (bookings w)
    /\ (if Js.truthy (google_calendar_event_id b)
        then exists msg,
               calendar_sync_log (snd out)
               = (calendar_sync_log w
                  ++ [SyncEntry "delete" (params_id req) (google_calendar_event_id b)
                                "error" (Some msg)])%list
        else calendar_sync_log (snd out) = calendar_sync_log w)
    /\ payments (snd out) = payments w
    /\ makeup_lessons (snd out) = makeup_lessons w
    /\ other_tables_kept w (snd out).

(** A late cancellation: the caller is told of the charge; nothing is pushed
    to the calendar and the sync log is as it was. *)
Definition cancelled_with_charge (w : world) (out : result unit * world) : Prop :=
  exists p,
    fst out = Reply (Response 200 true
                       "Booking cancelled with automatic charge due to 24-hour policy violation"
                       (Charged p))
    /\ calendar_sync_log (snd out) = calendar_sync_log w.

(** A calendar on which every push fails: by a reported failure, by an
    exception or, for a creation, by an empty event id. *)
Definition pushes_fail (cal : calendar) : Prop :=
  (forall d, create_failed (createBookingEvent cal d))
  /\ (forall ev d, push_failed (updateBookingEvent cal ev d))
  /\ (forall ev, push_failed (deleteBookingEvent cal ev)).

(** A calendar on which every call throws. *)
Definition calendar_down : calendar :=
  Calendar (fun _ => CalThrows "ETIMEDOUT") (fun _ _ => CalThrows "ETIMEDOUT")
           (fun _ => CalThrows "ETIMEDOUT") (fun _ _ => []).

(** A calendar on which every call succeeds. *)
Definition calendar_up : calendar :=
  Calendar (fun _ => CalOk "evt_1") (fun _ _ => CalOk tt) (fun _ => CalOk tt)
           (fun _ _ => []).

(** Sync is on; client 7 is known and has a synced lesson. *)
Definition synced_lesson : booking :=
  Booking 1 7 1762783200000 60 85 Confirmed None 0 None None None None (Some "evt_0").

Definition synced_studio : world :=
  World [synced_lesson] 1 [] seeded_settings [] [] 0 [] 0 [] []
        clients true None.

Definition book_nov_20 : request :=
  Request (Token 7) None 0 (Some "2025-11-20T14:00:00.000Z") None (Some 60) None None None
          0 "" "" "" None.

(** ** The double-booking invariant *)

(** At most one non-terminal booking per start timestamp. *)
Definition no_double_booking (w : world) : Prop :=
  forall b1 b2,
    In b1 (bookings w) -> In b2 (bookings w) ->
    non_terminal (status b1) = true -> non_terminal (status b2) = true ->
    lesson_date b1 = lesson_date b2 ->
    id b1 = id b2.

(** A store as SQLite keeps it: keys are unique and below the AUTOINCREMENT
    counter; writes are accepted; no slot is double-booked. *)
Definition store_ok (w : world) : Prop :=
  writes_left w = None
  /\ NoDup (List.map id (bookings w))
  /\ (forall b, In b (bookings w) -> id b <= bookings_seq w)
  /\ no_double_booking w.

Inductive operation :=
| CreateBooking (e : env) (req : request)
| RescheduleBooking (e : env) (req : request).

Definition perform (o : operation) : prog unit :=
  match o with
  | CreateBooking e req => bookings_post e req
  | RescheduleBooking e req => bookings_put e req
  end.

(** Operations carried out one after the other, each to its end. *)
Fixpoint perform_all (ops : list operation) (w : world) : world :=
  match ops with
  | [] => w
  | o :: rest => perform_all rest (snd (run (perform o) w))
  end.

(** The slot conflict answer. *)
Definition slot_taken : response := fail 400 "This time slot is already booked".

(** Two clients ask for 2025-11-20 14:00 UTC at the same moment. *)
Definition book_nov_20_too : request :=
  Request (Token 8) None 0 (Some "2025-11-20T14:00:00.000Z") None (Some 45) None None None
          0 "" "" "" None.

Definition two_creates : list (prog unit) :=
  [bookings_post nov_1_utc book_nov_20; bookings_post nov_1_utc book_nov_20_too].

(** Both conflict checks complete before either insert. *)
Definition racing_schedule : list nat := [0; 1; 0; 1; 0; 1; 0; 1; 0; 1]%nat.

(** The guarantee as the design states it: however two create-or-reschedule
    requests that are in flight together are interleaved, no slot ends up
    double-booked. *)
Definition serialized_per_timestamp : Prop :=
  forall (o1 o2 : operation) (w : world) (schedule : list nat),
    store_ok w ->
    no_double_booking (snd (interleave schedule [perform o1; perform o2] w)).

(** A booking request that went through: a pending row for the slot was
    inserted, and the slot was free. *)
Definition booking_created (e : env) (req : request) (w : world)
           (out : result unit * world) : Prop :=
  exists r uid t p,
    fst out = Reply r /\ success r = true /\ code r = 201
    /\ Js.new_Date (engine e) (tz e) (body_lesson_date req) = Some t
    /\ conflicting_booking t w = None
    /\ local_state (snd out)
       = local_state (insert_booking
                        (Booking (bookings_seq w + 1) uid t (default 0 (body_duration req)) p
                                 Pending (body_notes req) 0 None None None None None)
                        w).

(** ** What the availability resolver answers *)








(** Thanksgiving week is blacked out; nothing is booked. *)
Definition thanksgiving_closed : world :=
  World [] 0 [] seeded_settings
        [BlackoutDate (Js.Ymd 2025 11 24) (Js.Ymd 2025 11 29) "Thanksgiving Break" true]
        [] 0 [] 0 [] [] clients false None.


(** A Tuesday with a confirmed lesson of client 7 from 10:00 to 11:00 UTC,
    and a calendar that reports the hour from 13:00 to 14:00 as busy. *)
Definition tuesday_lesson : booking :=
  Booking 1 7 1764064800000 60 85 Confirmed None 0 None None None None None.

Definition tuesday_booked : world :=
  World [tuesday_lesson] 1 [] seeded_settings [] [] 0 [] 0 [] [] clients false None.

Definition busy_hour_calendar : calendar :=
  Calendar (fun _ => CalFailed) (fun _ _ => CalFailed) (fun _ => CalFailed)
           (fun _ _ => [("2025-11-25T13:00:00.000Z", "2025-11-25T14:00:00.000Z")]).

Definition utc_with_busy_hour : env := Env 1761955200000 0 busy_hour_calendar true iso_only.

(** A process eight hours west of UTC, and a confirmed lesson on 2025-11-25
    at 16:00 of its clock: 2025-11-26 at 00:00 UTC. *)
Definition eight_hours_west : env := Env 1761955200000 (-480) no_calendar true iso_only.

Definition evening_lesson : booking :=
  Booking 1 7 1764115200000 60 85 Confirmed None 0 None None None None None.

Definition evening_booked : world :=
  World [evening_lesson] 1 [] seeded_settings [] [] 0 [] 0 [] [] clients false None.

(** The client's bookings that were rescheduled at least once and whose
    date, read by a clock [zone] minutes east of UTC, lies in month [m]
    (1..12) of year [y]: the count that the reschedule quota is about, taken
    in one zone throughout. *)
Definition rescheduled_in_month (zone uid m y : Z) (w : world) : list booking :=
  List.filter
    (fun b => (user_id b =? uid) && (0 <? reschedule_count b)
              && (Js.getMonth zone (lesson_date b) + 1 =? m)
              && (Js.getFullYear zone (lesson_date b) =? y))
    (bookings w).

(** Three lessons of client 7 on the evening of 2025-11-30 of a clock eight
    hours west of UTC, at 16:00, 17:00 and 18:00: 2025-12-01 at 00:00, 01:00
    and 02:00 UTC.  The first two were rescheduled once already. *)
Definition first_moved_lesson : booking :=
  Booking 1 7 1764547200000 60 85 Confirmed None 1 (Some 1764511200000) None None None None.

Definition second_moved_lesson : booking :=
  Booking 2 7 1764550800000 60 85 Confirmed None 1 (Some 1764514800000) None None None None.

Definition third_lesson : booking :=
  Booking 3 7 1764554400000 60 85 Confirmed None 0 None None None None None.

Definition quota_used_up : world :=
  World [first_moved_lesson; second_moved_lesson; third_lesson] 3 [] seeded_settings
        [] [] 0 [] 0 [] [] clients false None.

(** Client 7 asks to move the third lesson one hour on, to 19:00 of the same
    evening: 2025-12-01 at 03:00 UTC. *)
Definition move_third_lesson : request :=
  Request (Token 7) None 3 (Some "2025-12-01T03:00:00.000Z") (Some "2025-12-01T03:00:00.000Z")
          None None None None 0 "" "" "" None.

(** ** Sample requests for bookings and commitments *)

(** A lesson of 17 minutes, a duration no price is configured for. *)
Definition book_17_minutes : request :=
  Request (Token 7) None 0 (Some "2025-11-20T14:00:00.000Z") None (Some 17) None None None
          0 "" "" "" None.

(** A weekly 60-minute commitment from 2025-09-01, the seeded start of the
    academic year, to its seeded end, 2026-06-30: ten calendar months. *)
Definition weekly_from_sep_1 : request :=
  Request (Token 7) None 0 None None (Some 60) None None None 1 "16:00" "weekly" "2025-09-01" None.

Definition biweekly_from_sep_1 : request :=
  Request (Token 7) None 0 None None (Some 60) None None None 1 "16:00" "biweekly" "2025-09-01" None.

(** The same for a duration of 90 minutes, which has no price. *)
Definition weekly_90_minutes : request :=
  Request (Token 7) None 0 None None (Some 90) None None None 1 "16:00" "weekly" "2025-09-01" None.

(** The studio's zone, America/Los_Angeles, at its winter offset, and a zone
    one hour east of UTC. *)
Definition los_angeles : env := Env 1756000000000 (-480) no_calendar true iso_only.
Definition central_europe : env := Env 1756000000000 60 no_calendar true iso_only.
Definition utc : env := Env 1756000000000 0 no_calendar true iso_only.

(** A database that rejects its fourth write. *)
Definition failing_disk : world :=
  World [] 0 [] seeded_settings [] [] 0 [] 0 [] [] clients false (Some 3%nat).

(** All-or-nothing creation of a commitment, as the design states it: a
    request that is answered with an error leaves neither a commitment nor
    any billing cycle behind. *)
Definition billing_all_or_nothing : Prop :=
  forall (e : env) (req : request) (w w' : world) (r : response),
    run (recurring_post e req) w = (Reply r, w') ->
    success r = false ->
    recurring_bookings w' = recurring_bookings w
    /\ billing_cycles w' = billing_cycles w.

Definition invalid_duration : response := fail 400 "Invalid lesson duration".

(** The settings key under which the price of a duration is looked up. *)
Definition price_key (req : request) : string :=
  "lesson_" +:+ duration_text (body_duration req) +:+ "_price".

(** ** Months as the billing loop walks them *)

(** Months counted from January of year 0. *)
Definition month_index (c : Js.ymd) : Z := Js.year c * 12 + Js.month c - 1.

(** Day number of the first day of the month with index [i]. *)
Definition month_start (i : Z) : Z := Js.days_from_civil (i / 12) (i mod 12 + 1) 1.

(** Local midnight of that day. *)
Definition first_of_month (zone i : Z) : Z :=
  month_start i * Js.msPerDay - zone * Js.msPerMinute.

Definition year_of_era (doe : Z) : Z :=
  (doe - doe / 1460 + doe / 36524 - doe / 146096) / 365.


(** The billing cycle the loop writes for the month with index [i]. *)
Definition cycle_for (e : env) (userId recurringBookingId : Z) (lessonPrice : Q)
           (frequency : string) (i : Z) : billing_cycle :=
  let lessonsPerMonth := if String.eqb frequency "weekly" then 4 else 2 in
  BillingCycle userId recurringBookingId (i mod 12 + 1) (i / 12)
               (lessonPrice * inject_Z lessonsPerMonth)%Q lessonsPerMonth
               (Js.utc_date (first_of_month (tz e) i))
               (Js.utc_date (first_of_month (tz e) i + 14 * Js.msPerDay)).

Definition add_cycles (cs : list billing_cycle) (w : world) : world :=
  fold_left (fun w c => insert_billing_cycle c w) cs w.

(** The months from index [a] to index [b], both included. *)
Definition month_range (a b : Z) : list Z := seqZ a (b - a + 1).

(** ** Further routes and the vocabulary of the further properties *)

(** The writing routes of the three routers that sit behind
    [authenticateToken]; [when] is the [makeup_date] of the scheduling
    route. *)
Definition protected_routes (e : env) (req : request) (when : option string)
  : list (prog unit) :=
  [ bookings_post e req; bookings_put e req; bookings_delete e req;
    recurring_post e req; makeup_post e req;
    makeup_schedule e req when; makeup_complete e req ].

(** Those that also sit behind [requireVerified]. *)
Definition verified_routes (e : env) (req : request) : list (prog unit) :=
  [ bookings_post e req; bookings_put e req; bookings_delete e req ].

(** Those that sit behind [requireRole('admin')]. *)
Definition instructor_routes (e : env) (req : request) (when : option string)
  : list (prog unit) :=
  [ makeup_schedule e req when; makeup_complete e req ].

(** A client whose address is not verified yet, beside the others. *)
Definition newcomer : user := User 9 "Nina" "Simone" "nina@example.org" "client" false.

Definition front_desk : world :=
  World [lesson_nov_10] 1 [] seeded_settings [] [] 0 [] 0 [] [] (clients ++ [newcomer])
        false None.

Definition book_as_newcomer : request :=
  Request (Token 9) None 0 (Some "2025-11-20T14:00:00.000Z") None (Some 60) None None None
          0 "" "" "" None.

(** Client 7 asks for the completion of make-up [mid]. *)
Definition by_client (mid : Z) : request :=
  Request (Token 7) None mid None None None None None None 0 "" "" "" None.

(** *** The three requests of the booking lifecycle *)

Inductive client_request :=
| Book (e : env) (req : request)
| Move (e : env) (req : request)
| Cancel (e : env) (req : request).

Definition serve (c : client_request) : prog unit :=
  match c with
  | Book e req => bookings_post e req
  | Move e req => bookings_put e req
  | Cancel e req => bookings_delete e req
  end.

(** Requests served one after the other, each to its end. *)
Fixpoint serve_all (cs : list client_request) (w : world) : world :=
  match cs with
  | [] => w
  | c :: rest => serve_all rest (snd (run (serve c) w))
  end.

(** What a booking row keeps through the requests of clients: its key, its
    owner, its duration and its price; its reschedule count does not go
    down; its original date, once recorded, stays. *)
Definition keeps_identity (r r' : booking) : Prop :=
  id r' = id r /\ user_id r' = user_id r /\ duration r' = duration r /\ price r' = price r
  /\ reschedule_count r <= reschedule_count r'
  /\ (forall d, original_date r = Some d -> original_date r' = Some d).

(** The two ways a cancellation goes through. *)
Definition cancelled_free (e : env) (req : request) (w : world)
           (out : result unit * world) : Prop :=
  exists flag l,
    out = (Reply (ok ("Booking cancelled successfully"
                      +:+ if flag : bool then " and removed from calendar" else "")
                     (BookingCancelled flag)),
           with_sync_log l (update_booking (params_id req) (cancelled_row e) w)).

Definition cancelled_late (e : env) (req : request) (b : booking) (w : world)
           (out : result unit * world) : Prop :=
  out = (Reply (Response 200 true
                  "Booking cancelled with automatic charge due to 24-hour policy violation"
                  (Charged (price b))),
         update_booking (params_id req) (late_cancelled_row e)
                        (insert_payment (late_cancellation_fee b) w)).

(** Client 8 names booking 1, which is client 7's. *)
Definition by_bob_on_1 (when : option string) : request :=
  Request (Token 8) None 1 when when None None None None 0 "" "" "" None.

(** *** Creation of a booking *)

(** [const dateToCheck = new_date || lesson_date] of [checkBlackoutDates]. *)
Definition date_checked (req : request) : option string :=
  if Js.truthy (body_new_date req) then body_new_date req else body_lesson_date req.

(** Day [d] lies in an active blackout range of the store. *)
Definition closed_on (d : Js.ymd) (w : world) : Prop :=
  exists r,
    In r (blackout_dates w) /\ is_active r = true
    /\ Js.ymd_leb (bo_start_date r) d = true /\ Js.ymd_leb d (bo_end_date r) = true.

(** The conditions under which [POST /] accepts a request: the caller is
    signed in and verified, the lesson date reads as an instant [t] after
    now, the duration [d] is present and not zero, the date that the blackout
    check looks at reads as [c] and its UTC day is open, and no booking
    blocks [t]. *)
Definition may_book (e : env) (req : request) (w : world) (u : user) (t d c : Z) : Prop :=
  signed_in e req w u /\ is_verified u = true
  /\ Js.new_Date (engine e) (tz e) (body_lesson_date req) = Some t
  /\ body_duration req = Some d /\ d <> 0
  /\ now e < t
  /\ Js.new_Date (engine e) (tz e) (date_checked req) = Some c
  /\ ~ closed_on (Js.utc_date c) w
  /\ conflicting_booking t w = None.

(** What an accepted request leaves behind: the answer 201 and one more
    row, pending, of the caller, priced 70 for 45 minutes and 85 otherwise;
    [ev] is the calendar event the row was linked to, if any, and [l] the
    sync log afterwards. *)
Definition booked (e : env) (req : request) (w : world) (u : user) (t d : Z)
           (out : result unit * world) : Prop :=
  exists (ev : option string) (l : list sync_entry),
    let p : Q := if bool_decide (d = 45) then 70%Q else 85%Q in
    out = (Reply (Response 201 true
                    ("Booking created successfully"
                     +:+ match ev with Some _ => " and added to calendar" | None => "" end)
                    (BookingCreated (bookings_seq w + 1) p d t (bool_decide (is_Some ev)))),
           with_sync_log l
             (insert_booking
                (Booking (bookings_seq w + 1) (u_id u) t d p Pending (body_notes req) 0
                         None None None None ev)
                w)).

(** The same outcome, table by table.  The caller is told 201 and given
    the key, the price, the duration and the instant of the new booking.
    [bookings] has one more row: pending, of the caller, at instant [t], of
    [d] minutes, priced 70 for 45 minutes and 85 otherwise, never
    rescheduled, linked to the calendar event [ev] if one was created.  The
    key of the row is the next of the table.  No other table changed, the
    sync log apart. *)
Definition booking_recorded (e : env) (req : request) (w : world) (u : user) (t d : Z)
           (out : result unit * world) : Prop :=
  exists ev : option string,
    fst out = Reply (Response 201 true
                       ("Booking created successfully"
                        +:+ match ev with Some _ => " and added to calendar" | None => "" end)
                       (BookingCreated (bookings_seq w + 1)
                                       (if bool_decide (d = 45) then 70%Q else 85%Q) d t
                                       (bool_decide (is_Some ev))))
    /\ bookings (snd out)
       = (bookings w
          ++ [Booking (bookings_seq w + 1) (u_id u) t d
                      (if bool_decide (d = 45) then 70%Q else 85%Q)
                      Pending (body_notes req) 0 None None None None ev])%list
    /\ bookings_seq (snd out) = bookings_seq w + 1
    /\ payments (snd out) = payments w
    /\ makeup_lessons (snd out) = makeup_lessons w
    /\ other_tables_kept w (snd out).

(** Client [uid] asks for 45 minutes on 2025-11-10 at 14:00 UTC, the time of
    [lesson_nov_10]. *)
Definition rebook_nov_10 (uid : Z) : request :=
  Request (Token uid) None 0 (Some "2025-11-10T14:00:00.000Z") None (Some 45) None None None
          0 "" "" "" None.

(** *** Make-up lessons, request after request *)

Definition max_pending (w : world) : option Z :=
  Js.parseInt (setting_or (settings w !! "max_pending_makeups") "2").

(** The conditions under which the make-up route records a request: the
    caller is signed in, names a confirmed or cancelled booking of their own,
    gives a reason, and their count of pending requests is not at the cap. *)
Definition may_ask_makeup (e : env) (req : request) (w : world) (u : user) (ob : booking)
           (why : string) : Prop :=
  signed_in e req w u
  /\ makeup_eligible_booking (body_original_booking_id req) (u_id u) w = Some ob
  /\ body_reason req = Some why
  /\ ge_num (pending_makeups (u_id u) w) (max_pending w) = false.

Inductive makeup_call :=
| AskMakeup (e : env) (req : request)
| Settle (e : env) (req : request) (t : makeup_transition).

Definition serve_makeup (c : makeup_call) : prog unit :=
  match c with
  | AskMakeup e req => makeup_post e req
  | Settle e req t => apply_transition e req t
  end.

Fixpoint serve_makeups (cs : list makeup_call) (w : world) : world :=
  match cs with
  | [] => w
  | c :: rest => serve_makeups rest (snd (run (serve_makeup c) w))
  end.

(** The studio of [studio] with one setting overwritten. *)
Definition studio_with (key value : string) : world :=
  World [lesson_nov_10] 1 [] (<[key := value]> seeded_settings) [] [] 0 [] 0 [] [] clients
        false None.

(** Client 7 asks for 2025-11-25 at 14:00 UTC. *)
Definition book_nov_25 : request :=
  Request (Token 7) None 0 (Some "2025-11-25T14:00:00.000Z") None (Some 60) None None None
          0 "" "" "" None.

(** *** Recurring commitments *)

(** [academicYearEnd?.value || '2026-06-30'] *)
Definition academic_year_end (w : world) : string :=
  setting_or (settings w !! "academic_year_end") "2026-06-30".

(** The row that [POST /] of the recurring-booking router inserts for a
    caller [u], a duration [d] and a price [p]. *)
Definition commitment_row (req : request) (w : world) (u : user) (d : Z) (p : Q)
  : recurring_booking :=
  RecurringBooking (recurring_seq w + 1) (u_id u) d p (body_day_of_week req) (body_time req)
                   (body_frequency req) (body_start_date req) (academic_year_end w)
                   (default "regular" (body_lesson_type req)).

(** A commitment whose start date is not a date. *)
Definition weekly_from_nowhere : request :=
  Request (Token 7) None 0 None None (Some 60) None None None 1 "16:00" "weekly" "next Monday"
          None.

(** *** Availability *)

(** Slots in chronological order: every slot starts before all the slots
    that follow it. *)
Fixpoint chronological (l : list slot) : Prop :=
  match l with
  | [] => True
  | a :: rest => (forall b, In b rest -> slot_start a < slot_start b) /\ chronological rest
  end.


(** *** Reschedule of a booking *)




(** *** Bookings while calendar sync is off *)

(** The same surroundings with another calendar service. *)
Definition elsewhere (cal : calendar) (e : env) : env :=
  Env (now e) (tz e) cal (jwt_secret e) (engine e).

Definition with_calendar (cal : calendar) (c : client_request) : client_request :=
  match c with
  | Book e req => Book (elsewhere cal e) req
  | Move e req => Move (elsewhere cal e) req
  | Cancel e req => Cancel (elsewhere cal e) req
  end.

(** The studio of [synced_studio] with the switch off. *)
Definition unsynced_studio : world :=
  World [synced_lesson] 1 [] seeded_settings [] [] 0 [] 0 [] [] clients false None.

(** *** The manual calendar sync *)

(** The year of [toISOString]: four digits from 0 to 9999, a sign and six
    digits otherwise. *)
Definition year_text (y : Z) : string :=
  if (0 <=? y) && (y <=? 9999) then Js.pad 4 y
  else (if y <? 0 then "-" else "+") +:+ Js.pad 6 (Z.abs y).

(** [date.toISOString()], the form in which [lesson_date] is stored. *)
Definition iso_text (t : Z) : string :=
  let d := Js.utc_date t in
  let ms := t mod Js.msPerDay in
  year_text (Js.year d) +:+ "-" +:+ Js.pad 2 (Js.month d) +:+ "-" +:+ Js.pad 2 (Js.day d)
  +:+ "T" +:+ Js.pad 2 (ms / 3600000) +:+ ":" +:+ Js.pad 2 (ms / 60000 mod 60)
  +:+ ":" +:+ Js.pad 2 (ms / 1000 mod 60) +:+ "." +:+ Js.pad 3 (ms mod 1000) +:+ "Z".

(** SQLite's [datetime('now')] at instant [t]: [YYYY-MM-DD HH:MM:SS] in UTC. *)
Definition sqlite_datetime (t : Z) : string :=
  let ms := t mod Js.msPerDay in
  Js.ymd_to_string (Js.utc_date t)
  +:+ " " +:+ Js.pad 2 (ms / 3600000) +:+ ":" +:+ Js.pad 2 (ms / 60000 mod 60)
  +:+ ":" +:+ Js.pad 2 (ms / 1000 mod 60).

(** [b.google_calendar_event_id IS NULL AND b.status IN ('confirmed', 'pending')
     AND b.lesson_date > datetime('now')]: a comparison of two texts. *)
Definition awaits_sync (e : env) (b : booking) : bool :=
  negb (bool_decide (is_Some (google_calendar_event_id b)))
  && non_terminal (status b)
  && String.ltb (sqlite_datetime (now e)) (iso_text (lesson_date b)).

(** [SELECT b.*, u.first_name, u.last_name, u.email FROM bookings b
     JOIN users u ON b.user_id = u.id WHERE ...]; [users.id] is the primary
    key, so a booking joins with at most one user. *)
Definition bookings_to_sync (e : env) (w : world) : list (booking * user) :=
  omap (fun b => if awaits_sync e b
                 then u ← user_by_id (user_id b) w; Some (b, u)
                 else None)
       (bookings w).

(** The body of the loop of the manual sync for one row of that query;
    [counts] holds [syncedCount] and [errorCount]. *)
Definition sync_one (e : env) (row : booking * user) (counts : Z * Z) : prog (Z * Z) :=
  let b := fst row in
  let u := snd row in
  let syncedCount := fst counts in
  let errorCount := snd counts in
  let bookingDetails :=
    BookingDetails (id b) (user_id b) (lesson_date b) (duration b)
                   (first_name u +:+ " " +:+ last_name u) (email u) (notes b) in
  (* the [catch] block, entered with [errorCount] as it then stands *)
  let on_error (errors : Z) (msg : string) : prog (Z * Z) :=
    (sync_log "create" (id b) None "error" (Some msg) ;;
     ret (syncedCount, errors + 1))%prog in
  (outcome <- call (createBookingEvent (gcal e) bookingDetails) ;;
   match outcome with
   | CalThrows msg => on_error errorCount msg
   | CalOk (String c ev) =>
       try_catch
         (db_run (update_booking (id b) (set_google_event (String c ev))) ;;
          sync_log "create" (id b) (Some (String c ev)) "success" None ;;
          ret (syncedCount + 1, errorCount))
         (on_error errorCount)
   | _ =>
       try_catch
         (sync_log "create" (id b) None "error"
                   (Some "Failed to create Google Calendar event") ;;
          ret (syncedCount, errorCount + 1))
         (on_error (errorCount + 1))
   end)%prog.

(** [for (const booking of bookingsToSync) { ... }] *)
Fixpoint sync_each (e : env) (rows : list (booking * user)) (counts : Z * Z)
  : prog (Z * Z) :=
  match rows with
  | [] => ret counts
  | row :: rest => (counts' <- sync_one e row counts ;; sync_each e rest counts')%prog
  end.

(** [router.post('/sync/manual', authenticateToken, requireRole('admin'), ...)]
    of the calendar router.  The call of [initialize], whose result the
    route ignores, is one more [await]; of the three counters of the answer
    the message carries two, and [totalBookings] is the number of rows. *)
Definition manual_sync (e : env) (req : request) : prog unit :=
  (req <- authenticateToken e req ;;
   requireRole "admin" req ;;
   try_catch
     (call tt ;;
      bookingsToSync <- db_get (bookings_to_sync e) ;;
      counts <- sync_each e bookingsToSync (0, 0) ;;
      reply (ok ("Manual sync completed. " +:+ pretty (fst counts) +:+ " events created, "
                 +:+ pretty (snd counts) +:+ " errors.") NoData))
     (fun _ => reply (fail 500 "Manual sync failed")))%prog.

(** A calendar that creates every event it is asked for. *)
Definition creates_every_event (cal : calendar) : Prop :=
  forall d, exists c ev, createBookingEvent cal d = CalOk (String c ev).

(** The first of November 2025 in UTC, with a calendar that works. *)
Definition nov_1_synced : env := Env 1761955200000 0 calendar_up true iso_only.

(** The evening of the tenth of November 2025 (20:00 UTC), six hours after
    the lesson of that day. *)
Definition nov_10_evening : env := Env 1762804800000 0 no_calendar true iso_only.

(** *** Decimal texts of fixed width *)

(** The character of a decimal digit. *)
Definition digit (k : Z) : ascii := ascii_of_nat (48 + Z.to_nat k).

Definition two_digits (n : Z) : string :=
  String (digit (n / 10)) (String (digit (n mod 10)) EmptyString).

Definition four_digits (n : Z) : string :=
  String (digit (n / 1000)) (String (digit (n / 100 mod 10)) (two_digits (n mod 100))).
(** * Properties *)

(** ** Running handlers *)

Lemma run_bind {A B : Type} (p : prog A) (f : A -> prog B) (w : world) :
  run (bind p f) w =
  match run p w with
  | (Val a, w') => run (f a) w'
  | (Reply r, w') => (Reply r, w')
  | (Throw m, w') => (Throw m, w')
  end.
Proof.
  revert w. induction p as [r | X op k IH]; intros w.
  - destruct r; reflexivity.
  - cbn. destruct (op w) as [x w']. apply IH.
Qed.

Lemma run_try_catch {A : Type} (p : prog A) (h : string -> prog A) (w : world) :
  run (try_catch p h) w =
  match run p w with
  | (Throw m, w') => run (h m) w'
  | (r, w') => (r, w')
  end.
Proof.
  revert w. induction p as [r | X op k IH]; intros w.
  - destruct r; reflexivity.
  - cbn. destruct (op w) as [x w']. apply IH.
Qed.

Lemma run_db_get {X : Type} (q : world -> X) (w : world) :
  run (db_get q) w = (Val (q w), w).
Proof. reflexivity. Qed.

Lemma run_db_run (stmt : world -> world) (w : world) :
  writes_left w = None -> run (db_run stmt) w = (Val tt, stmt w).
Proof. intros H. cbn. rewrite H. reflexivity. Qed.

Lemma run_db_insert (seq : world -> Z) (stmt : Z -> world -> world) (w : world) :
  writes_left w = None ->
  run (db_insert seq stmt) w = (Val (seq w + 1), stmt (seq w + 1) w).
Proof. intros H. cbn. rewrite H. reflexivity. Qed.

Lemma run_call {X : Type} (outcome : X) (w : world) :
  run (call outcome) w = (Val outcome, w).
Proof. reflexivity. Qed.

Lemma run_ret {A : Type} (a : A) (w : world) : run (ret a) w = (Val a, w).
Proof. reflexivity. Qed.

Lemma run_next (w : world) : run next w = (Val tt, w).
Proof. reflexivity. Qed.

Lemma run_reply {A : Type} (r : response) (w : world) : run (@reply A r) w = (Reply r, w).
Proof. reflexivity. Qed.

Lemma run_throw {A : Type} (m : string) (w : world) : run (@throw A m) w = (Throw m, w).
Proof. reflexivity. Qed.

(** Symbolic execution of a handler, one construct at a time. *)
Ltac run_step :=
  first
    [ rewrite run_bind
    | rewrite run_try_catch
    | rewrite run_db_get
    | rewrite run_call
    | rewrite run_ret
    | rewrite run_next
    | rewrite run_reply
    | rewrite run_throw
    | rewrite run_db_run by (cbn; assumption)
    | rewrite run_db_insert by (cbn; assumption)
    | progress cbv beta iota ].

Ltac run_steps := repeat run_step.

(** ** Authentication *)

(** Projections of a request to which [authenticateToken] attached the user. *)
Ltac req_simpl :=
  cbn [set_user authorization req_user params_id body_lesson_date body_new_date
       body_duration body_notes body_original_booking_id body_reason body_day_of_week
       body_time body_frequency body_start_date body_lesson_type].

Lemma run_authenticateToken (e : env) (req : request) (w : world) (u : user) :
  signed_in e req w u ->
  run (authenticateToken e req) w = (Val (set_user req u), w).
Proof.
  intros (Hsecret & Htoken & Hfound). unfold authenticateToken.
  rewrite Htoken, Hsecret. cbn [negb]. run_steps. rewrite Hfound. run_steps. reflexivity.
Qed.

(** A request is turned away by [authenticateToken] with the store untouched,
    or it is signed in. *)
Lemma authenticateToken_cases (e : env) (req : request) (w : world) :
  (exists c m, run (authenticateToken e req) w = (Reply (fail c m), w))
  \/ (exists u, signed_in e req w u
                /\ run (authenticateToken e req) w = (Val (set_user req u), w)).
Proof.
  unfold authenticateToken.
  destruct (authorization req) as [| | userId] eqn:Htoken; run_steps; [ eauto | | ].
  - destruct (jwt_secret e); cbn [negb]; run_steps; eauto.
  - destruct (jwt_secret e) eqn:Hsecret; cbn [negb]; run_steps; [ | eauto ].
    destruct (user_by_id userId w) as [u |] eqn:Hfound; run_steps; [ | eauto ].
    right. exists u.
    assert (Hid : u_id u = userId).
    { apply find_some in Hfound as [_ H]. lia. }
    split; [ | reflexivity ]. unfold signed_in. rewrite Hid. auto.
Qed.

(** ** The calendar

    The two conversions between day numbers and civil dates are inverse to
    each other; everything the handlers compute on dates rests on that. *)

Ltac dlia := Z.div_mod_to_equations; lia.

Ltac case_cmp :=
  repeat match goal with
         | |- context [?a <=? ?b] => destruct (Z.leb_spec a b)
         | |- context [?a <? ?b] => destruct (Z.ltb_spec a b)
         end.

Lemma yoe_range (doe : Z) : 0 <= doe < 146097 ->
  let yoe := (doe - doe / 1460 + doe / 36524 - doe / 146096) / 365 in
  0 <= yoe < 400 /\ 0 <= doe - (365 * yoe + yoe / 4 - yoe / 100) < 366.
Proof. intros H yoe. unfold yoe. dlia. Qed.

Lemma month_part (doy : Z) : 0 <= doy < 366 ->
  let mp := (5 * doy + 2) / 153 in
  0 <= mp <= 11 /\ 1 <= doy - (153 * mp + 2) / 5 + 1 <= 31.
Proof. intros H mp. unfold mp. dlia. Qed.

Lemma civil_fields (n : Z) :
  1 <= Js.month (Js.civil_from_days n) <= 12 /\ 1 <= Js.day (Js.civil_from_days n) <= 31.
Proof.
  unfold Js.civil_from_days. cbn [Js.month Js.day].
  set (z := n + 719468). set (era := z / 146097). set (doe := z - era * 146097).
  assert (Hdoe : 0 <= doe < 146097) by (unfold doe, era; dlia).
  destruct (yoe_range doe Hdoe) as [Hy Hd]. cbv zeta in Hy, Hd.
  set (yoe := (doe - doe / 1460 + doe / 36524 - doe / 146096) / 365) in *.
  set (doy := doe - (365 * yoe + yoe / 4 - yoe / 100)) in *.
  destruct (month_part doy Hd) as [Hm Hday]. cbv zeta in Hm, Hday.
  set (mp := (5 * doy + 2) / 153) in *.
  split; [ | exact Hday ].
  destruct (Z.ltb_spec mp 10); lia.
Qed.

Lemma civil_inverse (n : Z) :
  Js.days_from_civil (Js.year (Js.civil_from_days n)) (Js.month (Js.civil_from_days n))
                  (Js.day (Js.civil_from_days n)) = n.
Proof.
  unfold Js.civil_from_days. cbn [Js.year Js.month Js.day].
  set (z := n + 719468). set (era := z / 146097). set (doe := z - era * 146097).
  assert (Hdoe : 0 <= doe < 146097) by (unfold doe, era; dlia).
  destruct (yoe_range doe Hdoe) as [Hy Hd]. cbv zeta in Hy, Hd.
  set (yoe := (doe - doe / 1460 + doe / 36524 - doe / 146096) / 365) in *.
  set (doy := doe - (365 * yoe + yoe / 4 - yoe / 100)) in *.
  destruct (month_part doy Hd) as [Hm Hday]. cbv zeta in Hm, Hday.
  set (mp := (5 * doy + 2) / 153) in *.
  set (m := if mp <? 10 then mp + 3 else mp - 9).
  assert (Hmp : (if 2 <? m then m - 3 else m + 9) = mp).
  { unfold m. destruct (Z.ltb_spec mp 10).
    - destruct (Z.ltb_spec 2 (mp + 3)); lia.
    - destruct (Z.ltb_spec 2 (mp - 9)); lia. }
  unfold Js.days_from_civil. rewrite Hmp.
  assert (Hy' : (if m <=? 2 then yoe + era * 400 + (if m <=? 2 then 1 else 0) - 1
                 else yoe + era * 400 + (if m <=? 2 then 1 else 0)) = yoe + era * 400).
  { destruct (m <=? 2); lia. }
  rewrite Hy'.
  assert (He : (yoe + era * 400) / 400 = era) by dlia.
  rewrite He.
  replace (yoe + era * 400 - era * 400) with yoe by lia.
  unfold doy at 1. unfold doe, z. ring.
Qed.

(** The other way round, for the days that every month has. *)
Lemma civil_of_days (y m d : Z) :
  1 <= m <= 12 -> 1 <= d <= 28 ->
  Js.civil_from_days (Js.days_from_civil y m d) = Js.Ymd y m d.
Proof.
  intros Hm Hd. unfold Js.days_from_civil.
  set (y' := if m <=? 2 then y - 1 else y).
  set (era := y' / 400). set (yoe := y' - era * 400).
  assert (Hyoe : 0 <= yoe < 400) by (unfold yoe, era; dlia).
  set (mp := if 2 <? m then m - 3 else m + 9).
  assert (Hmp : 0 <= mp <= 11 /\ (m = if mp <? 10 then mp + 3 else mp - 9)).
  { unfold mp. destruct (Z.ltb_spec 2 m).
    - destruct (Z.ltb_spec (m - 3) 10); lia.
    - destruct (Z.ltb_spec (m + 9) 10); lia. }
  set (doy := (153 * mp + 2) / 5 + d - 1).
  assert (Hdoy : 0 <= doy < 365 /\ (5 * doy + 2) / 153 = mp
                 /\ doy - (153 * mp + 2) / 5 + 1 = d).
  { unfold doy. dlia. }
  set (doe := yoe * 365 + yoe / 4 - yoe / 100 + doy).
  assert (Hdoe : 0 <= doe < 146097) by (unfold doe; dlia).
  assert (Hy2 : (doe - doe / 1460 + doe / 36524 - doe / 146096) / 365 = yoe).
  { unfold doe. dlia. }
  unfold Js.civil_from_days.
  replace (era * 146097 + doe - 719468 + 719468) with (doe + era * 146097) by lia.
  rewrite Z.div_add by lia. rewrite (Z.div_small doe) by lia.
  replace (doe + era * 146097 - (0 + era) * 146097) with doe by lia.
  rewrite Hy2.
  replace (doe - (365 * yoe + yoe / 4 - yoe / 100)) with doy by (unfold doe; lia).
  destruct Hdoy as (_ & -> & ->). destruct Hmp as [_ <-].
  f_equal. unfold yoe, y'. destruct (m <=? 2); lia.
Qed.

Lemma days_from_civil_day (y m d : Z) :
  Js.days_from_civil y m d = Js.days_from_civil y m 1 + (d - 1).
Proof. unfold Js.days_from_civil. lia. Qed.


(** *** Months *)

Lemma month_start_gap (i : Z) : 28 <= month_start (i + 1) - month_start i <= 31.
Proof.
  unfold month_start.
  assert (H : 0 <= i mod 12 < 12) by (apply Z.mod_pos_bound; lia).
  assert (Hi : i = 12 * (i / 12) + i mod 12) by (apply Z.div_mod; lia).
  set (q := i / 12) in *. set (r := i mod 12) in *.
  assert (Hc : r = 0 \/ r = 1 \/ r = 2 \/ r = 3 \/ r = 4 \/ r = 5 \/ r = 6 \/ r = 7
               \/ r = 8 \/ r = 9 \/ r = 10 \/ r = 11) by lia.
  assert (Hn : (r < 11 /\ (i + 1) / 12 = q /\ (i + 1) mod 12 = r + 1)
               \/ (r = 11 /\ (i + 1) / 12 = q + 1 /\ (i + 1) mod 12 = 0)).
  { destruct (Z.eq_dec r 11); [ right | left ]; repeat split; try lia; dlia. }
  clearbody q r.
  destruct Hn as [(Hr & -> & ->) | (Hr & -> & ->)].
  - repeat (destruct Hc as [-> | Hc];
            [ unfold Js.days_from_civil; case_cmp; try lia; dlia | ]).
    lia.
  - subst r. unfold Js.days_from_civil. case_cmp; try lia; dlia.
Qed.


Lemma year_of_era_mono (a b : Z) :
  0 <= a -> a <= b -> b < 146097 -> year_of_era a <= year_of_era b.
Proof. intros. unfold year_of_era. dlia. Qed.

(** The month index in the terms the algorithm computes with. *)
Lemma month_index_civil (n : Z) :
  let z := n + 719468 in
  let era := z / 146097 in
  let doe := z - era * 146097 in
  let yoe := year_of_era doe in
  let doy := doe - (365 * yoe + yoe / 4 - yoe / 100) in
  let mp := (5 * doy + 2) / 153 in
  month_index (Js.civil_from_days n) = 12 * (400 * era + yoe) + mp + 2
  /\ 0 <= doe < 146097 /\ 0 <= yoe < 400 /\ 0 <= doy < 366 /\ 0 <= mp <= 11.
Proof.
  intros z era doe yoe doy mp.
  assert (Hdoe : 0 <= doe < 146097) by (unfold doe, era; dlia).
  destruct (yoe_range doe Hdoe) as [Hy Hd]. cbv zeta in Hy, Hd.
  fold (year_of_era doe) in Hy, Hd. fold yoe in Hy, Hd. fold doy in Hd.
  destruct (month_part doy Hd) as [Hm _]. cbv zeta in Hm. fold mp in Hm.
  repeat split; try lia.
  unfold month_index, Js.civil_from_days. cbn [Js.year Js.month].
  fold z. fold era. fold doe. fold (year_of_era doe). fold yoe. fold doy. fold mp.
  destruct (Z.ltb_spec mp 10).
  - destruct (Z.leb_spec (mp + 3) 2); lia.
  - destruct (Z.leb_spec (mp - 9) 2); lia.
Qed.

Lemma civil_month_index_mono (n n' : Z) :
  n <= n' -> month_index (Js.civil_from_days n) <= month_index (Js.civil_from_days n').
Proof.
  intros Hle.
  destruct (month_index_civil n) as (-> & Hdoe & Hyoe & Hdoy & Hmp).
  destruct (month_index_civil n') as (-> & Hdoe' & Hyoe' & Hdoy' & Hmp').
  cbv zeta in *.
  set (z := n + 719468) in *. set (z' := n' + 719468) in *.
  set (era := z / 146097) in *. set (era' := z' / 146097) in *.
  set (doe := z - era * 146097) in *. set (doe' := z' - era' * 146097) in *.
  assert (He : era <= era') by (unfold era, era', z, z'; dlia).
  destruct (Z.eq_dec era era') as [Heq | Hne]; [ | lia ].
  assert (Hd : doe <= doe') by (unfold doe, doe', z, z'; lia).
  pose proof (year_of_era_mono doe doe' ltac:(lia) Hd ltac:(lia)) as Hy.
  set (yoe := year_of_era doe) in *. set (yoe' := year_of_era doe') in *.
  destruct (Z.eq_dec yoe yoe') as [Hyeq | Hyne]; [ | lia ].
  rewrite <- Heq, <- Hyeq in *.
  assert (Hm : (5 * (doe - (365 * yoe + yoe / 4 - yoe / 100)) + 2) / 153
               <= (5 * (doe' - (365 * yoe + yoe / 4 - yoe / 100)) + 2) / 153).
  { apply Z.div_le_mono; lia. }
  lia.
Qed.

(** ** The cross-field reschedule gate (C10) *)

(** C10.  The reschedule gate reads [new_date] while the route reads
    [lesson_date].  A reschedule request of a signed-in, verified client that
    names an existing booking of theirs and carries no [new_date] is
    answered with the cross-month rejection and changes nothing, whatever
    [lesson_date] it supplies: the gate compares the booking's month with
    that of the Invalid Date. *)
Theorem reschedule_without_new_date_rejected
        (e : env) (req : request) (w : world) (u : user) (b : booking) :
  signed_in e req w u ->
  is_verified u = true ->
  booking_of_user (params_id req) (u_id u) w = Some b ->
  body_new_date req = None ->
  Js.new_Date (engine e) (tz e) (body_new_date req) = None
  /\ same_month (tz e) (Some (lesson_date b)) (Js.new_Date (engine e) (tz e) (body_new_date req)) = false
  /\ run (bookings_put e req) w = (Reply cross_month_rejection, w).
Proof.
  intros Hin Hv Hb Hn. rewrite Hn. repeat split.
  unfold bookings_put. run_steps. rewrite (run_authenticateToken e req w u Hin). run_steps.
  unfold requireVerified, checkReschedulePolicy. req_simpl. rewrite Hv, Hn. run_steps.
  rewrite Hb. run_steps. reflexivity.
Qed.

Lemma reschedule_without_new_date_rejected_witness :
  same_month 0 (Some (lesson_date lesson_nov_10))
             (Js.new_Date iso_only 0 (body_lesson_date move_to_nov_12)) = true
  /\ run (bookings_put nov_1_utc move_to_nov_12) studio = (Reply cross_month_rejection, studio).
Proof.
  split; [ reflexivity | ].
  apply (reschedule_without_new_date_rejected nov_1_utc move_to_nov_12 studio ada
           lesson_nov_10); repeat split.
Defined.

(** ** Bookkeeping on the store *)

Lemma with_sync_log_same (w : world) : with_sync_log (calendar_sync_log w) w = w.
Proof. destruct w; reflexivity. Qed.

Lemma find_id_unique (bid : Z) (f : booking -> bool) (b : booking) (l : list booking) :
  NoDup (List.map id l) ->
  List.find (fun r => (id r =? bid) && f r) l = Some b ->
  List.find (fun r => id r =? bid) l = Some b.
Proof.
  induction l as [| r l IH]; cbn; intros Hnd Hf; [ discriminate | ].
  apply NoDup_cons in Hnd as [Hr Hnd].
  destruct (Z.eqb_spec (id r) bid) as [Heq | Hne]; cbn in Hf.
  - destruct (f r); [ assumption | ].
    exfalso. apply find_some in Hf as [Hin Hb].
    apply andb_prop in Hb as [Hb _]. apply Z.eqb_eq in Hb.
    apply Hr. rewrite Heq, <- Hb. apply list_elem_of_In, in_map, Hin.
  - auto.
Qed.

Lemma booking_of_user_id (bid uid : Z) (w : world) (b : booking) :
  booking_of_user bid uid w = Some b -> id b = bid /\ user_id b = uid.
Proof.
  intros H. apply find_some in H as [_ H].
  apply andb_prop in H as [H1 H2]. split; lia.
Qed.

Lemma booking_of_user_by_id (bid uid : Z) (w : world) (b : booking) :
  NoDup (List.map id (bookings w)) ->
  booking_of_user bid uid w = Some b -> booking_by_id bid w = Some b.
Proof.
  intros Hnd H.
  exact (find_id_unique bid (fun r => user_id r =? uid) b (bookings w) Hnd H).
Qed.

(** ** Calendar pushes never fail the local operation *)

(** With a database that accepts its writes, the calendar part of a
    cancellation yields a flag and touches nothing but the sync log. *)
Lemma run_push_deleted (e : env) (bid : Z) (b : booking) (w : world) :
  writes_left w = None ->
  exists flag l, run (push_deleted e bid b) w = (Val flag, with_sync_log l w).
Proof.
  intros Hw. unfold push_deleted, isCalendarSyncEnabled, sync_log.
  cbn. destruct (calendar_sync_enabled w && Js.truthy (google_calendar_event_id b)); cbn.
  - destruct (deleteBookingEvent (gcal e) (default "" (google_calendar_event_id b)));
      cbn; rewrite Hw; cbn; eauto.
  - exists false, (calendar_sync_log w). rewrite with_sync_log_same. reflexivity.
Qed.

(** The same for the calendar part of a reschedule. *)
Lemma run_push_updated (e : env) (uid bid : Z) (b : booking) (t : Z) (n : option string)
      (w : world) :
  writes_left w = None ->
  exists flag l, run (push_updated e uid bid b t n) w = (Val flag, with_sync_log l w).
Proof.
  intros Hw. unfold push_updated, isCalendarSyncEnabled, sync_log, client_of.
  cbn. destruct (calendar_sync_enabled w && Js.truthy (google_calendar_event_id b)); cbn.
  - destruct (user_by_id uid w) as [u |]; cbn.
    + destruct (updateBookingEvent (gcal e) _ _); cbn; rewrite Hw; cbn; eauto.
    + rewrite Hw; cbn; eauto.
  - exists false, (calendar_sync_log w). rewrite with_sync_log_same. reflexivity.
Qed.

(** ** The cancellation window (C2) *)



Lemma run_checkCancellationPolicy (e : env) (req : request) (w : world) (u : user)
      (b : booking) :
  req_user req = Some u ->
  booking_of_user (params_id req) (u_id u) w = Some b ->
  let allowed :=
    within_policy (hoursUntilLesson e b)
      (Js.parseInt (setting_or (settings w !! "cancellation_policy_hours") "24")) in
  run (checkCancellationPolicy e req) w = (Val (PolicyChecks allowed allowed true), w).
Proof.
  intros Hu Hb. unfold checkCancellationPolicy. rewrite Hu. run_steps. cbv zeta.
  rewrite Hb. reflexivity.
Qed.

Lemma updated_row_in (f : booking -> booking) (b : booking) (l : list booking) :
  In b l -> In (f b) (List.map (fun r => if id r =? id b then f r else r) l).
Proof. intros H. apply in_map_iff. exists b. rewrite Z.eqb_refl. auto. Qed.


Lemma studio_keys : NoDup (List.map id (bookings studio)).
Proof. cbn. apply NoDup_singleton. Qed.


(** One second inside the window the automatic charge applies. *)
Example late_cancellation_charged :
  let out := run (bookings_delete one_second_inside cancel_nov_10) studio in
  charged_cancellation one_second_inside lesson_nov_10 studio out
  /\ payments (snd out) = [Payment 1 85 "automatic_charge" "pending" "late_cancellation_fee"]
  /\ bookings (snd out)
     = [Booking 1 7 1762783200000 60 85 Cancelled None 0 None
                (Some "Late cancellation - automatic charge applied")
                (Some (1762783200000 - 24 * 3600000 + 1000)) None None].
Proof.
  split; [ | split; reflexivity ].
  repeat split. left. reflexivity.
Qed.

(** ** The make-up cap (C9) *)

Lemma run_checkMakeupPolicy (e : env) (req : request) (w : world) (u : user) :
  req_user req = Some u ->
  run (checkMakeupPolicy e req) w =
  let maxPending := Js.parseInt (setting_or (settings w !! "max_pending_makeups") "2") in
  if ge_num (pending_makeups (u_id u) w) maxPending
  then (Reply (fail 400 ("Maximum " +:+ pretty (default 0 maxPending)
                         +:+ " pending make-up lessons allowed")), w)
  else (Val tt, w).
Proof.
  intros Hu. unfold checkMakeupPolicy, get_setting. rewrite Hu. run_steps.
  cbv zeta. destruct (ge_num _ _); run_steps; reflexivity.
Qed.


Lemma signed_in_users (e : env) (req : request) (w w' : world) (u : user) :
  users w' = users w -> signed_in e req w u -> signed_in e req w' u.
Proof. unfold signed_in, user_by_id. intros ->. auto. Qed.

Lemma run_apply_transition (e : env) (req : request) (t : makeup_transition) (w : world)
      (a : user) :
  signed_in e req w a ->
  role a = "admin" ->
  writes_left w = None ->
  exists f,
    (forall uid x, counts_for uid (f x) = false)
    /\ snd (run (apply_transition e req t) w) = update_makeup (params_id req) f w.
Proof.
  intros Hin Hrole Hw.
  destruct t as [when |]; cbn [apply_transition];
    unfold makeup_schedule, makeup_complete; rewrite run_bind, (run_authenticateToken e req w a Hin);
    cbv beta iota; unfold requireRole; req_simpl; rewrite Hrole; cbn [String.eqb];
    unfold schedule_makeup, complete_makeup; run_steps; cbn [snd];
    eexists; (split; [ | reflexivity ]); intros uid x; unfold counts_for; cbn;
    apply andb_false_r.
Qed.

(** What the insertion of a make-up request leaves behind, table by table. *)
Lemma makeup_granted_recorded (uid : Z) (ob : booking) (why : string) (w : world)
      (out : result unit * world) :
  makeup_granted uid ob why w out -> makeup_recorded uid ob why w out.
Proof.
  unfold makeup_granted. intros ->. unfold makeup_recorded. cbn [fst snd].
  split; [ reflexivity | ]. split; [ reflexivity | ]. split; [ reflexivity | ].
  split; [ | repeat split ].
  unfold pending_makeups. cbn [makeup_lessons insert_makeup].
  rewrite List.filter_app, List.length_app. cbn [List.filter mk_user_id mk_status].
  rewrite Z.eqb_refl. cbn [andb List.length]. lia.
Qed.




(** ** The reschedule gate (C3) *)

Lemma ge_num_false (n : Z) (limit : option Z) :
  ge_num n limit = false -> forall h, limit = Some h -> n < h.
Proof. intros H h ->. cbn in H. lia. Qed.

(** A reschedule request either is turned away with the store untouched, or
    moves the booking; and it moves it only between two dates of one
    calendar month and year, and only while the client's count of
    rescheduled bookings of that month is below the limit. *)
Lemma reschedule_gate (e : env) (req : request) (w : world) :
  writes_left w = None ->
  turned_away w (run (bookings_put e req) w)
  \/ reschedule_done e req w (run (bookings_put e req) w).
Proof.
  intros Hw.
  assert (Hrej : forall c m, turned_away w (Reply (fail c m), w)).
  { intros c m. exists (fail c m). repeat split. }
  unfold bookings_put. rewrite run_bind.
  destruct (authenticateToken_cases e req w) as [(c & m & ->) | (u & Hin & ->)];
    cbv beta iota; [ left; apply Hrej | ].
  unfold requireVerified. req_simpl.
  destruct (is_verified u) eqn:Hv; run_steps; [ | left; apply Hrej ].
  unfold checkReschedulePolicy, get_setting. req_simpl. run_steps. cbv zeta.
  destruct (booking_of_user (params_id req) (u_id u) w) as [b |] eqn:Hb; run_steps;
    [ | left; apply Hrej ].
  destruct (same_month (tz e) (Some (lesson_date b)) _) eqn:Hpol; cbn [negb]; run_steps;
    [ | left; apply Hrej ].
  destruct (ge_num _ _) eqn:Hmax; run_steps; [ left; apply Hrej | ].
  unfold checkBlackoutDates. req_simpl.
  set (dateToCheck := if Js.truthy (body_new_date req) then _ else _).
  run_steps.
  destruct (Js.truthy dateToCheck); cbn [negb]; run_steps.
  - unfold toISOString. destruct (Js.new_Date (engine e) (tz e) dateToCheck); run_steps;
      [ | left; apply Hrej ].
    destruct (blackout_conflict _ w); run_steps; [ left; apply Hrej | ].
    unfold reschedule_booking, user_of. req_simpl. run_steps.
    destruct (Js.truthy (body_lesson_date req)); cbn [negb]; run_steps;
      [ | left; apply Hrej ].
    rewrite Hb. run_steps.
    destruct (same_month (tz e) (Js.new_Date _ _ _) _) eqn:Hsame; cbn [negb]; run_steps;
      [ | left; apply Hrej ].
    destruct (Js.new_Date (engine e) (tz e) (body_lesson_date req)) as [t |] eqn:Ht;
      [ | discriminate Hsame ].
    unfold toISOString. run_steps.
    destruct (conflicting_booking_except t (params_id req) w) eqn:Hfree; run_steps;
      [ left; apply Hrej | ].
    destruct (run_push_updated e (u_id u) (params_id req) b t (body_notes req)
                (update_booking (params_id req)
                   (rescheduled_row e t (body_notes req) (lesson_date b)) w) Hw)
      as (flag & l & Hrun).
    rewrite Hrun. run_steps. right.
    eexists _, u, b, t. cbn [fst snd].
    split; [ reflexivity | ]. split; [ reflexivity | ].
    split; [ exact Hin | ]. split; [ exact Hv | ].
    repeat split; try reflexivity; try assumption.
    apply ge_num_false. exact Hmax.
  - unfold reschedule_booking, user_of. req_simpl. run_steps.
    destruct (Js.truthy (body_lesson_date req)); cbn [negb]; run_steps;
      [ | left; apply Hrej ].
    rewrite Hb. run_steps.
    destruct (same_month (tz e) (Js.new_Date _ _ _) _) eqn:Hsame; cbn [negb]; run_steps;
      [ | left; apply Hrej ].
    destruct (Js.new_Date (engine e) (tz e) (body_lesson_date req)) as [t |] eqn:Ht;
      [ | discriminate Hsame ].
    unfold toISOString. run_steps.
    destruct (conflicting_booking_except t (params_id req) w) eqn:Hfree; run_steps;
      [ left; apply Hrej | ].
    destruct (run_push_updated e (u_id u) (params_id req) b t (body_notes req)
                (update_booking (params_id req)
                   (rescheduled_row e t (body_notes req) (lesson_date b)) w) Hw)
      as (flag & l & Hrun).
    rewrite Hrun. run_steps. right.
    eexists _, u, b, t. cbn [fst snd].
    split; [ reflexivity | ]. split; [ reflexivity | ].
    split; [ exact Hin | ]. split; [ exact Hv | ].
    repeat split; try reflexivity; try assumption.
    apply ge_num_false. exact Hmax.
Qed.


(** C3.  The quota half of the reschedule policy does not hold in a
    process west of UTC.  Client 7 has three lessons on the evening of
    2025-11-30 of a clock eight hours west of UTC, all three on 2025-12-01 in
    UTC, and two of them were rescheduled already; the limit is 2.  Whether
    the month is read on the local clock (November) or in UTC (December),
    the client's rescheduled bookings of the month of the third lesson
    number two, so the quota is used up.  The gate counts none: it asks the
    store for the rows whose UTC date reads the month number of the local
    date.  The third lesson is moved within the same evening, the route
    answers with success, and the client has three rescheduled bookings in
    the month. *)
Theorem reschedule_quota_exceeded_west_of_utc :
  let e := eight_hours_west in
  let w := quota_used_up in
  let out := run (bookings_put e move_third_lesson) w in
  max_reschedules w = Some 2
  /\ booking_of_user 3 7 w = Some third_lesson
  /\ rescheduled_in_month (tz e) 7 11 2025 w = [first_moved_lesson; second_moved_lesson]
  /\ Js.getMonth (tz e) (lesson_date third_lesson) + 1 = 11
  /\ rescheduled_in_month 0 7 12 2025 w = [first_moved_lesson; second_moved_lesson]
  /\ Js.getMonth 0 (lesson_date third_lesson) + 1 = 12
  /\ reschedules_so_far e 7 third_lesson w = 0
  /\ fst out = Reply (Response 200 true "Booking rescheduled successfully"
                               (BookingRescheduled false))
  /\ bookings (snd out)
     = [first_moved_lesson; second_moved_lesson;
        Booking 3 7 1764558000000 60 85 Confirmed None 1 (Some 1764554400000)
                None None (Some 1761955200000) None]
  /\ List.length (rescheduled_in_month (tz e) 7 11 2025 (snd out)) = 3%nat.
Proof. vm_compute. repeat split. Qed.

(** ** Calendar failures stay in the sync log (C8) *)

Lemma forget_set_event (bid : Z) (ev : string) (l : list booking) :
  List.map forget_event (List.map (fun b => if id b =? bid then set_google_event ev b else b) l)
  = List.map forget_event l.
Proof.
  induction l as [| b l IH]; [ reflexivity | ].
  cbn [List.map]. rewrite IH. destruct (id b =? bid); reflexivity.
Qed.

Lemma local_state_event (bid : Z) (ev : string) (w : world) :
  local_state (update_booking bid (set_google_event ev) w) = local_state w.
Proof.
  unfold local_state, update_booking, set_bookings, with_sync_log.
  cbn [bookings]. rewrite forget_set_event. reflexivity.
Qed.

Lemma insert_sync_entry_log_state (x : sync_entry) (w : world) :
  local_state (insert_sync_entry x w) = local_state w.
Proof. reflexivity. Qed.

(** The calendar part of a creation yields a value and leaves the local
    state as it found it. *)
Lemma run_push_created (e : env) (uid lastID t dur : Z) (n : option string) (w : world) :
  writes_left w = None ->
  exists ev w',
    run (push_created e uid lastID t dur n) w = (Val ev, w')
    /\ local_state w' = local_state w.
Proof.
  intros Hw. unfold push_created, isCalendarSyncEnabled, client_of, sync_log.
  run_steps.
  destruct (calendar_sync_enabled w && negb (lastID =? 0)); run_steps.
  - destruct (user_by_id uid w) as [u |]; run_steps.
    + destruct (createBookingEvent (gcal e) _) as [[| c ev] | |]; run_steps.
      * eexists _, _. split; reflexivity.
      * eexists _, _. split; [ reflexivity | ].
        cbn [snd]. rewrite insert_sync_entry_log_state. apply local_state_event.
      * eexists _, _. split; reflexivity.
      * destruct (negb (lastID =? 0)); run_steps; eexists _, _; split; reflexivity.
    + destruct (negb (lastID =? 0)); run_steps; eexists _, _; split; reflexivity.
  - eexists _, _. split; reflexivity.
Qed.

Lemma same_local_outcome_fail (c : Z) (m : string) (w : world) :
  same_local_outcome (Reply (fail c m), w) (Reply (fail c m), w).
Proof. exists (fail c m), (fail c m). repeat split. Qed.

Lemma post_contained (clock zone : Z) (cal cal' : calendar) (jwt : bool) (eng : string -> option Z) (req : request)
      (w : world) :
  writes_left w = None ->
  same_local_outcome (run (bookings_post (Env clock zone cal jwt eng) req) w)
                     (run (bookings_post (Env clock zone cal' jwt eng) req) w).
Proof.
  intros Hw. unfold bookings_post. rewrite !run_bind.
  change (authenticateToken (Env clock zone cal' jwt eng) req)
    with (authenticateToken (Env clock zone cal jwt eng) req).
  destruct (authenticateToken_cases (Env clock zone cal jwt eng) req w)
    as [(c & m & ->) | (u & Hin & ->)];
    cbv beta iota; [ apply same_local_outcome_fail | ].
  unfold requireVerified. req_simpl.
  destruct (is_verified u) eqn:Hv; run_steps; [ | apply same_local_outcome_fail ].
  unfold checkBlackoutDates. cbn [tz now engine]. req_simpl.
  set (dateToCheck := if Js.truthy (body_new_date req) then _ else _).
  run_steps.
  assert (Hcreate :
            same_local_outcome (run (create_booking (Env clock zone cal jwt eng) (set_user req u)) w)
                               (run (create_booking (Env clock zone cal' jwt eng) (set_user req u)) w)).
  { unfold create_booking, user_of, toISOString. cbn [tz now engine]. req_simpl. run_steps. cbv zeta.
    destruct (negb (Js.truthy (body_lesson_date req)) || _); run_steps;
      [ apply same_local_outcome_fail | ].
    destruct (not_after _ clock); run_steps; [ apply same_local_outcome_fail | ].
    destruct (Js.new_Date eng zone (body_lesson_date req)) as [t |]; run_steps;
      [ | apply same_local_outcome_fail ].
    destruct (conflicting_booking t w); run_steps; [ apply same_local_outcome_fail | ].
    set (w1 := insert_booking _ w).
    destruct (run_push_created (Env clock zone cal jwt eng) (u_id u) (bookings_seq w + 1) t
                (default 0 (body_duration req)) (body_notes req) w1 Hw)
      as (ev & w2 & Hrun & Hloc).
    destruct (run_push_created (Env clock zone cal' jwt eng) (u_id u) (bookings_seq w + 1) t
                (default 0 (body_duration req)) (body_notes req) w1 Hw)
      as (ev' & w2' & Hrun' & Hloc').
    rewrite Hrun, Hrun'. run_steps.
    eexists _, _. cbn [fst snd code success]. repeat split. congruence. }
  destruct (Js.truthy dateToCheck); cbn [negb]; run_steps; [ | exact Hcreate ].
  unfold toISOString.
  destruct (Js.new_Date eng zone dateToCheck); run_steps; [ | apply same_local_outcome_fail ].
  destruct (blackout_conflict _ w); run_steps; [ apply same_local_outcome_fail | exact Hcreate ].
Qed.

Lemma put_contained (clock zone : Z) (cal cal' : calendar) (jwt : bool) (eng : string -> option Z) (req : request)
      (w : world) :
  writes_left w = None ->
  same_local_outcome (run (bookings_put (Env clock zone cal jwt eng) req) w)
                     (run (bookings_put (Env clock zone cal' jwt eng) req) w).
Proof.
  intros Hw. unfold bookings_put. rewrite !run_bind.
  change (authenticateToken (Env clock zone cal' jwt eng) req)
    with (authenticateToken (Env clock zone cal jwt eng) req).
  destruct (authenticateToken_cases (Env clock zone cal jwt eng) req w)
    as [(c & m & ->) | (u & Hin & ->)];
    cbv beta iota; [ apply same_local_outcome_fail | ].
  unfold requireVerified. req_simpl.
  destruct (is_verified u) eqn:Hv; run_steps; [ | apply same_local_outcome_fail ].
  unfold checkReschedulePolicy, get_setting. cbn [tz now engine]. req_simpl. run_steps. cbv zeta.
  destruct (booking_of_user (params_id req) (u_id u) w) as [b |] eqn:Hb; run_steps;
    [ | apply same_local_outcome_fail ].
  destruct (same_month zone (Some (lesson_date b)) _); cbn [negb]; run_steps;
    [ | apply same_local_outcome_fail ].
  destruct (ge_num _ _); run_steps; [ apply same_local_outcome_fail | ].
  assert (Hmove :
            same_local_outcome (run (reschedule_booking (Env clock zone cal jwt eng) (set_user req u)) w)
                               (run (reschedule_booking (Env clock zone cal' jwt eng) (set_user req u)) w)).
  { unfold reschedule_booking, user_of, toISOString. cbn [tz now engine]. req_simpl. run_steps.
    destruct (Js.truthy (body_lesson_date req)); cbn [negb]; run_steps;
      [ | apply same_local_outcome_fail ].
    rewrite Hb. run_steps.
    destruct (same_month zone (Js.new_Date _ _ _) _) eqn:Hsame; cbn [negb]; run_steps;
      [ | apply same_local_outcome_fail ].
    destruct (Js.new_Date eng zone (body_lesson_date req)) as [t |];
      [ | discriminate Hsame ].
    run_steps.
    destruct (conflicting_booking_except t (params_id req) w); run_steps;
      [ apply same_local_outcome_fail | ].
    set (w1 := update_booking _ _ w).
    destruct (run_push_updated (Env clock zone cal jwt eng) (u_id u) (params_id req) b t
                (body_notes req) w1 Hw) as (flag & l & Hrun).
    destruct (run_push_updated (Env clock zone cal' jwt eng) (u_id u) (params_id req) b t
                (body_notes req) w1 Hw) as (flag' & l' & Hrun').
    unfold rescheduled_row in w1. cbn [now] in w1. fold w1.
    rewrite Hrun, Hrun'. run_steps.
    eexists _, _. cbn [fst snd code success ok]. repeat split. }
  unfold checkBlackoutDates. cbn [tz now engine]. req_simpl.
  set (dateToCheck := if Js.truthy (body_new_date req) then _ else _).
  run_steps.
  destruct (Js.truthy dateToCheck); cbn [negb]; run_steps; [ | exact Hmove ].
  unfold toISOString.
  destruct (Js.new_Date eng zone dateToCheck); run_steps; [ | apply same_local_outcome_fail ].
  destruct (blackout_conflict _ w); run_steps; [ apply same_local_outcome_fail | exact Hmove ].
Qed.

Lemma delete_contained (clock zone : Z) (cal cal' : calendar) (jwt : bool) (eng : string -> option Z) (req : request)
      (w : world) :
  writes_left w = None ->
  same_local_outcome (run (bookings_delete (Env clock zone cal jwt eng) req) w)
                     (run (bookings_delete (Env clock zone cal' jwt eng) req) w).
Proof.
  intros Hw. unfold bookings_delete. rewrite !run_bind.
  change (authenticateToken (Env clock zone cal' jwt eng) req)
    with (authenticateToken (Env clock zone cal jwt eng) req).
  destruct (authenticateToken_cases (Env clock zone cal jwt eng) req w)
    as [(c & m & ->) | (u & Hin & ->)];
    cbv beta iota; [ apply same_local_outcome_fail | ].
  unfold requireVerified. req_simpl.
  destruct (is_verified u) eqn:Hv; run_steps; [ | apply same_local_outcome_fail ].
  unfold checkCancellationPolicy, get_setting, hoursUntilLesson. cbn [tz now engine].
  req_simpl. run_steps. cbv zeta.
  destruct (booking_of_user (params_id req) (u_id u) w) as [b |] eqn:Hb; run_steps;
    [ | apply same_local_outcome_fail ].
  unfold enforceCancellationCharging. cbn [cancellationAllowed now]. req_simpl.
  destruct (within_policy _ _); cbn [negb]; run_steps.
  - unfold cancel_booking, user_of. cbn [now]. req_simpl. run_steps. rewrite Hb. run_steps.
    set (w1 := update_booking _ _ w).
    destruct (run_push_deleted (Env clock zone cal jwt eng) (params_id req) b w1 Hw)
      as (flag & l & Hrun).
    destruct (run_push_deleted (Env clock zone cal' jwt eng) (params_id req) b w1 Hw)
      as (flag' & l' & Hrun').
    unfold cancelled_row in w1. cbn [now] in w1. fold w1.
    rewrite Hrun, Hrun'. run_steps.
    eexists _, _. cbn [fst snd code success ok]. repeat split.
  - destruct (booking_by_id (params_id req) w) as [b' |]; run_steps.
    + eexists _, _. cbn [fst snd code success]. repeat split.
    + apply same_local_outcome_fail.
Qed.

(** When the push of a new booking fails, the error goes to the sync log. *)
Lemma push_created_failure_logged
      (e : env) (uid lastID t dur : Z) (n : option string) (w : world) (u : user) :
  writes_left w = None ->
  calendar_sync_enabled w = true ->
  lastID <> 0 ->
  user_by_id uid w = Some u ->
  (forall d, create_failed (createBookingEvent (gcal e) d)) ->
  exists w',
    run (push_created e uid lastID t dur n) w = (Val None, w')
    /\ logged_error "create" lastID w w'.
Proof.
  intros Hw Hon Hid Hu Hfail. unfold push_created, isCalendarSyncEnabled, client_of, sync_log.
  run_steps. rewrite Hon. apply Z.eqb_neq in Hid. rewrite Hid. cbn [negb andb].
  run_steps. rewrite Hu. run_steps.
  match goal with |- context [createBookingEvent (gcal e) ?d] =>
    pose proof (Hfail d) as Hd; destruct (createBookingEvent (gcal e) d) as [[| c ev] | |]
  end; try contradiction; run_steps; eexists; (split; [ reflexivity | ]);
    (split; [ eexists _, _; reflexivity | repeat split ]).
Qed.

Lemma push_updated_failure_logged
      (e : env) (uid bid : Z) (b : booking) (t : Z) (n : option string) (w : world)
      (u : user) :
  writes_left w = None ->
  calendar_sync_enabled w = true ->
  Js.truthy (google_calendar_event_id b) = true ->
  user_by_id uid w = Some u ->
  (forall ev d, push_failed (updateBookingEvent (gcal e) ev d)) ->
  exists w',
    run (push_updated e uid bid b t n) w = (Val false, w')
    /\ logged_error "update" bid w w'.
Proof.
  intros Hw Hon Hev Hu Hfail. unfold push_updated, isCalendarSyncEnabled, client_of, sync_log.
  run_steps. rewrite Hon, Hev. cbn [andb]. run_steps. rewrite Hu. run_steps.
  match goal with |- context [updateBookingEvent (gcal e) ?ev ?d] =>
    pose proof (Hfail ev d) as Hd; destruct (updateBookingEvent (gcal e) ev d)
  end; try contradiction; run_steps; eexists; (split; [ reflexivity | ]);
    (split; [ eexists _, _; reflexivity | repeat split ]).
Qed.

Lemma push_deleted_failure_logged (e : env) (bid : Z) (b : booking) (w : world) :
  writes_left w = None ->
  calendar_sync_enabled w = true ->
  Js.truthy (google_calendar_event_id b) = true ->
  (forall ev, push_failed (deleteBookingEvent (gcal e) ev)) ->
  exists w',
    run (push_deleted e bid b) w = (Val false, w')
    /\ logged_error "delete" bid w w'.
Proof.
  intros Hw Hon Hev Hfail. unfold push_deleted, isCalendarSyncEnabled, sync_log.
  run_steps. rewrite Hon, Hev. cbn [andb]. run_steps.
  match goal with |- context [deleteBookingEvent (gcal e) ?ev] =>
    pose proof (Hfail ev) as Hd; destruct (deleteBookingEvent (gcal e) ev)
  end; try contradiction; run_steps; eexists; (split; [ reflexivity | ]);
    (split; [ eexists _, _; reflexivity | repeat split ]).
Qed.

(** The calendar part of a creation on a calendar that fails, exactly. *)
Lemma run_push_created_failing
      (e : env) (uid lastID t dur : Z) (n : option string) (w : world) :
  writes_left w = None ->
  calendar_sync_enabled w = true ->
  lastID <> 0 ->
  (forall d, create_failed (createBookingEvent (gcal e) d)) ->
  exists msg,
    run (push_created e uid lastID t dur n) w
    = (Val None, insert_sync_entry (SyncEntry "create" lastID None "error" (Some msg)) w).
Proof.
  intros Hw Hon Hid Hfail. unfold push_created, isCalendarSyncEnabled, client_of, sync_log.
  run_steps. rewrite Hon. apply Z.eqb_neq in Hid. rewrite Hid. cbn [negb andb].
  run_steps. destruct (user_by_id uid w) as [u |]; run_steps.
  - match goal with |- context [createBookingEvent (gcal e) ?d] =>
      pose proof (Hfail d) as Hd; destruct (createBookingEvent (gcal e) d) as [[| c ev] | |]
    end; try contradiction; run_steps; eexists; reflexivity.
  - eexists. reflexivity.
Qed.

Lemma run_push_updated_failing
      (e : env) (uid bid : Z) (b : booking) (t : Z) (n : option string) (w : world) :
  writes_left w = None ->
  calendar_sync_enabled w = true ->
  (forall ev d, push_failed (updateBookingEvent (gcal e) ev d)) ->
  exists msg,
    run (push_updated e uid bid b t n) w
    = (Val false,
       if Js.truthy (google_calendar_event_id b)
       then insert_sync_entry
              (SyncEntry "update" bid (google_calendar_event_id b) "error" (Some msg)) w
       else w).
Proof.
  intros Hw Hon Hfail. unfold push_updated, isCalendarSyncEnabled, client_of, sync_log.
  run_steps. rewrite Hon.
  destruct (Js.truthy (google_calendar_event_id b)); cbn [andb]; run_steps;
    [ | exists ""; reflexivity ].
  destruct (user_by_id uid w) as [u |]; run_steps.
  - match goal with |- context [updateBookingEvent (gcal e) ?ev ?d] =>
      pose proof (Hfail ev d) as Hd; destruct (updateBookingEvent (gcal e) ev d)
    end; try contradiction; run_steps; eexists; reflexivity.
  - eexists. reflexivity.
Qed.

Lemma run_push_deleted_failing (e : env) (bid : Z) (b : booking) (w : world) :
  writes_left w = None ->
  calendar_sync_enabled w = true ->
  (forall ev, push_failed (deleteBookingEvent (gcal e) ev)) ->
  exists msg,
    run (push_deleted e bid b) w
    = (Val false,
       if Js.truthy (google_calendar_event_id b)
       then insert_sync_entry
              (SyncEntry "delete" bid (google_calendar_event_id b) "error" (Some msg)) w
       else w).
Proof.
  intros Hw Hon Hfail. unfold push_deleted, isCalendarSyncEnabled, sync_log.
  run_steps. rewrite Hon.
  destruct (Js.truthy (google_calendar_event_id b)); cbn [andb]; run_steps;
    [ | exists ""; reflexivity ].
  match goal with |- context [deleteBookingEvent (gcal e) ?ev] =>
    pose proof (Hfail ev) as Hd; destruct (deleteBookingEvent (gcal e) ev)
  end; try contradiction; run_steps; eexists; reflexivity.
Qed.

Lemma turned_away_fail (c : Z) (m : string) (w : world) :
  turned_away w (Reply (fail c m), w).
Proof. exists (fail c m). repeat split. Qed.

(** [POST /] on a calendar that fails: the request is turned away with the
    store untouched, or the booking is created and the error logged. *)
Lemma post_failure_logged (e : env) (req : request) (w : world) :
  writes_left w = None ->
  calendar_sync_enabled w = true ->
  bookings_seq w + 1 <> 0 ->
  (forall d, create_failed (createBookingEvent (gcal e) d)) ->
  turned_away w (run (bookings_post e req) w)
  \/ created_unsynced e req w (run (bookings_post e req) w).
Proof.
  intros Hw Hon Hseq Hfail. unfold bookings_post. rewrite run_bind.
  destruct (authenticateToken_cases e req w) as [(c & m & ->) | (u & Hin & ->)];
    cbv beta iota; [ left; apply turned_away_fail | ].
  unfold requireVerified. req_simpl.
  destruct (is_verified u) eqn:Hv; run_steps; [ | left; apply turned_away_fail ].
  assert (Hcreate :
            turned_away w (run (create_booking e (set_user req u)) w)
            \/ created_unsynced e req w (run (create_booking e (set_user req u)) w)).
  { unfold create_booking, user_of, toISOString. req_simpl. run_steps. cbv zeta.
    destruct (negb (Js.truthy (body_lesson_date req)) || _); run_steps;
      [ left; apply turned_away_fail | ].
    destruct (Js.new_Date (engine e) (tz e) (body_lesson_date req)) as [t |] eqn:Ht;
      [ | cbn [not_after]; run_steps; left; apply turned_away_fail ].
    destruct (not_after (Some t) (now e)); run_steps; [ left; apply turned_away_fail | ].
    destruct (conflicting_booking t w); run_steps; [ left; apply turned_away_fail | ].
    set (w1 := insert_booking _ w).
    destruct (run_push_created_failing e (u_id u) (bookings_seq w + 1) t
                (default 0 (body_duration req)) (body_notes req) w1 Hw Hon Hseq Hfail)
      as (msg & Hrun).
    rewrite Hrun. run_steps. right. exists u, t, msg.
    split; [ exact Hin | ]. split; [ exact Ht | ]. repeat split. }
  unfold checkBlackoutDates. req_simpl.
  set (dateToCheck := if Js.truthy (body_new_date req) then _ else _).
  run_steps.
  destruct (Js.truthy dateToCheck); cbn [negb]; run_steps; [ | exact Hcreate ].
  unfold toISOString.
  destruct (Js.new_Date (engine e) (tz e) dateToCheck); run_steps;
    [ | left; apply turned_away_fail ].
  destruct (blackout_conflict _ w); run_steps; [ left; apply turned_away_fail | exact Hcreate ].
Qed.

(** [PUT /:id] on a calendar that fails. *)
Lemma put_failure_logged (e : env) (req : request) (w : world) :
  writes_left w = None ->
  calendar_sync_enabled w = true ->
  (forall ev d, push_failed (updateBookingEvent (gcal e) ev d)) ->
  turned_away w (run (bookings_put e req) w)
  \/ moved_unsynced e req w (run (bookings_put e req) w).
Proof.
  intros Hw Hon Hfail. unfold bookings_put. rewrite run_bind.
  destruct (authenticateToken_cases e req w) as [(c & m & ->) | (u & Hin & ->)];
    cbv beta iota; [ left; apply turned_away_fail | ].
  unfold requireVerified. req_simpl.
  destruct (is_verified u) eqn:Hv; run_steps; [ | left; apply turned_away_fail ].
  unfold checkReschedulePolicy, get_setting. req_simpl. run_steps. cbv zeta.
  destruct (booking_of_user (params_id req) (u_id u) w) as [b |] eqn:Hb; run_steps;
    [ | left; apply turned_away_fail ].
  destruct (same_month (tz e) (Some (lesson_date b)) _); cbn [negb]; run_steps;
    [ | left; apply turned_away_fail ].
  destruct (ge_num _ _); run_steps; [ left; apply turned_away_fail | ].
  assert (Hmove :
            turned_away w (run (reschedule_booking e (set_user req u)) w)
            \/ moved_unsynced e req w (run (reschedule_booking e (set_user req u)) w)).
  { unfold reschedule_booking, user_of, toISOString. req_simpl. run_steps.
    destruct (Js.truthy (body_lesson_date req)); cbn [negb]; run_steps;
      [ | left; apply turned_away_fail ].
    rewrite Hb. run_steps.
    destruct (same_month (tz e) (Js.new_Date _ _ _) _) eqn:Hsame; cbn [negb]; run_steps;
      [ | left; apply turned_away_fail ].
    destruct (Js.new_Date (engine e) (tz e) (body_lesson_date req)) as [t |] eqn:Ht;
      [ | discriminate Hsame ].
    run_steps.
    destruct (conflicting_booking_except t (params_id req) w); run_steps;
      [ left; apply turned_away_fail | ].
    set (w1 := update_booking _ _ w).
    destruct (run_push_updated_failing e (u_id u) (params_id req) b t (body_notes req)
                w1 Hw Hon Hfail) as (msg & Hrun).
    rewrite Hrun. run_steps. right. exists u, b, t.
    split; [ exact Hin | ]. split; [ exact Hb | ]. split; [ exact Ht | ].
    split; [ reflexivity | ].
    destruct (Js.truthy (google_calendar_event_id b)).
    - split; [ reflexivity | ]. split; [ exists msg; reflexivity | repeat split ].
    - split; [ reflexivity | ]. split; [ reflexivity | repeat split ]. }
  unfold checkBlackoutDates. req_simpl.
  set (dateToCheck := if Js.truthy (body_new_date req) then _ else _).
  run_steps.
  destruct (Js.truthy dateToCheck); cbn [negb]; run_steps; [ | exact Hmove ].
  unfold toISOString.
  destruct (Js.new_Date (engine e) (tz e) dateToCheck); run_steps;
    [ | left; apply turned_away_fail ].
  destruct (blackout_conflict _ w); run_steps; [ left; apply turned_away_fail | exact Hmove ].
Qed.

(** [DELETE /:id] on a calendar that fails. *)
Lemma delete_failure_logged (e : env) (req : request) (w : world) :
  writes_left w = None ->
  calendar_sync_enabled w = true ->
  (forall ev, push_failed (deleteBookingEvent (gcal e) ev)) ->
  turned_away w (run (bookings_delete e req) w)
  \/ cancelled_with_charge w (run (bookings_delete e req) w)
  \/ cancelled_unsynced e req w (run (bookings_delete e req) w).
Proof.
  intros Hw Hon Hfail. unfold bookings_delete. rewrite run_bind.
  destruct (authenticateToken_cases e req w) as [(c & m & ->) | (u & Hin & ->)];
    cbv beta iota; [ left; apply turned_away_fail | ].
  unfold requireVerified. req_simpl.
  destruct (is_verified u) eqn:Hv; run_steps; [ | left; apply turned_away_fail ].
  unfold checkCancellationPolicy, get_setting, hoursUntilLesson.
  req_simpl. run_steps. cbv zeta.
  destruct (booking_of_user (params_id req) (u_id u) w) as [b |] eqn:Hb; run_steps;
    [ | left; apply turned_away_fail ].
  unfold enforceCancellationCharging. cbn [cancellationAllowed]. req_simpl.
  destruct (within_policy _ _); cbn [negb]; run_steps.
  - unfold cancel_booking, user_of. req_simpl. run_steps. rewrite Hb. run_steps.
    set (w1 := update_booking _ _ w).
    destruct (run_push_deleted_failing e (params_id req) b w1 Hw Hon Hfail) as (msg & Hrun).
    rewrite Hrun. run_steps. right. right. exists u, b.
    split; [ exact Hin | ]. split; [ exact Hb | ]. split; [ reflexivity | ].
    destruct (Js.truthy (google_calendar_event_id b)).
    + split; [ reflexivity | ]. split; [ exists msg; reflexivity | repeat split ].
    + split; [ reflexivity | ]. split; [ reflexivity | repeat split ].
  - destruct (booking_by_id (params_id req) w) as [b' |]; run_steps.
    + right. left. exists (price b'). split; reflexivity.
    + left. apply turned_away_fail.
Qed.

(** C8.  For a booking creation, reschedule or cancellation, what the
    external calendar does with the push, success, reported failure or
    exception, changes neither the status the caller receives nor the local
    state of the store: the two runs differ at most in the calendar-event
    reference and in the sync log.  When sync is on and the pushes fail, a
    request to any of the three routes is either refused with the store
    untouched or carried out: the caller is told of the success, the row of
    the booking is written as the operation has it, and the one trace of the
    failure is one error entry appended to the sync log (a late cancellation
    and an operation on a booking without a calendar event push nothing and
    log nothing).  And the calendar part of each handler ends normally after
    appending that entry. *)
Theorem calendar_failure_contained
        (e : env) (cal' : calendar) (req : request) (w : world) :
  writes_left w = None ->
  let e' := Env (now e) (tz e) cal' (jwt_secret e) (engine e) in
  same_local_outcome (run (bookings_post e req) w) (run (bookings_post e' req) w)
  /\ same_local_outcome (run (bookings_put e req) w) (run (bookings_put e' req) w)
  /\ same_local_outcome (run (bookings_delete e req) w) (run (bookings_delete e' req) w)
  /\ (calendar_sync_enabled w = true ->
      forall uid u b t dur n,
        user_by_id uid w = Some u ->
        ((forall d, create_failed (createBookingEvent (gcal e) d)) ->
         forall lastID, lastID <> 0 ->
           exists w', run (push_created e uid lastID t dur n) w = (Val None, w')
                      /\ logged_error "create" lastID w w')
        /\ (Js.truthy (google_calendar_event_id b) = true ->
            ((forall ev d, push_failed (updateBookingEvent (gcal e) ev d)) ->
             exists w', run (push_updated e uid (id b) b t n) w = (Val false, w')
                        /\ logged_error "update" (id b) w w')
            /\ ((forall ev, push_failed (deleteBookingEvent (gcal e) ev)) ->
                exists w', run (push_deleted e (id b) b) w = (Val false, w')
                           /\ logged_error "delete" (id b) w w')))
  /\ (calendar_sync_enabled w = true ->
      pushes_fail (gcal e) ->
      (bookings_seq w + 1 <> 0 ->
       turned_away w (run (bookings_post e req) w)
       \/ created_unsynced e req w (run (bookings_post e req) w))
      /\ (turned_away w (run (bookings_put e req) w)
          \/ moved_unsynced e req w (run (bookings_put e req) w))
      /\ (turned_away w (run (bookings_delete e req) w)
          \/ cancelled_with_charge w (run (bookings_delete e req) w)
          \/ cancelled_unsynced e req w (run (bookings_delete e req) w))).
Proof.
  intros Hw e'. split; [ | split; [ | split; [ | split ] ] ].
  - destruct e as [clock zone cal jwt eng]. apply post_contained, Hw.
  - destruct e as [clock zone cal jwt eng]. apply put_contained, Hw.
  - destruct e as [clock zone cal jwt eng]. apply delete_contained, Hw.
  - intros Hon uid u b t dur n Hu. split.
    + intros Hfail lastID Hid. eapply push_created_failure_logged; eauto.
    + intros Hev. split; intros Hfail.
      * eapply push_updated_failure_logged; eauto.
      * eapply push_deleted_failure_logged; eauto.
  - intros Hon (Hc & Hu & Hd). split; [ | split ].
    + intros Hseq. apply post_failure_logged; assumption.
    + apply put_failure_logged; assumption.
    + apply delete_failure_logged; assumption.
Qed.

Lemma calendar_failure_contained_witness :
  same_local_outcome (run (bookings_post (Env 1761955200000 0 calendar_down true iso_only) book_nov_20)
                          synced_studio)
                     (run (bookings_post (Env 1761955200000 0 calendar_up true iso_only) book_nov_20)
                          synced_studio)
  /\ created_unsynced (Env 1761955200000 0 calendar_down true iso_only) book_nov_20 synced_studio
       (run (bookings_post (Env 1761955200000 0 calendar_down true iso_only) book_nov_20)
            synced_studio).
Proof.
  destruct (calendar_failure_contained (Env 1761955200000 0 calendar_down true iso_only)
              calendar_up book_nov_20 synced_studio eq_refl)
    as (Hsame & _ & _ & _ & Hlogged).
  split; [ exact Hsame | ].
  destruct (Hlogged eq_refl) as (Hpost & _).
  { repeat split. }
  destruct (Hpost ltac:(discriminate)) as [(r & Hr & Hf & _) | Hdone]; [ | exact Hdone ].
  exfalso. vm_compute in Hr. injection Hr as <-. discriminate Hf.
Defined.

(** What the two runs of the witness look like: the caller is told 201 both
    times; with the calendar down the new row has no event reference and the
    log holds the error. *)
Example creation_with_calendar_down :
  let out := run (bookings_post (Env 1761955200000 0 calendar_down true iso_only) book_nov_20)
                 synced_studio in
  fst out = Reply (Response 201 true "Booking created successfully"
                            (BookingCreated 2 85 60 1763647200000 false))
  /\ bookings (snd out)
     = [synced_lesson;
        Booking 2 7 1763647200000 60 85 Pending None 0 None None None None None]
  /\ calendar_sync_log (snd out) = [SyncEntry "create" 2 None "error" (Some "ETIMEDOUT")].
Proof. repeat split. Qed.

Example creation_with_calendar_up :
  let out := run (bookings_post (Env 1761955200000 0 calendar_up true iso_only) book_nov_20)
                 synced_studio in
  fst out = Reply (Response 201 true "Booking created successfully and added to calendar"
                            (BookingCreated 2 85 60 1763647200000 true))
  /\ bookings (snd out)
     = [synced_lesson;
        Booking 2 7 1763647200000 60 85 Pending None 0 None None None None (Some "evt_1")]
  /\ calendar_sync_log (snd out) = [SyncEntry "create" 2 (Some "evt_1") "success" None].
Proof. repeat split. Qed.

(** The same for a move and for a cancellation of the synced lesson. *)
Example move_with_calendar_down :
  let e := Env 1761955200000 0 calendar_down true iso_only in
  let out := run (bookings_put e move_within_nov) synced_studio in
  fst out = Reply (Response 200 true "Booking rescheduled successfully"
                            (BookingRescheduled false))
  /\ bookings (snd out)
     = [Booking 1 7 1762956000000 60 85 Confirmed None 1 (Some 1762783200000) None None
                (Some 1761955200000) (Some "evt_0")]
  /\ calendar_sync_log (snd out)
     = [SyncEntry "update" 1 (Some "evt_0") "error" (Some "ETIMEDOUT")].
Proof. repeat split. Qed.

Example cancellation_with_calendar_down :
  let e := Env 1761955200000 0 calendar_down true iso_only in
  let out := run (bookings_delete e cancel_nov_10) synced_studio in
  fst out = Reply (Response 200 true "Booking cancelled successfully"
                            (BookingCancelled false))
  /\ bookings (snd out)
     = [Booking 1 7 1762783200000 60 85 Cancelled None 0 None None
                (Some 1761955200000) (Some 1761955200000) (Some "evt_0")]
  /\ calendar_sync_log (snd out)
     = [SyncEntry "delete" 1 (Some "evt_0") "error" (Some "ETIMEDOUT")].
Proof. repeat split. Qed.

(** ** No double booking (C1) *)

(** [store_ok] looks at the local state only. *)
Lemma store_ok_local (w w' : world) :
  local_state w = local_state w' -> store_ok w -> store_ok w'.
Proof.
  intros Heq (Hw & Hnd & Hseq & Hdb).
  assert (Hb : List.map forget_event (bookings w) = List.map forget_event (bookings w')).
  { change (bookings (local_state w) = bookings (local_state w')). rewrite Heq. reflexivity. }
  assert (Hs : bookings_seq w = bookings_seq w').
  { change (bookings_seq (local_state w) = bookings_seq (local_state w')).
    rewrite Heq. reflexivity. }
  assert (Hwl : writes_left w = writes_left w').
  { change (writes_left (local_state w) = writes_left (local_state w')).
    rewrite Heq. reflexivity. }
  assert (Hin : forall b', In b' (bookings w') ->
            exists b, In b (bookings w) /\ forget_event b = forget_event b').
  { intros b' Hb'. apply (in_map forget_event) in Hb'. rewrite <- Hb in Hb'.
    apply in_map_iff in Hb' as (b & Hfb & Hinb). eauto. }
  assert (Hfields : forall b b', forget_event b = forget_event b' ->
            id b = id b' /\ status b = status b' /\ lesson_date b = lesson_date b').
  { intros b b' H. injection H. intros. auto. }
  repeat split.
  - congruence.
  - assert (Hids : List.map id (bookings w') = List.map id (bookings w)).
    { transitivity (List.map id (List.map forget_event (bookings w'))).
      - rewrite List.map_map. reflexivity.
      - rewrite <- Hb, List.map_map. reflexivity. }
    rewrite Hids. exact Hnd.
  - intros b' Hb'. destruct (Hin b' Hb') as (b & Hinb & Hf).
    destruct (Hfields _ _ Hf) as (Hid & _ & _). rewrite <- Hid, <- Hs. auto.
  - intros b1' b2' H1 H2 Hn1 Hn2 Hd.
    destruct (Hin b1' H1) as (b1 & Hin1 & Hf1). destruct (Hin b2' H2) as (b2 & Hin2 & Hf2).
    destruct (Hfields _ _ Hf1) as (Hi1 & Hs1 & Hd1).
    destruct (Hfields _ _ Hf2) as (Hi2 & Hs2 & Hd2).
    rewrite <- Hi1, <- Hi2. apply Hdb; congruence.
Qed.

Lemma conflicting_booking_none (t : Z) (w : world) (b : booking) :
  conflicting_booking t w = None ->
  In b (bookings w) -> non_terminal (status b) = true -> lesson_date b <> t.
Proof.
  intros Hnone Hin Hnt Hd.
  apply (find_none _ _ Hnone) in Hin.
  rewrite Hd, Z.eqb_refl in Hin. destruct (status b); discriminate.
Qed.

Lemma conflicting_booking_except_none (t bid : Z) (w : world) (b : booking) :
  conflicting_booking_except t bid w = None ->
  In b (bookings w) -> non_terminal (status b) = true -> lesson_date b = t -> id b = bid.
Proof.
  intros Hnone Hin Hnt Hd.
  apply (find_none _ _ Hnone) in Hin.
  rewrite Hd, Z.eqb_refl in Hin.
  destruct (Z.eqb_spec (id b) bid); [ assumption | ].
  destruct (status b); discriminate.
Qed.

(** Inserting a pending booking into a free slot keeps the store in order. *)
Lemma store_ok_insert (w : world) (uid t dur : Z) (p : Q) (n : option string) :
  store_ok w ->
  conflicting_booking t w = None ->
  store_ok (insert_booking
              (Booking (bookings_seq w + 1) uid t dur p Pending n 0 None None None None None)
              w).
Proof.
  intros (Hw & Hnd & Hseq & Hdb) Hfree.
  set (b := Booking _ _ _ _ _ _ _ _ _ _ _ _ _).
  assert (Hfresh : forall r, In r (bookings w) -> id r <> id b).
  { intros r Hr. apply Hseq in Hr. cbn. lia. }
  repeat split; cbn [insert_booking bookings bookings_seq writes_left].
  - exact Hw.
  - rewrite List.map_app. apply NoDup_app. repeat split.
    + exact Hnd.
    + intros x Hx Hx'. cbn in Hx'. apply list_elem_of_singleton in Hx'. subst x.
      apply list_elem_of_In, in_map_iff in Hx as (r & Hid & Hr).
      apply (Hfresh r Hr). exact Hid.
    + apply NoDup_singleton.
  - intros r Hr. apply in_app_or in Hr as [Hr | [<- | []]].
    + apply Hseq in Hr. cbn. lia.
    + cbn. lia.
  - intros b1 b2 H1 H2 Hn1 Hn2 Hd.
    apply in_app_or in H1 as [H1 | [<- | []]]; apply in_app_or in H2 as [H2 | [<- | []]].
    + apply Hdb; assumption.
    + exfalso. apply (conflicting_booking_none t w b1 Hfree H1 Hn1). exact Hd.
    + exfalso. apply (conflicting_booking_none t w b2 Hfree H2 Hn2). symmetry. exact Hd.
    + reflexivity.
Qed.

(** Moving a booking into a slot that no other booking holds keeps the store
    in order. *)
Lemma store_ok_move (e : env) (w : world) (bid t prev : Z) (n : option string) :
  store_ok w ->
  conflicting_booking_except t bid w = None ->
  store_ok (update_booking bid (rescheduled_row e t n prev) w).
Proof.
  intros (Hw & Hnd & Hseq & Hdb) Hfree.
  assert (Hin : forall r', In r' (bookings (update_booking bid (rescheduled_row e t n prev) w)) ->
            exists r, In r (bookings w) /\ id r' = id r /\ status r' = status r
                      /\ ((id r = bid /\ lesson_date r' = t)
                          \/ (id r <> bid /\ lesson_date r' = lesson_date r))).
  { intros r' Hr'. cbn in Hr'. apply in_map_iff in Hr' as (r & Hrr & Hr).
    exists r. split; [ exact Hr | ].
    destruct (Z.eqb_spec (id r) bid); subst r'; cbn; auto. }
  repeat split.
  - exact Hw.
  - cbn. rewrite List.map_map.
    erewrite List.map_ext; [ exact Hnd | ].
    intros r. cbn. destruct (id r =? bid); reflexivity.
  - intros r' Hr'. destruct (Hin r' Hr') as (r & Hr & Hid & _). rewrite Hid.
    cbn. auto.
  - intros b1 b2 H1 H2 Hn1 Hn2 Hd.
    destruct (Hin b1 H1) as (r1 & Hr1 & Hi1 & Hs1 & Hc1).
    destruct (Hin b2 H2) as (r2 & Hr2 & Hi2 & Hs2 & Hc2).
    rewrite Hi1, Hi2. rewrite Hs1 in Hn1. rewrite Hs2 in Hn2.
    destruct Hc1 as [[Hb1 Hd1] | [Hb1 Hd1]]; destruct Hc2 as [[Hb2 Hd2] | [Hb2 Hd2]].
    + congruence.
    + exfalso. apply Hb2.
      apply (conflicting_booking_except_none t bid w r2 Hfree Hr2 Hn2). congruence.
    + exfalso. apply Hb1.
      apply (conflicting_booking_except_none t bid w r1 Hfree Hr1 Hn1). congruence.
    + apply Hdb; congruence.
Qed.

(** A booking request either is turned away with the store untouched, or
    inserts a pending row into a slot that the conflict check found free. *)
Lemma create_gate (e : env) (req : request) (w : world) :
  writes_left w = None ->
  turned_away w (run (bookings_post e req) w)
  \/ booking_created e req w (run (bookings_post e req) w).
Proof.
  intros Hw.
  assert (Hrej : forall c m, turned_away w (Reply (fail c m), w)).
  { intros c m. exists (fail c m). repeat split. }
  unfold bookings_post. rewrite run_bind.
  destruct (authenticateToken_cases e req w) as [(c & m & ->) | (u & Hin & ->)];
    cbv beta iota; [ left; apply Hrej | ].
  unfold requireVerified. req_simpl.
  destruct (is_verified u) eqn:Hv; run_steps; [ | left; apply Hrej ].
  assert (Hcreate : turned_away w (run (create_booking e (set_user req u)) w)
                    \/ booking_created e req w (run (create_booking e (set_user req u)) w)).
  { unfold create_booking, user_of, toISOString. req_simpl. run_steps. cbv zeta.
    destruct (negb (Js.truthy (body_lesson_date req)) || _); run_steps;
      [ left; apply Hrej | ].
    destruct (not_after _ (now e)); run_steps; [ left; apply Hrej | ].
    destruct (Js.new_Date (engine e) (tz e) (body_lesson_date req)) as [t |] eqn:Ht; run_steps;
      [ | left; apply Hrej ].
    destruct (conflicting_booking t w) eqn:Hfree; run_steps; [ left; apply Hrej | ].
    set (w1 := insert_booking _ w).
    destruct (run_push_created e (u_id u) (bookings_seq w + 1) t
                (default 0 (body_duration req)) (body_notes req) w1 Hw)
      as (ev & w2 & Hrun & Hloc).
    rewrite Hrun. run_steps. right.
    eexists _, (u_id u), t, _. cbn [fst snd code success].
    repeat split; try reflexivity; try assumption. exact Hloc. }
  unfold checkBlackoutDates. req_simpl.
  set (dateToCheck := if Js.truthy (body_new_date req) then _ else _).
  run_steps.
  destruct (Js.truthy dateToCheck); cbn [negb]; run_steps; [ | exact Hcreate ].
  unfold toISOString.
  destruct (Js.new_Date (engine e) (tz e) dateToCheck); run_steps; [ | left; apply Hrej ].
  destruct (blackout_conflict _ w); run_steps; [ left; apply Hrej | exact Hcreate ].
Qed.

Lemma perform_keeps_store_ok (o : operation) (w : world) :
  store_ok w -> store_ok (snd (run (perform o) w)).
Proof.
  intros Hok. pose proof Hok as (Hw & _).
  destruct o as [e req | e req]; cbn [perform].
  - destruct (create_gate e req w Hw) as [(r & _ & _ & ->) | Hdone]; [ exact Hok | ].
    destruct Hdone as (r & uid & t & p & _ & _ & _ & _ & Hfree & Hloc).
    apply (store_ok_local _ _ (eq_sym Hloc)). apply store_ok_insert; assumption.
  - destruct (reschedule_gate e req w Hw) as [(r & _ & _ & ->) | Hdone]; [ exact Hok | ].
    destruct Hdone as (r & u & b & t & _ & _ & _ & _ & _ & _ & _ & _ & Hfree & _ & Hloc).
    apply (store_ok_local _ _ (eq_sym Hloc)). apply store_ok_move; assumption.
Qed.

(** What the handlers do guarantee.  When create and reschedule requests are
    carried out one after the other, each running to its end before the
    next starts, a store that has at most one non-terminal booking per start
    timestamp keeps that property; and a request for a slot that a booking
    blocks is turned away with the store untouched. *)
Lemma no_double_booking_when_serialized (ops : list operation) (w : world) :
  store_ok w ->
  store_ok (perform_all ops w)
  /\ no_double_booking (perform_all ops w)
  /\ (forall e req t,
        Js.new_Date (engine e) (tz e) (body_lesson_date req) = Some t ->
        (conflicting_booking t w <> None ->
         turned_away w (run (bookings_post e req) w))
        /\ (conflicting_booking_except t (params_id req) w <> None ->
            turned_away w (run (bookings_put e req) w))).
Proof.
  intros Hok.
  assert (Hall : store_ok (perform_all ops w)).
  { revert w Hok. induction ops as [| o ops IH]; intros w Hok; [ exact Hok | ].
    cbn [perform_all]. apply IH, perform_keeps_store_ok, Hok. }
  split; [ exact Hall | split; [ apply Hall | ] ].
  destruct Hok as (Hw & _).
  intros e req t Ht. split; intros Hbusy.
  - destruct (create_gate e req w Hw) as [Hrej | Hdone]; [ exact Hrej | exfalso ].
    destruct Hdone as (r & uid & t' & p & _ & _ & _ & Ht' & Hfree & _).
    rewrite Ht in Ht'. injection Ht' as <-. contradiction.
  - destruct (reschedule_gate e req w Hw) as [Hrej | Hdone]; [ exact Hrej | exfalso ].
    destruct Hdone as (r & u & b & t' & _ & _ & _ & _ & _ & Ht' & _ & _ & Hfree & _).
    rewrite Ht in Ht'. injection Ht' as <-. contradiction.
Qed.

Lemma empty_world_ok : store_ok empty_world.
Proof.
  repeat split.
  - apply NoDup_nil_2.
  - intros b [].
  - intros b1 b2 [].
Qed.

Example serialized_creates_keep_slots_single :
  no_double_booking
    (perform_all [CreateBooking nov_1_utc book_nov_20; CreateBooking nov_1_utc book_nov_20_too]
                 empty_world).
Proof.
  apply (no_double_booking_when_serialized
           [CreateBooking nov_1_utc book_nov_20; CreateBooking nov_1_utc book_nov_20_too]
           empty_world empty_world_ok).
Qed.

(** One after the other, the second client is told that the slot is taken. *)
Example second_create_conflicts :
  run (bookings_post nov_1_utc book_nov_20_too)
      (snd (run (bookings_post nov_1_utc book_nov_20) empty_world))
  = (Reply slot_taken, snd (run (bookings_post nov_1_utc book_nov_20) empty_world)).
Proof. reflexivity. Qed.

(** C1.  Two booking requests of two clients for the same start time, in
    flight together and interleaved at their [await]s so that both conflict
    checks complete before either insert: both are answered 201 and the
    store ends with two pending bookings for that timestamp.  Neither
    receives the conflict error. *)
Theorem racing_creates_both_succeed :
  fst (interleave racing_schedule two_creates empty_world)
  = [Ret (Reply (Response 201 true "Booking created successfully"
                          (BookingCreated 1 85 60 1763647200000 false)));
     Ret (Reply (Response 201 true "Booking created successfully"
                          (BookingCreated 2 70 45 1763647200000 false)))]
  /\ bookings (snd (interleave racing_schedule two_creates empty_world))
     = [Booking 1 7 1763647200000 60 85 Pending None 0 None None None None None;
        Booking 2 8 1763647200000 45 70 Pending None 0 None None None None None].
Proof. split; reflexivity. Qed.

(** The guarantee of the design does not hold of the handlers: the conflict
    check and the insert are two separate [await]s, and two requests for one
    slot whose checks both complete before either insert both succeed. *)
Lemma concurrent_creates_double_book : ~ serialized_per_timestamp.
Proof.
  intros H.
  specialize (H (CreateBooking nov_1_utc book_nov_20)
                (CreateBooking nov_1_utc book_nov_20_too)
                empty_world racing_schedule empty_world_ok).
  unfold no_double_booking in H.
  assert (Hrows : bookings (snd (interleave racing_schedule
                                   [perform (CreateBooking nov_1_utc book_nov_20);
                                    perform (CreateBooking nov_1_utc book_nov_20_too)]
                                   empty_world))
                  = [Booking 1 7 1763647200000 60 85 Pending None 0 None None None None None;
                     Booking 2 8 1763647200000 45 70 Pending None 0 None None None None None])
    by (vm_compute; reflexivity).
  rewrite Hrows in H.
  specialize (H (Booking 1 7 1763647200000 60 85 Pending None 0 None None None None None)
                (Booking 2 8 1763647200000 45 70 Pending None 0 None None None None None)).
  assert (Habs : (1 : Z) = 2); [ | discriminate Habs ].
  apply H; [ left | right; left | .. ]; reflexivity.
Qed.

(** ** The availability resolver (C6) *)

Lemma candidate_slots_in (dayEnd dur : Z) (fuel : nat) (cur : Z) (c : slot) :
  In c (candidate_slots fuel dayEnd dur cur)
  <-> exists k : nat,
        (k < fuel)%nat
        /\ cur + Z.of_nat k * (30 * 60000) < dayEnd
        /\ cur + Z.of_nat k * (30 * 60000) + dur * 60000 <= dayEnd
        /\ Z.abs (cur + Z.of_nat k * (30 * 60000) + dur * 60000) <= Js.max_time
        /\ c = Slot (cur + Z.of_nat k * (30 * 60000))
                    (cur + Z.of_nat k * (30 * 60000) + dur * 60000) true.
Proof.
  revert cur. induction fuel as [| fuel IH]; intros cur; cbn [candidate_slots].
  - split; [ intros [] | intros (k & Hk & _); lia ].
  - unfold Js.addMinutes, Js.msPerMinute, Js.is_time.
    destruct (Z.ltb_spec cur dayEnd) as [Hlt | Hge].
    + rewrite in_app_iff, IH. split.
      * intros [Hhead | (k & Hk & Hs & He & Hr & Hc)].
        -- destruct (Z.leb_spec (Z.abs (cur + dur * 60000)) Js.max_time);
             cbn [andb] in Hhead; [ | destruct Hhead ].
           destruct (Z.leb_spec (cur + dur * 60000) dayEnd); [ | destruct Hhead ].
           destruct Hhead as [<- | []]. exists 0%nat.
           change (Z.of_nat 0) with 0. rewrite Z.mul_0_l, Z.add_0_r.
           repeat split; try lia.
        -- exists (S k). rewrite Nat2Z.inj_succ.
           replace (cur + Z.succ (Z.of_nat k) * (30 * 60000))
             with (cur + 30 * 60000 + Z.of_nat k * (30 * 60000)) by lia.
           repeat split; try lia; assumption.
      * intros (k & Hk & Hs & He & Hr & Hc). destruct k as [| k].
        -- left. change (Z.of_nat 0) with 0 in *. rewrite Z.mul_0_l, Z.add_0_r in *.
           destruct (Z.leb_spec (Z.abs (cur + dur * 60000)) Js.max_time); [ | lia ].
           destruct (Z.leb_spec (cur + dur * 60000) dayEnd); [ | lia ].
           left. rewrite Hc. reflexivity.
        -- right. exists k. rewrite Nat2Z.inj_succ in Hs, He, Hr, Hc.
           replace (cur + Z.succ (Z.of_nat k) * (30 * 60000))
             with (cur + 30 * 60000 + Z.of_nat k * (30 * 60000)) in Hs, He, Hr, Hc by lia.
           repeat split; try lia; assumption.
    + split; [ intros [] | intros (k & _ & Hs & _); lia ].
Qed.




Lemma local_date_utc (t : Z) : Js.local_date 0 t = Js.utc_date t.
Proof. unfold Js.local_date. rewrite Z.mul_0_l, Z.add_0_r. reflexivity. Qed.









(** What the resolver returns at the witness: of the eighteen half-hour
    starts from 9:00 to 17:30, the one at 17:30 is dropped because the hour
    would end after 18:00, those at 9:30, 10:00 and 10:30 are withheld for
    the lesson from 10:00 to 11:00, and those at 12:30, 13:00 and 13:30 for
    the busy hour from 13:00 to 14:00. *)
Example slots_around_a_lesson_and_a_busy_hour :
  run (getAvailableSlots utc_with_busy_hour "2025-11-25" 60) tuesday_booked
  = (Val (List.map (fun start => Slot start (start + 3600000) true)
            [1764061200000; 1764068400000; 1764070200000; 1764072000000;
             1764079200000; 1764081000000; 1764082800000; 1764084600000;
             1764086400000; 1764088200000; 1764090000000]),
     tuesday_booked).
Proof. vm_compute. reflexivity. Qed.

(** What the theorem leaves out.  The business hours of a date are laid
    out on the calendar of the process, while the query for the bookings of
    the date compares the day of the stored, UTC, text.  West of UTC a
    lesson of the late afternoon is stored under the following day, and its
    slot is offered: here the confirmed lesson of 2025-11-25 at 16:00 in a
    process eight hours west of UTC. *)
Example evening_lesson_offered_west_of_utc :
  Js.local_date (-480) (lesson_date evening_lesson) = Js.Ymd 2025 11 25
  /\ exists slots,
       run (getAvailableSlots eight_hours_west "2025-11-25" 60) evening_booked
       = (Val slots, evening_booked)
       /\ In (Slot (lesson_date evening_lesson) (lesson_date evening_lesson + 3600000) true)
             slots.
Proof.
  split; [ reflexivity | ].
  eexists. split; [ vm_compute; reflexivity | ].
  cbn. do 14 right. left. reflexivity.
Qed.

(** The hourly route of the booking routes consults the blackout ranges no
    more than the resolver does, and writes nothing either. *)
Example hourly_route_on_blackout_day :
  run (bookings_availability nov_1_utc "2025-11-25") thanksgiving_closed
  = (Reply (ok "" (HourlySlots
                     [(1764061200000, true); (1764064800000, true); (1764068400000, true);
                      (1764072000000, true); (1764075600000, true); (1764079200000, true);
                      (1764082800000, true); (1764086400000, true); (1764090000000, true)])),
     thanksgiving_closed).
Proof. vm_compute. reflexivity. Qed.


(** ** Durations at booking creation (C7) *)

(** C7.  A booking request whose duration is 17 minutes, which is none of
    the allowed values, is not rejected: the route answers 201 and stores a
    pending booking priced as a 60-minute lesson. *)
Theorem odd_duration_accepted :
  run (bookings_post nov_1_utc book_17_minutes) empty_world
  = (Reply (Response 201 true "Booking created successfully"
                     (BookingCreated 1 85 17 1763647200000 false)),
     insert_booking
       (Booking 1 7 1763647200000 17 85 Pending None 0 None None None None None)
       empty_world).
Proof. reflexivity. Qed.

(** Whatever the duration, the route derives a price and goes on: 70 for 45
    minutes, 85 for anything else. *)
Lemma create_booking_prices_any_duration (d : Z) :
  d <> 0 ->
  exists p,
    run (bookings_post nov_1_utc
           (Request (Token 7) None 0 (Some "2025-11-20T14:00:00.000Z") None (Some d) None
                    None None 0 "" "" "" None))
        empty_world
    = (Reply (Response 201 true "Booking created successfully"
                       (BookingCreated 1 p d 1763647200000 false)),
       insert_booking
         (Booking 1 7 1763647200000 d p Pending None 0 None None None None None)
         empty_world)
    /\ p = (if bool_decide (d = 45) then 70%Q else 85%Q).
Proof.
  intros Hd. eexists. split; [ | reflexivity ].
  set (req := Request _ _ _ _ _ _ _ _ _ _ _ _ _ _).
  assert (Hin : signed_in nov_1_utc req empty_world ada) by (repeat split).
  unfold bookings_post. rewrite run_bind, (run_authenticateToken _ _ _ _ Hin).
  cbv beta iota. unfold requireVerified, checkBlackoutDates, create_booking, user_of,
    toISOString, req. req_simpl. cbn [is_verified ada u_id default].
  change (Js.truthy None) with false. cbv iota.
  change (Js.truthy (Some "2025-11-20T14:00:00.000Z")) with true. cbn [negb orb].
  change (Js.new_Date (engine nov_1_utc) (tz nov_1_utc) (Some "2025-11-20T14:00:00.000Z"))
    with (Some 1763647200000).
  run_steps. change (blackout_conflict _ empty_world) with (@None blackout_date).
  run_steps. cbv zeta.
  rewrite (bool_decide_eq_true_2 (d <> 0) Hd). cbn [negb].
  change (not_after (Some 1763647200000) (now nov_1_utc)) with false. run_steps.
  change (conflicting_booking 1763647200000 empty_world) with (@None booking).
  run_steps.
  assert (Hp : (if bool_decide (Some d = Some 45) then 70%Q else 85%Q)
               = (if bool_decide (d = 45) then 70%Q else 85%Q)).
  { destruct (decide (d = 45)) as [-> | Hne].
    - rewrite !bool_decide_eq_true_2; auto.
    - rewrite !bool_decide_eq_false_2; auto. congruence. }
  rewrite Hp.
  unfold push_created, isCalendarSyncEnabled. run_steps.
  reflexivity.
Qed.

(** ** Billing cycles of a recurring commitment (C4, C5) *)

(** *** What the generator writes, in any time zone *)

Lemma month_start_civil (i : Z) :
  Js.civil_from_days (month_start i) = Js.Ymd (i / 12) (i mod 12 + 1) 1.
Proof.
  unfold month_start. apply civil_of_days; [ | lia ].
  pose proof (Z.mod_pos_bound i 12). lia.
Qed.

Lemma month_index_start (i : Z) : month_index (Js.civil_from_days (month_start i)) = i.
Proof.
  rewrite month_start_civil. unfold month_index. cbn [Js.year Js.month]. dlia.
Qed.

Lemma month_start_add (i : Z) (k : nat) :
  month_start i + 28 * Z.of_nat k <= month_start (i + Z.of_nat k).
Proof.
  induction k as [| k IH].
  { change (Z.of_nat 0) with 0. replace (i + 0) with i by lia. lia. }
  rewrite Nat2Z.inj_succ.
  pose proof (month_start_gap (i + Z.of_nat k)).
  replace (i + Z.succ (Z.of_nat k)) with (i + Z.of_nat k + 1) by lia. lia.
Qed.

Lemma month_start_mono (i j : Z) : i <= j -> month_start i <= month_start j.
Proof.
  intros Hle. pose proof (month_start_add i (Z.to_nat (j - i))) as H.
  rewrite Z2Nat.id in H by lia. replace (i + (j - i)) with j in H by lia. lia.
Qed.

Lemma month_start_below (n : Z) :
  month_start (month_index (Js.civil_from_days n)) <= n.
Proof.
  pose proof (civil_inverse n) as Hinv. pose proof (civil_fields n) as [Hm Hd].
  unfold month_start, month_index.
  set (c := Js.civil_from_days n) in *.
  replace ((Js.year c * 12 + Js.month c - 1) / 12) with (Js.year c) by dlia.
  replace ((Js.year c * 12 + Js.month c - 1) mod 12 + 1) with (Js.month c) by dlia.
  rewrite days_from_civil_day in Hinv. lia.
Qed.

(** The first of month [i] is on or before day [n] exactly when [i] is on or
    before the month of [n]. *)
Lemma month_start_le_iff (i n : Z) :
  month_start i <= n <-> i <= month_index (Js.civil_from_days n).
Proof.
  split; intros H.
  - rewrite <- (month_index_start i). apply civil_month_index_mono, H.
  - pose proof (month_start_mono _ _ H). pose proof (month_start_below n). lia.
Qed.

Lemma local_date_first_of_month (zone i k : Z) :
  0 <= k < Js.msPerDay ->
  Js.local_date zone (first_of_month zone i + k) = Js.civil_from_days (month_start i).
Proof.
  intros Hk. unfold Js.local_date, Js.utc_date, first_of_month. f_equal.
  unfold Js.msPerDay in *. dlia.
Qed.

Lemma local_midnight_first_of_month (zone y m d : Z) :
  Js.local_midnight zone y m d
  = first_of_month zone (12 * y + m) + (d - 1) * Js.msPerDay.
Proof.
  unfold Js.local_midnight, first_of_month, month_start.
  replace ((12 * y + m) / 12) with (y + m / 12) by dlia.
  replace ((12 * y + m) mod 12) with (m mod 12) by dlia.
  lia.
Qed.

(** From the year 100 on, [new Date(y, m, d)] takes the year as it is. *)
Lemma make_local_first_of_month (zone y m d : Z) :
  100 <= y ->
  Js.make_local zone y m d = first_of_month zone (12 * y + m) + (d - 1) * Js.msPerDay.
Proof.
  intros Hy. unfold Js.make_local.
  destruct (Z.leb_spec y 99); [ lia | ]. rewrite andb_false_r.
  apply local_midnight_first_of_month.
Qed.

Lemma fields_first_of_month (zone i : Z) :
  Js.getFullYear zone (first_of_month zone i) = i / 12
  /\ Js.getMonth zone (first_of_month zone i) = i mod 12.
Proof.
  unfold Js.getFullYear, Js.getMonth.
  rewrite <- (Z.add_0_r (first_of_month zone i)).
  rewrite local_date_first_of_month by (unfold Js.msPerDay; lia).
  rewrite month_start_civil. cbn [Js.year Js.month]. lia.
Qed.

Lemma next_month_first_of_month (e : env) (i : Z) :
  1200 <= i ->
  next_month e (first_of_month (tz e) i) = first_of_month (tz e) (i + 1).
Proof.
  intros Hi.
  unfold next_month. destruct (fields_first_of_month (tz e) i) as [-> ->].
  rewrite make_local_first_of_month by dlia.
  replace (12 * (i / 12) + (i mod 12 + 1)) with (i + 1) by dlia.
  lia.
Qed.

Lemma billing_row_first_of_month (e : env) (uid rid : Z) (p : Q) (freq : string) (i : Z) :
  1200 <= i ->
  billing_row e uid rid
              (p * inject_Z (if String.eqb freq "weekly" then 4 else 2))%Q
              (if String.eqb freq "weekly" then 4 else 2)
              (first_of_month (tz e) i)
  = cycle_for e uid rid p freq i.
Proof.
  intros Hi.
  unfold billing_row, cycle_for. destruct (fields_first_of_month (tz e) i) as [-> ->].
  rewrite !make_local_first_of_month by dlia.
  replace (i mod 12 + 1 - 1) with (i mod 12) by lia.
  replace (12 * (i / 12) + i mod 12) with i by dlia.
  f_equal; f_equal; lia.
Qed.

Lemma first_of_month_le_iff (zone i f : Z) :
  first_of_month zone i <= f <-> i <= month_index (Js.local_date zone f).
Proof.
  unfold Js.local_date, Js.utc_date. rewrite <- month_start_le_iff.
  unfold first_of_month, Js.msPerDay. dlia.
Qed.

Lemma add_cycles_cons (c : billing_cycle) (cs : list billing_cycle) (w : world) :
  add_cycles (c :: cs) w = add_cycles cs (insert_billing_cycle c w).
Proof. reflexivity. Qed.

Lemma add_cycles_writes_left (cs : list billing_cycle) (w : world) :
  writes_left (add_cycles cs w) = writes_left w.
Proof.
  revert w. induction cs as [| c cs IH]; intros w; [ reflexivity | ].
  rewrite add_cycles_cons, IH. reflexivity.
Qed.

Lemma recurring_bookings_add_cycles (cs : list billing_cycle) (w : world) :
  recurring_bookings (add_cycles cs w) = recurring_bookings w.
Proof.
  revert w. induction cs as [| c cs IH]; intros w; [ reflexivity | ].
  rewrite add_cycles_cons, IH. reflexivity.
Qed.

Lemma billing_cycles_add_cycles (cs : list billing_cycle) (w : world) :
  billing_cycles (add_cycles cs w) = (billing_cycles w ++ cs)%list.
Proof.
  revert w. induction cs as [| c cs IH]; intros w.
  - cbn. rewrite app_nil_r. reflexivity.
  - rewrite add_cycles_cons, IH. cbn. rewrite <- app_assoc. reflexivity.
Qed.

(** The loop, started at the first of month [i] with at least as much fuel
    as there are months left up to the month of [finish], writes one cycle
    for each of those months and ends normally. *)
Lemma run_billing_loop (e : env) (uid rid : Z) (p : Q) (freq : string) (finish : Z)
      (k fuel : nat) (i : Z) (w : world) :
  1200 <= i ->
  writes_left w = None ->
  Z.of_nat k = Z.max 0 (month_index (Js.local_date (tz e) finish) - i + 1) ->
  (k <= fuel)%nat ->
  run (billing_loop fuel e uid rid
                    (p * inject_Z (if String.eqb freq "weekly" then 4 else 2))%Q
                    (if String.eqb freq "weekly" then 4 else 2)
                    finish (first_of_month (tz e) i)) w
  = (Val tt, add_cycles (List.map (cycle_for e uid rid p freq) (seqZ i (Z.of_nat k))) w).
Proof.
  revert fuel i w. induction k as [| k IH]; intros fuel i w Hi Hw Hk Hfuel.
  - assert (Hgt : ~ first_of_month (tz e) i <= finish).
    { rewrite first_of_month_le_iff. lia. }
    destruct fuel; cbn [billing_loop];
      (destruct (Z.leb_spec (first_of_month (tz e) i) finish); [ lia | reflexivity ]).
  - assert (Hle : first_of_month (tz e) i <= finish).
    { rewrite first_of_month_le_iff. lia. }
    destruct fuel as [| fuel]; [ lia | ]. cbn [billing_loop].
    destruct (Z.leb_spec (first_of_month (tz e) i) finish); [ | lia ].
    run_steps. rewrite next_month_first_of_month, billing_row_first_of_month by exact Hi.
    rewrite (IH fuel (i + 1)); [ | lia | exact Hw | lia | lia ].
    rewrite (seqZ_cons i (Z.of_nat (S k))) by lia. cbn [List.map]. rewrite add_cycles_cons.
    replace (Z.succ i) with (i + 1) by lia.
    replace (Z.pred (Z.of_nat (S k))) with (Z.of_nat k) by lia.
    reflexivity.
Qed.

(** [billing_fuel] is never short. *)
Lemma billing_fuel_covers (zone finish i : Z) :
  Z.max 0 (month_index (Js.local_date zone finish) - i + 1)
  <= Z.of_nat (billing_fuel finish (first_of_month zone i)).
Proof.
  assert (Hlast : first_of_month zone (month_index (Js.local_date zone finish)) <= finish).
  { apply first_of_month_le_iff. lia. }
  revert Hlast. generalize (month_index (Js.local_date zone finish)). intros i1 Hlast.
  unfold billing_fuel.
  destruct (Z.le_gt_cases i i1) as [Hle | Hgt]; [ | lia ].
  pose proof (month_start_add i (Z.to_nat (i1 - i))) as Hadd.
  rewrite Z2Nat.id in Hadd by lia. replace (i + (i1 - i)) with i1 in Hadd by lia.
  assert (Hspan : (i1 - i) * (28 * Js.msPerDay) <= finish - first_of_month zone i).
  { unfold first_of_month in Hlast |- *. unfold Js.msPerDay in Hlast |- *.
    revert Hlast Hadd. generalize (month_start i1), (month_start i), (zone * Js.msPerMinute).
    intros a b c Hlast Hadd. lia. }
  assert (Hq : i1 - i <= (finish - first_of_month zone i) / (28 * Js.msPerDay)).
  { apply Z.div_le_lower_bound; [ unfold Js.msPerDay; lia | ].
    rewrite Z.mul_comm. exact Hspan. }
  revert Hq. generalize ((finish - first_of_month zone i) / (28 * Js.msPerDay)).
  intros q Hq. rewrite Z2Nat.id by lia. lia.
Qed.

(** The bound on the turns of the loop does not cut it short: more fuel
    changes nothing. *)
Lemma billing_loop_fuel_enough (e : env) (uid rid : Z) (p : Q) (freq : string)
      (finish i : Z) (fuel : nat) (w : world) :
  1200 <= i ->
  writes_left w = None ->
  (billing_fuel finish (first_of_month (tz e) i) <= fuel)%nat ->
  run (billing_loop fuel e uid rid
                    (p * inject_Z (if String.eqb freq "weekly" then 4 else 2))%Q
                    (if String.eqb freq "weekly" then 4 else 2)
                    finish (first_of_month (tz e) i)) w
  = run (billing_loop (billing_fuel finish (first_of_month (tz e) i)) e uid rid
                      (p * inject_Z (if String.eqb freq "weekly" then 4 else 2))%Q
                      (if String.eqb freq "weekly" then 4 else 2)
                      finish (first_of_month (tz e) i)) w.
Proof.
  intros Hi Hw Hfuel.
  pose proof (billing_fuel_covers (tz e) finish i) as Hcov.
  set (k := Z.to_nat (Z.max 0 (month_index (Js.local_date (tz e) finish) - i + 1))).
  assert (Hk : Z.of_nat k = Z.max 0 (month_index (Js.local_date (tz e) finish) - i + 1)).
  { unfold k. rewrite Z2Nat.id; lia. }
  rewrite (run_billing_loop e uid rid p freq finish k fuel i w Hi Hw Hk) by lia.
  rewrite (run_billing_loop e uid rid p freq finish k _ i w Hi Hw Hk) by lia.
  reflexivity.
Qed.

(** With a database that accepts the writes, and start and end dates that
    read as dates, the first of them as an instant of the year 100 or later, the
    generator writes one cycle for every month from the local month of the
    start instant to the local month of the end instant, each with 4 lessons
    for a weekly commitment and 2 otherwise and with that many times the
    price as its amount. *)
Lemma generateBillingCycles_spec (e : env) (rid uid : Z) (startDate endDate : string)
      (p : Q) (freq : string) (w : world) (s f : Z) :
  writes_left w = None ->
  Js.Date_parse (engine e) (tz e) startDate = Some s ->
  Js.Date_parse (engine e) (tz e) endDate = Some f ->
  100 <= Js.getFullYear (tz e) s ->
  run (generateBillingCycles e rid uid startDate endDate p freq) w
  = (Val tt,
     add_cycles (List.map (cycle_for e uid rid p freq)
                          (month_range (month_index (Js.local_date (tz e) s))
                                       (month_index (Js.local_date (tz e) f))))
                w).
Proof.
  intros Hw Hs Hf Hyear. unfold generateBillingCycles. rewrite Hs, Hf.
  rewrite make_local_first_of_month by exact Hyear. rewrite Z.mul_0_l, Z.add_0_r.
  set (i0 := 12 * Js.getFullYear (tz e) s + Js.getMonth (tz e) s).
  assert (Hi0 : i0 = month_index (Js.local_date (tz e) s)).
  { unfold i0, month_index, Js.getFullYear, Js.getMonth. lia. }
  assert (Hlow : 1200 <= i0).
  { unfold i0, Js.getMonth. pose proof (civil_fields ((s + tz e * Js.msPerMinute) / Js.msPerDay)) as [Hm _].
    unfold Js.local_date, Js.utc_date. lia. }
  set (i1 := month_index (Js.local_date (tz e) f)).
  pose proof (billing_fuel_covers (tz e) f i0) as Hcov. fold i1 in Hcov.
  set (k := Z.to_nat (Z.max 0 (i1 - i0 + 1))).
  assert (Hk : Z.of_nat k = Z.max 0 (i1 - i0 + 1)) by (unfold k; rewrite Z2Nat.id; lia).
  rewrite (run_billing_loop e uid rid p freq f k _ i0 w Hlow Hw Hk) by lia.
  unfold month_range. rewrite <- Hi0. f_equal. f_equal. f_equal.
  rewrite Hk. destruct (Z.le_gt_cases 0 (i1 - i0 + 1)).
  - rewrite Z.max_r by lia. reflexivity.
  - rewrite Z.max_l by lia. rewrite !seqZ_nil by lia. reflexivity.
Qed.

(** In UTC and in the zones west of it, the cycle of a month is billed on
    its 1st and due on its 15th. *)
Lemma cycle_dates_west_of_utc (e : env) (uid rid : Z) (p : Q) (freq : string) (i : Z) :
  -1440 < tz e <= 0 ->
  billing_date (cycle_for e uid rid p freq i) = Js.Ymd (i / 12) (i mod 12 + 1) 1
  /\ due_date (cycle_for e uid rid p freq i) = Js.Ymd (i / 12) (i mod 12 + 1) 15.
Proof.
  intros Hz. unfold cycle_for. cbn [billing_date due_date].
  unfold Js.utc_date, first_of_month, Js.msPerDay, Js.msPerMinute.
  replace ((month_start i * 86400000 - tz e * 60000) / 86400000) with (month_start i)
    by dlia.
  replace ((month_start i * 86400000 - tz e * 60000 + 14 * 86400000) / 86400000)
    with (month_start i + (15 - 1)) by dlia.
  split; [ apply month_start_civil | ].
  unfold month_start. rewrite <- days_from_civil_day. apply civil_of_days; [ | lia ].
  pose proof (Z.mod_pos_bound i 12). lia.
Qed.

(** East of UTC the local midnights belong to the day before. *)
Lemma cycle_dates_east_of_utc (e : env) (uid rid : Z) (p : Q) (freq : string) (i : Z) :
  0 < tz e <= 1440 ->
  due_date (cycle_for e uid rid p freq i) = Js.Ymd (i / 12) (i mod 12 + 1) 14.
Proof.
  intros Hz. unfold cycle_for. cbn [due_date].
  unfold Js.utc_date, first_of_month, Js.msPerDay, Js.msPerMinute.
  replace ((month_start i * 86400000 - tz e * 60000 + 14 * 86400000) / 86400000)
    with (month_start i + (14 - 1)) by dlia.
  unfold month_start. rewrite <- days_from_civil_day. apply civil_of_days; [ | lia ].
  pose proof (Z.mod_pos_bound i 12). lia.
Qed.

(** C4.  The commitment of [weekly_from_sep_1] spans the ten months from
    September 2025 to June 2026.  With the process in the studio's own time
    zone the generator writes eleven billing cycles, the first of them for
    August 2025: the start date is read as midnight UTC, which is still
    August 31 on the local calendar the loop walks.  With the process east
    of UTC the ten cycles are for the right months, but each is billed on
    the last day of the month before and due on the 14th: the local
    midnights are printed back in UTC.  In UTC the ten cycles are as the
    design describes them. *)
Theorem billing_cycles_shift_with_time_zone :
  List.map (fun c => (cycle_year c, cycle_month c))
           (billing_cycles (snd (run (recurring_post los_angeles weekly_from_sep_1)
                                     empty_world)))
  = [(2025, 8); (2025, 9); (2025, 10); (2025, 11); (2025, 12);
     (2026, 1); (2026, 2); (2026, 3); (2026, 4); (2026, 5); (2026, 6)]
  /\ List.map (fun c => (cycle_month c, billing_date c, due_date c))
              (firstn 2 (billing_cycles
                           (snd (run (recurring_post central_europe weekly_from_sep_1)
                                     empty_world))))
     = [(9, Js.Ymd 2025 8 31, Js.Ymd 2025 9 14); (10, Js.Ymd 2025 9 30, Js.Ymd 2025 10 14)]
  /\ List.map (fun c => (cycle_year c, cycle_month c, billing_date c, due_date c,
                         lessons_count c, total_amount c))
              (billing_cycles (snd (run (recurring_post utc weekly_from_sep_1) empty_world)))
     = [(2025, 9, Js.Ymd 2025 9 1, Js.Ymd 2025 9 15, 4, 380%Q);
        (2025, 10, Js.Ymd 2025 10 1, Js.Ymd 2025 10 15, 4, 380%Q);
        (2025, 11, Js.Ymd 2025 11 1, Js.Ymd 2025 11 15, 4, 380%Q);
        (2025, 12, Js.Ymd 2025 12 1, Js.Ymd 2025 12 15, 4, 380%Q);
        (2026, 1, Js.Ymd 2026 1 1, Js.Ymd 2026 1 15, 4, 380%Q);
        (2026, 2, Js.Ymd 2026 2 1, Js.Ymd 2026 2 15, 4, 380%Q);
        (2026, 3, Js.Ymd 2026 3 1, Js.Ymd 2026 3 15, 4, 380%Q);
        (2026, 4, Js.Ymd 2026 4 1, Js.Ymd 2026 4 15, 4, 380%Q);
        (2026, 5, Js.Ymd 2026 5 1, Js.Ymd 2026 5 15, 4, 380%Q);
        (2026, 6, Js.Ymd 2026 6 1, Js.Ymd 2026 6 15, 4, 380%Q)].
Proof. repeat split; vm_compute; reflexivity. Qed.

(** C5, as the code supports it.  When no price is configured for the
    requested duration, the creation of a recurring commitment is rejected
    as an invalid duration and the store is exactly as it was: neither the
    commitment nor any billing cycle has been written. *)
Theorem unknown_duration_writes_nothing (e : env) (req : request) (w : world) (u : user) :
  signed_in e req w u ->
  settings w !! price_key req = None ->
  run (recurring_post e req) w = (Reply invalid_duration, w).
Proof.
  intros Hin Hprice. unfold recurring_post, get_setting.
  rewrite run_bind, (run_authenticateToken e req w u Hin). cbv beta iota.
  req_simpl. run_steps. cbv zeta. fold (price_key req). rewrite Hprice. run_steps.
  reflexivity.
Qed.

Lemma unknown_duration_writes_nothing_witness :
  run (recurring_post utc weekly_90_minutes) empty_world = (Reply invalid_duration, empty_world).
Proof.
  apply (unknown_duration_writes_nothing utc weekly_90_minutes empty_world ada);
    repeat split.
Defined.

(** A write rejected partway through the batch: the caller is told that the
    creation failed, and the commitment and two of its ten billing cycles
    stay in the store. *)
Example partial_batch_stays :
  let out := run (recurring_post utc weekly_from_sep_1) failing_disk in
  fst out = Reply (fail 500 "Failed to create recurring booking")
  /\ List.map rb_id (recurring_bookings (snd out)) = [1]
  /\ List.map (fun c => (cycle_year c, cycle_month c)) (billing_cycles (snd out))
     = [(2025, 9); (2025, 10)].
Proof. repeat split; vm_compute; reflexivity. Qed.

(** Creation of a commitment is not all-or-nothing: the inserts of the batch
    are separate statements outside any transaction. *)
Lemma billing_batch_not_atomic : ~ billing_all_or_nothing.
Proof.
  intros H.
  destruct (H utc weekly_from_sep_1 failing_disk
              (snd (run (recurring_post utc weekly_from_sep_1) failing_disk))
              (fail 500 "Failed to create recurring booking"))
    as [Hrb _]; [ vm_compute; reflexivity | reflexivity | ].
  vm_compute in Hrb. discriminate Hrb.
Qed.

(** * Further properties of the handlers *)

(** ** Who gets past the middleware *)

(** What [authenticateToken] answers to a request that is not signed in. *)
Lemma authenticateToken_refusal (e : env) (req : request) (w : world) :
  (forall u, ~ signed_in e req w u) ->
  exists c m,
    run (authenticateToken e req) w = (Reply (fail c m), w)
    /\ (authorization req = NoToken -> c = 401 /\ m = "Access token required")
    /\ (authorization req <> NoToken -> jwt_secret e = false ->
        c = 500 /\ m = "Server configuration error")
    /\ (authorization req <> NoToken -> jwt_secret e = true ->
        c = 401 /\ m = "Invalid token").
Proof.
  intros Hout. unfold authenticateToken.
  destruct (authorization req) as [| | userId] eqn:Htoken; run_steps.
  - eexists _, _. split; [ reflexivity | ]. repeat split; congruence.
  - destruct (jwt_secret e) eqn:Hs; cbn [negb]; run_steps;
      (eexists _, _; split; [ reflexivity | ]); repeat split; congruence.
  - destruct (jwt_secret e) eqn:Hs; cbn [negb]; run_steps.
    + destruct (user_by_id userId w) as [u |] eqn:Hfound; run_steps.
      * exfalso. apply (Hout u).
        assert (Hid : u_id u = userId).
        { apply find_some in Hfound as [_ H]. lia. }
        unfold signed_in. rewrite Hid. auto.
      * eexists _, _. split; [ reflexivity | ]. repeat split; congruence.
    + eexists _, _. split; [ reflexivity | ]. repeat split; congruence.
Qed.

(** X1.  A request that carries no token, a token that does not verify, or
    the token of a user who is not in the store is refused by each of the
    writing routes behind [authenticateToken] (creation, reschedule and
    cancellation of a booking, creation of a recurring booking, request,
    scheduling and completion of a make-up), and the store is left as it
    was.  The answer is 401, except that a process without [JWT_SECRET]
    answers 500 to any request that carries a token. *)
Theorem unauthenticated_request_refused
        (e : env) (req : request) (w : world) (when : option string) (route : prog unit) :
  (forall u, ~ signed_in e req w u) ->
  In route (protected_routes e req when) ->
  exists c m,
    run route w = (Reply (fail c m), w)
    /\ (authorization req = NoToken -> c = 401 /\ m = "Access token required")
    /\ (authorization req <> NoToken -> jwt_secret e = false ->
        c = 500 /\ m = "Server configuration error")
    /\ (authorization req <> NoToken -> jwt_secret e = true ->
        c = 401 /\ m = "Invalid token").
Proof.
  intros Hout Hroute.
  destruct (authenticateToken_refusal e req w Hout) as (c & m & Hrun & Hcases).
  exists c, m. split; [ | exact Hcases ].
  unfold protected_routes in Hroute. cbn [In] in Hroute.
  unfold bookings_post, bookings_put, bookings_delete, recurring_post, makeup_post,
    makeup_schedule, makeup_complete in Hroute.
  repeat (destruct Hroute as [<- | Hroute]; [ rewrite run_bind, Hrun; reflexivity | ]).
  destruct Hroute.
Qed.

Lemma unauthenticated_request_refused_witness :
  exists c m,
    run (makeup_complete nov_1_utc blank_request) two_pending = (Reply (fail c m), two_pending)
    /\ (authorization blank_request = NoToken -> c = 401 /\ m = "Access token required")
    /\ (authorization blank_request <> NoToken -> jwt_secret nov_1_utc = false ->
        c = 500 /\ m = "Server configuration error")
    /\ (authorization blank_request <> NoToken -> jwt_secret nov_1_utc = true ->
        c = 401 /\ m = "Invalid token").
Proof.
  apply (unauthenticated_request_refused nov_1_utc blank_request two_pending None
           (makeup_complete nov_1_utc blank_request)).
  - intros u (_ & Htoken & _). discriminate Htoken.
  - cbn. tauto.
Defined.

(** X2.  A signed-in client whose e-mail address is not verified is refused
    with 403 by the creation, reschedule and cancellation routes, and a
    signed-in user who is not the instructor is refused with 403 by the
    routes that schedule and complete make-up lessons; in both cases the
    store is left as it was. *)
Theorem unauthorized_request_refused
        (e : env) (req : request) (w : world) (u : user) (when : option string)
        (route : prog unit) :
  signed_in e req w u ->
  (is_verified u = false /\ In route (verified_routes e req)
   -> run route w = (Reply (fail 403 "Email verification required"), w))
  /\ (role u <> "admin" /\ In route (instructor_routes e req when)
      -> run route w = (Reply (fail 403 "admin access required"), w)).
Proof.
  intros Hin. split.
  - intros (Hv & Hroute). unfold verified_routes in Hroute. cbn [In] in Hroute.
    unfold bookings_post, bookings_put, bookings_delete in Hroute.
    repeat (destruct Hroute as [<- | Hroute];
            [ rewrite run_bind, (run_authenticateToken e req w u Hin); cbv beta iota;
              unfold requireVerified; req_simpl; rewrite Hv; reflexivity | ]).
    destruct Hroute.
  - intros (Hr & Hroute). unfold instructor_routes in Hroute. cbn [In] in Hroute.
    unfold makeup_schedule, makeup_complete in Hroute.
    assert (Hneq : String.eqb (role u) "admin" = false) by (apply String.eqb_neq; exact Hr).
    repeat (destruct Hroute as [<- | Hroute];
            [ rewrite run_bind, (run_authenticateToken e req w u Hin); cbv beta iota;
              unfold requireRole; req_simpl; rewrite Hneq; reflexivity | ]).
    destruct Hroute.
Qed.

Lemma unauthorized_request_refused_witness :
  run (bookings_post nov_1_utc book_as_newcomer) front_desk
  = (Reply (fail 403 "Email verification required"), front_desk)
  /\ run (makeup_complete nov_1_utc (by_client 1)) two_pending
     = (Reply (fail 403 "admin access required"), two_pending).
Proof.
  assert (Hnew : signed_in nov_1_utc book_as_newcomer front_desk newcomer) by (repeat split).
  assert (Hada : signed_in nov_1_utc (by_client 1) two_pending ada) by (repeat split).
  split.
  - apply (unauthorized_request_refused nov_1_utc book_as_newcomer front_desk newcomer None
             (bookings_post nov_1_utc book_as_newcomer) Hnew).
    split; [ reflexivity | cbn; tauto ].
  - apply (unauthorized_request_refused nov_1_utc (by_client 1) two_pending ada None
             (makeup_complete nov_1_utc (by_client 1)) Hada).
    split; [ discriminate | cbn; tauto ].
Defined.

(** ** Bookings of other clients *)

Lemma booking_of_user_none (bid uid : Z) (w : world) :
  (forall b, In b (bookings w) -> id b = bid -> user_id b <> uid) ->
  booking_of_user bid uid w = None.
Proof.
  intros H. unfold booking_of_user.
  destruct (List.find _ (bookings w)) as [b |] eqn:Hf; [ exfalso | reflexivity ].
  apply find_some in Hf as [Hin Hb]. apply andb_prop in Hb as [Hi Hu].
  apply (H b Hin); lia.
Qed.

(** X3.  A verified client who asks to reschedule or to cancel a booking
    that does not exist or that belongs to somebody else is answered 404,
    and the store is left as it was: the policy middleware looks the booking
    up under the caller's own user id. *)
Theorem foreign_booking_not_found (e : env) (req : request) (w : world) (u : user) :
  signed_in e req w u ->
  is_verified u = true ->
  (forall b, In b (bookings w) -> id b = params_id req -> user_id b <> u_id u) ->
  run (bookings_put e req) w = (Reply (fail 404 "Booking not found"), w)
  /\ run (bookings_delete e req) w = (Reply (fail 404 "Booking not found"), w).
Proof.
  intros Hin Hv Hforeign.
  pose proof (booking_of_user_none _ _ _ Hforeign) as Hnone.
  split.
  - unfold bookings_put. rewrite run_bind, (run_authenticateToken e req w u Hin).
    cbv beta iota. unfold requireVerified, checkReschedulePolicy. req_simpl. rewrite Hv.
    run_steps. rewrite Hnone. run_steps. reflexivity.
  - unfold bookings_delete. rewrite run_bind, (run_authenticateToken e req w u Hin).
    cbv beta iota. unfold requireVerified, checkCancellationPolicy. req_simpl. rewrite Hv.
    run_steps. rewrite Hnone. run_steps. reflexivity.
Qed.

Lemma foreign_booking_not_found_witness :
  run (bookings_put nov_1_utc (by_bob_on_1 (Some "2025-11-12T14:00:00.000Z"))) studio
  = (Reply (fail 404 "Booking not found"), studio)
  /\ run (bookings_delete nov_1_utc (by_bob_on_1 None)) studio
     = (Reply (fail 404 "Booking not found"), studio).
Proof.
  split.
  - apply (foreign_booking_not_found nov_1_utc (by_bob_on_1 (Some "2025-11-12T14:00:00.000Z"))
             studio bob); [ repeat split | reflexivity | ].
    intros b [<- | []] _. discriminate.
  - apply (foreign_booking_not_found nov_1_utc (by_bob_on_1 None) studio bob);
      [ repeat split | reflexivity | ].
    intros b [<- | []] _. discriminate.
Defined.

(** ** The booking lifecycle, request after request *)

(** The cancellation request of a verified client for a booking of theirs
    always goes through: free of charge when the policy check allows it, with
    the automatic charge otherwise.  Nothing depends on the state the booking
    is in. *)
Lemma cancel_goes_through (e : env) (req : request) (w : world) (u : user) (b : booking) :
  writes_left w = None ->
  NoDup (List.map id (bookings w)) ->
  signed_in e req w u ->
  is_verified u = true ->
  booking_of_user (params_id req) (u_id u) w = Some b ->
  let allowed :=
    within_policy (hoursUntilLesson e b)
      (Js.parseInt (setting_or (settings w !! "cancellation_policy_hours") "24")) in
  (allowed = true /\ cancelled_free e req w (run (bookings_delete e req) w))
  \/ (allowed = false /\ cancelled_late e req b w (run (bookings_delete e req) w)).
Proof.
  intros Hw Hnd Hin Hv Hb.
  unfold bookings_delete. rewrite run_bind, (run_authenticateToken e req w u Hin).
  cbv beta iota. unfold requireVerified. req_simpl. rewrite Hv. run_steps.
  rewrite (run_checkCancellationPolicy e (set_user req u) w u b eq_refl Hb).
  cbv zeta. run_steps.
  destruct (within_policy _ _) eqn:Hpol.
  - left. split; [ reflexivity | ].
    unfold enforceCancellationCharging. cbn [cancellationAllowed negb]. run_steps.
    unfold cancel_booking, user_of. req_simpl. run_steps. rewrite Hb. run_steps.
    destruct (run_push_deleted e (params_id req) b
                (update_booking (params_id req) (cancelled_row e) w) Hw)
      as (flag & l & Hrun).
    rewrite Hrun. run_steps. exists flag, l. reflexivity.
  - right. split; [ reflexivity | ].
    unfold enforceCancellationCharging. cbn [cancellationAllowed negb]. req_simpl.
    run_steps. rewrite (booking_of_user_by_id _ _ _ _ Hnd Hb). run_steps.
    destruct (booking_of_user_id _ _ _ _ Hb) as [Hid _].
    unfold cancelled_late, late_cancellation_fee. rewrite Hid. reflexivity.
Qed.

(** What a late cancellation leaves behind, table by table. *)
Lemma cancelled_late_charged (e : env) (req : request) (b : booking) (w : world)
      (out : result unit * world) (uid : Z) :
  cancelled_late e req b w out ->
  booking_of_user (params_id req) uid w = Some b ->
  charged_cancellation e b w out.
Proof.
  unfold cancelled_late. intros -> Hb.
  destruct (booking_of_user_id _ _ _ _ Hb) as [Hid _].
  assert (Hinb : In b (bookings w)) by (apply find_some in Hb; tauto).
  rewrite <- Hid. unfold charged_cancellation. cbn [fst snd].
  split; [ reflexivity | ]. split; [ reflexivity | ]. split; [ reflexivity | ].
  split; [ exact (updated_row_in (late_cancelled_row e) b (bookings w) Hinb) | ].
  repeat split.
Qed.

(** A cancellation request is turned away with the store untouched, or it
    cancels a booking of the caller. *)
Lemma cancel_outcome (e : env) (req : request) (w : world) :
  writes_left w = None ->
  NoDup (List.map id (bookings w)) ->
  turned_away w (run (bookings_delete e req) w)
  \/ (exists u b,
        signed_in e req w u /\ is_verified u = true
        /\ booking_of_user (params_id req) (u_id u) w = Some b
        /\ let allowed :=
             within_policy (hoursUntilLesson e b)
               (Js.parseInt (setting_or (settings w !! "cancellation_policy_hours") "24")) in
           (allowed = true /\ cancelled_free e req w (run (bookings_delete e req) w))
           \/ (allowed = false /\ cancelled_late e req b w (run (bookings_delete e req) w))).
Proof.
  intros Hw Hnd.
  assert (Hrej : forall c m, turned_away w (Reply (fail c m), w)).
  { intros c m. exists (fail c m). repeat split. }
  destruct (authenticateToken_cases e req w) as [(c & m & Hrun) | (u & Hin & Hrun)].
  { unfold bookings_delete. rewrite run_bind, Hrun. left. apply Hrej. }
  destruct (is_verified u) eqn:Hv.
  - destruct (booking_of_user (params_id req) (u_id u) w) as [b |] eqn:Hb.
    + right. exists u, b.
      split; [ exact Hin | split; [ exact Hv | split; [ exact Hb | ] ] ].
      exact (cancel_goes_through e req w u b Hw Hnd Hin Hv Hb).
    + unfold bookings_delete. rewrite run_bind, Hrun. cbv beta iota.
      unfold requireVerified, checkCancellationPolicy. req_simpl. rewrite Hv. run_steps.
      rewrite Hb. run_steps. left. apply Hrej.
  - unfold bookings_delete. rewrite run_bind, Hrun. cbv beta iota.
    unfold requireVerified. req_simpl. rewrite Hv. run_steps. left. apply Hrej.
Qed.

Lemma store_ok_payment (p : payment) (w : world) :
  store_ok w -> store_ok (insert_payment p w).
Proof. intros H. exact H. Qed.

(** Taking a booking to a terminal state keeps the store in order. *)
Lemma store_ok_terminal (bid : Z) (f : booking -> booking) (w : world) :
  (forall r, id (f r) = id r /\ non_terminal (status (f r)) = false) ->
  store_ok w -> store_ok (update_booking bid f w).
Proof.
  intros Hf (Hw & Hnd & Hseq & Hdb).
  assert (Hin : forall r', In r' (bookings (update_booking bid f w)) ->
            exists r, In r (bookings w) /\ id r' = id r
                      /\ (non_terminal (status r') = true ->
                          status r' = status r /\ lesson_date r' = lesson_date r)).
  { intros r' Hr'. cbn in Hr'. apply in_map_iff in Hr' as (r & Hrr & Hr).
    exists r. split; [ exact Hr | ].
    destruct (id r =? bid); subst r'; [ | auto ].
    destruct (Hf r) as [Hid Hst]. split; [ exact Hid | ]. congruence. }
  repeat split.
  - exact Hw.
  - cbn. rewrite List.map_map.
    erewrite List.map_ext; [ exact Hnd | ].
    intros r. cbn. destruct (id r =? bid); [ apply Hf | reflexivity ].
  - intros r' Hr'. destruct (Hin r' Hr') as (r & Hr & Hid & _). rewrite Hid.
    cbn. auto.
  - intros b1 b2 H1 H2 Hn1 Hn2 Hd.
    destruct (Hin b1 H1) as (r1 & Hr1 & Hi1 & Hk1).
    destruct (Hin b2 H2) as (r2 & Hr2 & Hi2 & Hk2).
    destruct (Hk1 Hn1) as [Hs1 Hd1]. destruct (Hk2 Hn2) as [Hs2 Hd2].
    rewrite Hi1, Hi2. apply Hdb; congruence.
Qed.

Lemma serve_keeps_store_ok (c : client_request) (w : world) :
  store_ok w -> store_ok (snd (run (serve c) w)).
Proof.
  intros Hok. pose proof Hok as (Hw & Hnd & _).
  destruct c as [e req | e req | e req]; cbn [serve].
  - destruct (create_gate e req w Hw) as [(r & _ & _ & ->) | Hdone]; [ exact Hok | ].
    destruct Hdone as (r & uid & t & p & _ & _ & _ & _ & Hfree & Hloc).
    apply (store_ok_local _ _ (eq_sym Hloc)). apply store_ok_insert; assumption.
  - destruct (reschedule_gate e req w Hw) as [(r & _ & _ & ->) | Hdone]; [ exact Hok | ].
    destruct Hdone as (r & u & b & t & _ & _ & _ & _ & _ & _ & _ & _ & Hfree & _ & Hloc).
    apply (store_ok_local _ _ (eq_sym Hloc)). apply store_ok_move; assumption.
  - destruct (cancel_outcome e req w Hw Hnd) as [(r & _ & _ & ->) | Hdone]; [ exact Hok | ].
    destruct Hdone as (u & b & _ & _ & _ & [[_ Hfree] | [_ Hlate]]).
    + destruct Hfree as (flag & l & ->). cbn [snd].
      apply (store_ok_local (update_booking (params_id req) (cancelled_row e) w));
        [ reflexivity | ].
      apply store_ok_terminal; [ intros r; split; reflexivity | exact Hok ].
    + unfold cancelled_late in Hlate. rewrite Hlate. cbn [snd].
      apply store_ok_terminal; [ intros r; split; reflexivity | ].
      apply store_ok_payment, Hok.
Qed.

(** X4.  When creation, reschedule and cancellation requests are served one
    after the other, each to its end before the next one starts, the store
    stays in order whatever the requests are: booking ids stay unique and
    no higher than the AUTOINCREMENT counter, and no two pending or confirmed
    bookings share a start timestamp. *)
Theorem sequential_requests_keep_slots_single (cs : list client_request) (w : world) :
  store_ok w ->
  store_ok (serve_all cs w) /\ no_double_booking (serve_all cs w).
Proof.
  intros Hok.
  assert (Hall : store_ok (serve_all cs w)).
  { revert w Hok. induction cs as [| c cs IH]; intros w Hok; [ exact Hok | ].
    cbn [serve_all]. apply IH, serve_keeps_store_ok, Hok. }
  split; [ exact Hall | apply Hall ].
Qed.

Lemma studio_ok : store_ok studio.
Proof.
  repeat split.
  - apply NoDup_singleton.
  - intros b [<- | []]. cbn. lia.
  - intros b1 b2 [<- | []] [<- | []] _ _ _. reflexivity.
Qed.

Lemma sequential_requests_keep_slots_single_witness :
  no_double_booking
    (serve_all [Book nov_1_utc book_nov_20; Cancel nov_1_utc cancel_nov_10;
                Book nov_1_utc book_nov_20_too; Move nov_1_utc move_within_nov]
               studio).
Proof.
  apply (sequential_requests_keep_slots_single
           [Book nov_1_utc book_nov_20; Cancel nov_1_utc cancel_nov_10;
            Book nov_1_utc book_nov_20_too; Move nov_1_utc move_within_nov]
           studio studio_ok).
Defined.

Lemma keeps_identity_refl (r : booking) : keeps_identity r r.
Proof. unfold keeps_identity. repeat split; auto; lia. Qed.

Lemma keeps_identity_trans (r1 r2 r3 : booking) :
  keeps_identity r1 r2 -> keeps_identity r2 r3 -> keeps_identity r1 r3.
Proof.
  unfold keeps_identity. intros (Hi & Hu & Hd & Hp & Hc & Ho) (Hi' & Hu' & Hd' & Hp' & Hc' & Ho').
  repeat split; try congruence; try lia. auto.
Qed.

Lemma keeps_identity_forget (r r' : booking) :
  forget_event r' = forget_event r -> keeps_identity r r'.
Proof.
  intros H. injection H. intros. unfold keeps_identity.
  repeat split; try congruence; try lia.
Qed.

(** The rows of two stores with the same local state correspond. *)
Lemma local_rows (w w' : world) (r : booking) :
  local_state w = local_state w' ->
  In r (bookings w) ->
  exists r', In r' (bookings w') /\ forget_event r' = forget_event r.
Proof.
  intros Heq Hr.
  assert (Hb : List.map forget_event (bookings w) = List.map forget_event (bookings w')).
  { change (bookings (local_state w) = bookings (local_state w')). rewrite Heq. reflexivity. }
  apply (in_map forget_event) in Hr. rewrite Hb in Hr.
  apply in_map_iff in Hr as (r' & Hf & Hin). eauto.
Qed.

Lemma updated_rows (bid : Z) (f : booking -> booking) (w : world) (r : booking) :
  (forall x, keeps_identity x (f x)) ->
  In r (bookings w) ->
  exists r', In r' (bookings (update_booking bid f w)) /\ keeps_identity r r'.
Proof.
  intros Hf Hr. exists (if id r =? bid then f r else r). split.
  - cbn. apply in_map_iff. exists r. auto.
  - destruct (id r =? bid); [ apply Hf | apply keeps_identity_refl ].
Qed.

Lemma rescheduled_row_keeps (e : env) (t : Z) (n : option string) (prev : Z) (x : booking) :
  keeps_identity x (rescheduled_row e t n prev x).
Proof.
  unfold keeps_identity. cbn. repeat split; try lia. intros d ->. reflexivity.
Qed.

Lemma serve_keeps_rows (c : client_request) (w : world) (r : booking) :
  store_ok w ->
  In r (bookings w) ->
  exists r', In r' (bookings (snd (run (serve c) w))) /\ keeps_identity r r'.
Proof.
  intros (Hw & Hnd & _) Hr.
  assert (Hsame : exists r', In r' (bookings w) /\ keeps_identity r r').
  { exists r. split; [ exact Hr | apply keeps_identity_refl ]. }
  destruct c as [e req | e req | e req]; cbn [serve].
  - destruct (create_gate e req w Hw) as [(x & _ & _ & ->) | Hdone]; [ exact Hsame | ].
    destruct Hdone as (x & uid & t & p & _ & _ & _ & _ & _ & Hloc).
    destruct (local_rows _ _ r (eq_sym Hloc)) as (r' & Hin' & Hf).
    + cbn. apply in_or_app. left. exact Hr.
    + exists r'. split; [ exact Hin' | apply keeps_identity_forget, Hf ].
  - destruct (reschedule_gate e req w Hw) as [(x & _ & _ & ->) | Hdone]; [ exact Hsame | ].
    destruct Hdone as (x & u & b & t & _ & _ & _ & _ & _ & _ & _ & _ & _ & -> & _).
    apply updated_rows; [ apply rescheduled_row_keeps | exact Hr ].
  - destruct (cancel_outcome e req w Hw Hnd) as [(x & _ & _ & ->) | Hdone]; [ exact Hsame | ].
    destruct Hdone as (u & b & _ & _ & _ & [[_ Hfree] | [_ Hlate]]).
    + destruct Hfree as (flag & l & ->). cbn [snd].
      change (bookings (with_sync_log l (update_booking (params_id req) (cancelled_row e) w)))
        with (bookings (update_booking (params_id req) (cancelled_row e) w)).
      apply updated_rows; [ | exact Hr ].
      intros x. unfold keeps_identity. cbn. repeat split; auto; lia.
    + unfold cancelled_late in Hlate. rewrite Hlate. cbn [snd].
      apply updated_rows; [ | exact Hr ].
      intros x. unfold keeps_identity. cbn. repeat split; auto; lia.
Qed.

(** X5.  Served one after the other, the creation, reschedule and
    cancellation requests of clients never delete a booking and never change
    its key, its owner, its duration or its price; the reschedule count of a
    booking never goes down, and its original date, once recorded, is never
    overwritten. *)
Theorem bookings_keep_their_identity (cs : list client_request) (w : world) (r : booking) :
  store_ok w ->
  In r (bookings w) ->
  exists r', In r' (bookings (serve_all cs w)) /\ keeps_identity r r'.
Proof.
  revert w r. induction cs as [| c cs IH]; intros w r Hok Hr.
  - exists r. split; [ exact Hr | apply keeps_identity_refl ].
  - cbn [serve_all].
    destruct (serve_keeps_rows c w r Hok Hr) as (r1 & Hr1 & Hk1).
    destruct (IH _ r1 (serve_keeps_store_ok c w Hok) Hr1) as (r2 & Hr2 & Hk2).
    exists r2. split; [ exact Hr2 | exact (keeps_identity_trans _ _ _ Hk1 Hk2) ].
Qed.

Lemma bookings_keep_their_identity_witness :
  exists r',
    In r' (bookings (serve_all [Move nov_1_utc move_within_nov; Cancel nov_1_utc cancel_nov_10]
                               studio))
    /\ keeps_identity lesson_nov_10 r'.
Proof.
  apply (bookings_keep_their_identity
           [Move nov_1_utc move_within_nov; Cancel nov_1_utc cancel_nov_10]
           studio lesson_nov_10 studio_ok).
  left. reflexivity.
Defined.

(** ** Creation of a booking *)

Lemma blackout_conflict_none (d : Js.ymd) (w : world) :
  blackout_conflict d w = None <-> ~ closed_on d w.
Proof.
  unfold blackout_conflict, closed_on. split.
  - intros Hnone (r & Hin & Ha & Hs & He).
    apply (find_none _ _ Hnone) in Hin. rewrite Ha, Hs, He in Hin. discriminate.
  - intros Hopen. destruct (List.find _ (blackout_dates w)) as [r |] eqn:Hf; [ | reflexivity ].
    exfalso. apply Hopen. apply find_some in Hf as [Hin Hr].
    apply andb_prop in Hr as [Hr He]. apply andb_prop in Hr as [Ha Hs].
    exists r. auto.
Qed.

(** The calendar part of a creation, with a database that accepts the
    writes: it yields the event id, links the new row to it and touches
    nothing else but the sync log. *)
Lemma run_push_created_exact (e : env) (uid lastID t dur : Z) (n : option string)
      (w : world) :
  writes_left w = None ->
  exists ev l,
    run (push_created e uid lastID t dur n) w
    = (Val ev,
       with_sync_log l
         match ev with
         | Some x => update_booking lastID (set_google_event x) w
         | None => w
         end).
Proof.
  intros Hw. unfold push_created, isCalendarSyncEnabled, client_of, sync_log.
  assert (Hnone : exists ev l,
            (@Val (option string) None, w)
            = (Val ev, with_sync_log l match ev with
                                       | Some x => update_booking lastID (set_google_event x) w
                                       | None => w
                                       end)).
  { exists None, (calendar_sync_log w). rewrite with_sync_log_same. reflexivity. }
  assert (Hlog : forall x, exists ev l,
            (@Val (option string) None, insert_sync_entry x w)
            = (Val ev, with_sync_log l match ev with
                                       | Some y => update_booking lastID (set_google_event y) w
                                       | None => w
                                       end)).
  { intros x. exists None, (calendar_sync_log w ++ [x])%list. reflexivity. }
  run_steps.
  destruct (calendar_sync_enabled w && negb (lastID =? 0)) eqn:Hon; run_steps;
    [ | exact Hnone ].
  apply andb_prop in Hon as [_ Hid]. rewrite Hid.
  destruct (user_by_id uid w) as [u |]; run_steps.
  - destruct (createBookingEvent (gcal e) _) as [[| c ev] | |]; run_steps;
      try apply Hlog.
    exists (Some (String c ev)), (calendar_sync_log w ++ [SyncEntry "create" lastID
                                   (Some (String c ev)) "success" None])%list.
    reflexivity.
  - apply Hlog.
Qed.

Lemma new_Date_truthy (other : string -> option Z) (zone : Z) (v : option string) (t : Z) :
  Js.new_Date other zone v = Some t -> Js.truthy v = true.
Proof. destruct v as [[| c s] |]; cbn; congruence. Qed.

Lemma link_new_row (b : booking) (ev : string) (w : world) :
  (forall r, In r (bookings w) -> id r <> id b) ->
  update_booking (id b) (set_google_event ev) (insert_booking b w)
  = insert_booking (set_google_event ev b) w.
Proof.
  intros Hfresh. unfold update_booking, set_bookings, insert_booking. cbn.
  f_equal. rewrite List.map_app. cbn. rewrite Z.eqb_refl. f_equal.
  rewrite <- (List.map_id (bookings w)) at 2. apply List.map_ext_in.
  intros r Hr. destruct (Z.eqb_spec (id r) (id b)); [ | reflexivity ].
  exfalso. apply (Hfresh r Hr). assumption.
Qed.

(** A request that meets the conditions of [may_book] is accepted. *)
Lemma create_succeeds (e : env) (req : request) (w : world) (u : user) (t d c : Z) :
  store_ok w ->
  may_book e req w u t d c ->
  booked e req w u t d (run (bookings_post e req) w).
Proof.
  intros (Hw & _ & Hseq & _) (Hin & Hv & Ht & Hd & Hd0 & Hfuture & Hc & Hopen & Hfree).
  unfold bookings_post. rewrite run_bind, (run_authenticateToken e req w u Hin).
  cbv beta iota. unfold requireVerified, checkBlackoutDates, toISOString. req_simpl.
  rewrite Hv. run_steps. fold (date_checked req).
  rewrite (new_Date_truthy _ _ _ _ Hc), Hc. cbn [negb]. run_steps.
  apply blackout_conflict_none in Hopen. rewrite Hopen. run_steps.
  unfold create_booking, user_of, toISOString. req_simpl. run_steps. cbv zeta.
  rewrite (new_Date_truthy _ _ _ _ Ht), Ht, Hd. change (default 0 (Some d)) with d.
  rewrite (bool_decide_eq_true_2 _ Hd0). cbn [negb orb].
  assert (Hna : not_after (Some t) (now e) = false).
  { cbn. apply Z.leb_gt. exact Hfuture. }
  rewrite Hna. run_steps. rewrite Hfree. run_steps.
  set (p := if bool_decide (Some d = Some 45) then 70%Q else 85%Q).
  assert (Hp : p = (if bool_decide (d = 45) then 70%Q else 85%Q)).
  { unfold p. destruct (Z.eq_dec d 45) as [-> | Hne].
    - rewrite !bool_decide_eq_true_2; reflexivity.
    - rewrite !bool_decide_eq_false_2; [ reflexivity | exact Hne | congruence ]. }
  set (b := Booking (bookings_seq w + 1) (u_id u) t d p Pending (body_notes req) 0
                    None None None None None).
  destruct (run_push_created_exact e (u_id u) (bookings_seq w + 1) t d (body_notes req)
              (insert_booking b w) Hw) as (ev & l & Hrun).
  rewrite Hrun. run_steps. exists ev, l. cbv zeta. rewrite <- Hp.
  f_equal. f_equal. destruct ev as [x |]; [ | reflexivity ].
  apply (link_new_row b x w). intros r Hr. apply Hseq in Hr. cbn. lia.
Qed.



Lemma booked_recorded (e : env) (req : request) (w : world) (u : user) (t d : Z)
      (out : result unit * world) :
  booked e req w u t d out -> booking_recorded e req w u t d out.
Proof.
  intros (ev & l & Hout). cbv zeta in Hout. rewrite Hout. exists ev. repeat split.
Qed.



(** What the witness looks like. *)
Example booking_of_bob_recorded :
  let out := run (bookings_post nov_1_utc book_nov_20_too) studio in
  fst out = Reply (Response 201 true "Booking created successfully"
                            (BookingCreated 2 70 45 1763647200000 false))
  /\ bookings (snd out)
     = [lesson_nov_10;
        Booking 2 8 1763647200000 45 70 Pending None 0 None None None None None].
Proof. repeat split. Qed.

(** ** Cancellation and what follows it *)

Lemma find_none_all {A : Type} (f : A -> bool) (l : list A) :
  (forall x, In x l -> f x = false) -> List.find f l = None.
Proof.
  intros H. destruct (List.find f l) as [x |] eqn:Hf; [ | reflexivity ].
  apply find_some in Hf as [Hin Hx]. rewrite (H x Hin) in Hx. discriminate.
Qed.

(** Once the one booking that blocks a slot is taken to a state that does
    not block, nothing blocks the slot. *)
Lemma conflict_after_terminal (bid t : Z) (f : booking -> booking) (w : world) :
  (forall r, blocks_slot (status (f r)) = false) ->
  (forall r, In r (bookings w) -> lesson_date r = t -> blocks_slot (status r) = true ->
             id r = bid) ->
  conflicting_booking t (update_booking bid f w) = None.
Proof.
  intros Hf Honly. unfold conflicting_booking. apply find_none_all.
  intros r' Hr'. cbn in Hr'. apply in_map_iff in Hr' as (r & <- & Hr).
  destruct (Z.eqb_spec (id r) bid) as [Hid | Hid].
  - rewrite Hf. apply andb_false_r.
  - destruct (Z.eqb_spec (lesson_date r) t) as [Ht | Ht]; [ | reflexivity ].
    destruct (blocks_slot (status r)) eqn:Hs; [ | reflexivity ].
    exfalso. apply Hid, Honly; assumption.
Qed.

Lemma closed_on_same (d : Js.ymd) (w w' : world) :
  blackout_dates w' = blackout_dates w -> closed_on d w -> closed_on d w'.
Proof. unfold closed_on. intros ->. auto. Qed.

(** X7.  Cancelling frees the slot.  When a verified client cancels a booking
    of theirs that was the only one blocking its start time, no booking
    blocks that time afterwards, whether the cancellation was free or
    charged; and a creation request for that very time which meets the
    other conditions of the route is then accepted. *)
Theorem cancelled_slot_can_be_rebooked
        (e1 : env) (req1 : request) (e2 : env) (req2 : request) (w : world)
        (u1 : user) (b : booking) (u2 : user) (d c : Z) :
  store_ok w ->
  signed_in e1 req1 w u1 ->
  is_verified u1 = true ->
  booking_of_user (params_id req1) (u_id u1) w = Some b ->
  (forall r, In r (bookings w) -> lesson_date r = lesson_date b ->
             blocks_slot (status r) = true -> id r = id b) ->
  let w1 := snd (run (bookings_delete e1 req1) w) in
  conflicting_booking (lesson_date b) w1 = None
  /\ (signed_in e2 req2 w u2 ->
      is_verified u2 = true ->
      Js.new_Date (engine e2) (tz e2) (body_lesson_date req2) = Some (lesson_date b) ->
      body_duration req2 = Some d ->
      d <> 0 ->
      now e2 < lesson_date b ->
      Js.new_Date (engine e2) (tz e2) (date_checked req2) = Some c ->
      ~ closed_on (Js.utc_date c) w ->
      booked e2 req2 w1 u2 (lesson_date b) d (run (bookings_post e2 req2) w1)).
Proof.
  intros Hok Hin Hv Hb Honly w1.
  pose proof Hok as (Hw & Hnd & _).
  destruct (booking_of_user_id _ _ _ _ Hb) as [Hid _]. rewrite Hid in Honly.
  pose proof (serve_keeps_store_ok (Cancel e1 req1) w Hok) as Hok1.
  cbn [serve] in Hok1. fold w1 in Hok1.
  assert (Hkept : conflicting_booking (lesson_date b) w1 = None
                  /\ users w1 = users w /\ blackout_dates w1 = blackout_dates w).
  { unfold w1.
    destruct (cancel_goes_through e1 req1 w u1 b Hw Hnd Hin Hv Hb)
      as [[_ (flag & l & ->)] | [_ ->]]; cbn [snd].
    - split; [ | split; reflexivity ].
      change (conflicting_booking (lesson_date b)
                (update_booking (params_id req1) (cancelled_row e1) w) = None).
      apply conflict_after_terminal; [ reflexivity | exact Honly ].
    - split; [ | split; reflexivity ].
      change (conflicting_booking (lesson_date b)
                (update_booking (params_id req1) (late_cancelled_row e1) w) = None).
      apply conflict_after_terminal; [ reflexivity | exact Honly ]. }
  destruct Hkept as (Hfree & Hu & Hbo).
  split; [ exact Hfree | ].
  intros Hin2 Hv2 Ht Hd Hd0 Hfuture Hc Hopen.
  apply (create_succeeds e2 req2 w1 u2 (lesson_date b) d c Hok1).
  split; [ exact (signed_in_users e2 req2 w w1 u2 Hu Hin2) | ].
  repeat split; auto.
  intros Hclosed. apply Hopen. apply (closed_on_same _ w1 w); [ congruence | exact Hclosed ].
Qed.

Lemma cancelled_slot_can_be_rebooked_witness :
  booked nov_1_utc (rebook_nov_10 8) (snd (run (bookings_delete nov_1_utc cancel_nov_10) studio))
         bob 1762783200000 45
         (run (bookings_post nov_1_utc (rebook_nov_10 8))
              (snd (run (bookings_delete nov_1_utc cancel_nov_10) studio))).
Proof.
  assert (Hada : signed_in nov_1_utc cancel_nov_10 studio ada) by (repeat split).
  assert (Hbob : signed_in nov_1_utc (rebook_nov_10 8) studio bob) by (repeat split).
  assert (Honly : forall r, In r (bookings studio) -> lesson_date r = lesson_date lesson_nov_10 ->
                            blocks_slot (status r) = true -> id r = id lesson_nov_10).
  { intros r [<- | []] _ _. reflexivity. }
  destruct (cancelled_slot_can_be_rebooked nov_1_utc cancel_nov_10 nov_1_utc (rebook_nov_10 8)
              studio ada lesson_nov_10 bob 45 1762783200000 studio_ok Hada eq_refl eq_refl Honly)
    as [_ Hrebook].
  apply Hrebook; try reflexivity; try discriminate; [ exact Hbob | ].
  intros (r & [] & _).
Defined.

Lemma find_map_same {A : Type} (p : A -> bool) (g : A -> A) (l : list A) :
  (forall x, p (g x) = p x) ->
  List.find p (List.map g l) = option_map g (List.find p l).
Proof.
  intros Hp. induction l as [| x l IH]; [ reflexivity | ].
  cbn. rewrite Hp. destruct (p x); [ reflexivity | exact IH ].
Qed.

Lemma booking_of_user_after_update (bid bid' uid : Z) (f : booking -> booking) (w : world) :
  (forall r, id (f r) = id r /\ user_id (f r) = user_id r) ->
  booking_of_user bid' uid (update_booking bid f w)
  = option_map (fun r => if id r =? bid then f r else r) (booking_of_user bid' uid w).
Proof.
  intros Hf. unfold booking_of_user. cbn. apply find_map_same.
  intros r. destruct (id r =? bid); [ | reflexivity ].
  destruct (Hf r) as [-> ->]. reflexivity.
Qed.

(** X8.  Every cancellation request inside the policy window records the fee
    again.  The route looks at the lesson's time, never at the state of the
    booking: a verified client who sends the late cancellation of one and the
    same booking [k] times, one after the other, ends with [k] pending
    payments of the full lesson price tagged [late_cancellation_fee]. *)
Theorem late_cancellation_charges_every_time
        (e : env) (req : request) (w : world) (u : user) (b : booking) (k : nat) :
  writes_left w = None ->
  NoDup (List.map id (bookings w)) ->
  signed_in e req w u ->
  is_verified u = true ->
  booking_of_user (params_id req) (u_id u) w = Some b ->
  within_policy (hoursUntilLesson e b)
    (Js.parseInt (setting_or (settings w !! "cancellation_policy_hours") "24")) = false ->
  payments (serve_all (repeat (Cancel e req) k) w)
  = (payments w ++ repeat (late_cancellation_fee b) k)%list.
Proof.
  revert w b. induction k as [| k IH]; intros w b Hw Hnd Hin Hv Hb Hlate.
  - cbn. rewrite app_nil_r. reflexivity.
  - cbn [repeat serve_all serve].
    destruct (cancel_goes_through e req w u b Hw Hnd Hin Hv Hb) as [[Hfree _] | [_ Hout]];
      [ congruence | ].
    unfold cancelled_late in Hout. rewrite Hout. cbn [snd].
    set (w1 := update_booking (params_id req) (late_cancelled_row e)
                              (insert_payment (late_cancellation_fee b) w)).
    destruct (booking_of_user_id _ _ _ _ Hb) as [Hid _].
    rewrite (IH w1 (late_cancelled_row e b)).
    + cbn. rewrite <- app_assoc. reflexivity.
    + exact Hw.
    + cbn. rewrite List.map_map. erewrite List.map_ext; [ exact Hnd | ].
      intros r. cbn. destruct (id r =? params_id req); reflexivity.
    + apply (signed_in_users e req w w1 u); [ reflexivity | exact Hin ].
    + exact Hv.
    + unfold w1. rewrite booking_of_user_after_update by (intros r; split; reflexivity).
      change (booking_of_user (params_id req) (u_id u)
                (insert_payment (late_cancellation_fee b) w))
        with (booking_of_user (params_id req) (u_id u) w).
      rewrite Hb. cbn [option_map]. rewrite Hid, Z.eqb_refl. reflexivity.
    + exact Hlate.
Qed.

Lemma late_cancellation_charges_every_time_witness :
  payments (serve_all [Cancel one_second_inside cancel_nov_10;
                       Cancel one_second_inside cancel_nov_10] studio)
  = [late_cancellation_fee lesson_nov_10; late_cancellation_fee lesson_nov_10].
Proof.
  apply (late_cancellation_charges_every_time one_second_inside cancel_nov_10 studio ada
           lesson_nov_10 2 eq_refl studio_keys).
  - repeat split.
  - reflexivity.
  - reflexivity.
  - reflexivity.
Defined.

(** ** Make-up lessons *)

(** A request that meets the conditions of [may_ask_makeup] is recorded. *)
Lemma makeup_succeeds (e : env) (req : request) (w : world) (u : user) (ob : booking)
      (why : string) :
  writes_left w = None ->
  may_ask_makeup e req w u ob why ->
  makeup_granted (u_id u) ob why w (run (makeup_post e req) w).
Proof.
  intros Hw (Hin & Hob & Hwhy & Hcap). unfold max_pending in Hcap.
  unfold makeup_granted, makeup_post.
  rewrite run_bind, (run_authenticateToken e req w u Hin). cbv beta iota.
  run_steps. rewrite (run_checkMakeupPolicy e (set_user req u) w u eq_refl). cbv zeta.
  rewrite Hcap. run_steps. unfold request_makeup, get_setting. req_simpl. run_steps.
  cbv zeta. rewrite Hob. run_steps. rewrite Hcap, Hwhy. run_steps. reflexivity.
Qed.

(** The route turns the request away with the store untouched, or the
    request met the conditions of [may_ask_makeup] and is recorded. *)
Lemma makeup_cases (e : env) (req : request) (w : world) :
  writes_left w = None ->
  turned_away w (run (makeup_post e req) w)
  \/ (exists u ob why,
        may_ask_makeup e req w u ob why
        /\ makeup_granted (u_id u) ob why w (run (makeup_post e req) w)).
Proof.
  intros Hw.
  assert (Hrej : forall c m, turned_away w (Reply (fail c m), w)).
  { intros c m. exists (fail c m). repeat split. }
  destruct (authenticateToken_cases e req w) as [(c & m & Hrun) | (u & Hin & Hrun)].
  { unfold makeup_post. rewrite run_bind, Hrun. left. apply Hrej. }
  destruct (ge_num (pending_makeups (u_id u) w) (max_pending w)) eqn:Hcap.
  { unfold makeup_post. rewrite run_bind, Hrun. cbv beta iota. run_steps.
    rewrite (run_checkMakeupPolicy e (set_user req u) w u eq_refl). cbv zeta.
    unfold max_pending in Hcap. rewrite Hcap. left. apply Hrej. }
  destruct (makeup_eligible_booking (body_original_booking_id req) (u_id u) w)
    as [ob |] eqn:Hob.
  - destruct (body_reason req) as [why |] eqn:Hwhy.
    + right. exists u, ob, why.
      assert (Hmay : may_ask_makeup e req w u ob why) by (repeat split; auto; apply Hin).
      split; [ exact Hmay | apply makeup_succeeds; assumption ].
    + unfold makeup_post. rewrite run_bind, Hrun. cbv beta iota. run_steps.
      rewrite (run_checkMakeupPolicy e (set_user req u) w u eq_refl). cbv zeta.
      unfold max_pending in Hcap. rewrite Hcap. run_steps.
      unfold request_makeup, get_setting. req_simpl. run_steps. cbv zeta.
      rewrite Hob. run_steps. rewrite Hcap, Hwhy. run_steps. left. apply Hrej.
  - unfold makeup_post. rewrite run_bind, Hrun. cbv beta iota. run_steps.
    rewrite (run_checkMakeupPolicy e (set_user req u) w u eq_refl). cbv zeta.
    unfold max_pending in Hcap. rewrite Hcap. run_steps.
    unfold request_makeup, get_setting. req_simpl. run_steps. cbv zeta.
    rewrite Hob. run_steps. left. apply Hrej.
Qed.

(** X9.  The make-up route records a request exactly under the conditions of
    [may_ask_makeup]: the caller is signed in, the booking named is a
    confirmed or cancelled booking of the caller, a reason is given, and the
    caller is not at the cap.  It then appends one pending make-up for that
    booking and answers with its id.  Any other request, a pending or
    completed booking or somebody else's booking included, is answered with an
    error and leaves the store as it was. *)
Theorem makeup_recorded_iff (e : env) (req : request) (w : world) :
  writes_left w = None ->
  let out := run (makeup_post e req) w in
  (forall u ob why, may_ask_makeup e req w u ob why -> makeup_recorded (u_id u) ob why w out)
  /\ ((exists r, fst out = Reply r /\ success r = true) ->
      exists u ob why,
        may_ask_makeup e req w u ob why /\ makeup_recorded (u_id u) ob why w out)
  /\ ((forall u ob why, ~ may_ask_makeup e req w u ob why) -> turned_away w out).
Proof.
  intros Hw out. split; [ | split ].
  - intros u ob why Hmay. apply makeup_granted_recorded, makeup_succeeds; assumption.
  - intros (r & Hr & Hs).
    destruct (makeup_cases e req w Hw) as [(r' & Hr' & Hf & _) | Hdone].
    + exfalso. fold out in Hr'. rewrite Hr in Hr'. injection Hr' as <-. congruence.
    + destruct Hdone as (u & ob & why & Hmay & Hout). exists u, ob, why.
      split; [ exact Hmay | apply makeup_granted_recorded, Hout ].
  - intros Hnot.
    destruct (makeup_cases e req w Hw) as [Hturned | (u & ob & why & Hmay & _)];
      [ exact Hturned | ].
    exfalso. exact (Hnot u ob why Hmay).
Qed.

Lemma makeup_recorded_iff_witness :
  makeup_recorded 7 lesson_nov_10 "snow" studio (run (makeup_post nov_1_utc ask_makeup) studio).
Proof.
  destruct (makeup_recorded_iff nov_1_utc ask_makeup studio eq_refl) as (Hrec & _).
  apply (Hrec ada lesson_nov_10 "snow"). repeat split.
Defined.

Lemma filter_map_le {A : Type} (c : A -> bool) (g : A -> A) (l : list A) :
  (forall x, g x = x \/ c (g x) = false) ->
  (List.length (List.filter c (List.map g l)) <= List.length (List.filter c l))%nat.
Proof.
  intros Hg. induction l as [| x l IH]; [ reflexivity | ].
  cbn [List.map List.filter]. destruct (Hg x) as [-> | ->].
  - destruct (c x); cbn [List.length]; [ apply le_n_S | ]; exact IH.
  - destruct (c x); cbn [List.length]; [ apply le_S | ]; exact IH.
Qed.

(** A request to schedule or to complete a make-up leaves the store as it
    was, or takes the make-ups with the id it names out of the pending
    state and touches nothing else. *)
Lemma transition_cases (e : env) (req : request) (t : makeup_transition) (w : world) :
  writes_left w = None ->
  snd (run (apply_transition e req t) w) = w
  \/ (exists f,
        (forall uid x, counts_for uid (f x) = false)
        /\ snd (run (apply_transition e req t) w) = update_makeup (params_id req) f w).
Proof.
  intros Hw.
  destruct (authenticateToken_cases e req w) as [(c & m & Hrun) | (u & Hin & Hrun)].
  { left. destruct t; cbn [apply_transition]; unfold makeup_schedule, makeup_complete;
      rewrite run_bind, Hrun; reflexivity. }
  destruct (String.eqb (role u) "admin") eqn:Hrole.
  - right. apply String.eqb_eq in Hrole.
    exact (run_apply_transition e req t w u Hin Hrole Hw).
  - left. destruct t; cbn [apply_transition]; unfold makeup_schedule, makeup_complete;
      rewrite run_bind, Hrun; cbv beta iota; unfold requireRole; req_simpl; rewrite Hrole;
      reflexivity.
Qed.

Lemma serve_makeup_keeps_cap (c : makeup_call) (w : world) (uid h : Z) :
  writes_left w = None ->
  max_pending w = Some h ->
  pending_makeups uid w <= h ->
  let w' := snd (run (serve_makeup c) w) in
  writes_left w' = None /\ max_pending w' = Some h /\ pending_makeups uid w' <= h.
Proof.
  intros Hw Hh Hle. destruct c as [e req | e req t]; cbn [serve_makeup].
  - destruct (makeup_cases e req w Hw) as [(r & _ & _ & ->) | Hdone]; [ auto | ].
    destruct Hdone as (u & ob & why & (_ & _ & _ & Hcap) & Hout).
    unfold makeup_granted in Hout. rewrite Hout. cbn [snd].
    split; [ exact Hw | split; [ exact Hh | ] ].
    rewrite Hh in Hcap. cbn [ge_num] in Hcap. apply Z.leb_gt in Hcap.
    unfold pending_makeups in *. cbn [makeup_lessons insert_makeup].
    rewrite List.filter_app, List.length_app. cbn [List.filter mk_user_id mk_status].
    destruct (Z.eqb_spec uid (u_id u)) as [-> | Hne].
    + rewrite Z.eqb_refl. cbn. lia.
    + assert (Hneq : (u_id u =? uid) = false) by (apply Z.eqb_neq; congruence).
      rewrite Hneq. cbn. lia.
  - destruct (transition_cases e req t w Hw) as [-> | (f & Hf & ->)]; [ auto | ].
    split; [ exact Hw | split; [ exact Hh | ] ].
    unfold pending_makeups in *. cbn [makeup_lessons update_makeup set_makeup_lessons].
    pose proof (filter_map_le (counts_for uid)
                  (fun m => if mk_id m =? params_id req then f m else m)
                  (makeup_lessons w)) as Hlen.
    assert (Hg : forall x, (if mk_id x =? params_id req then f x else x) = x
                           \/ counts_for uid (if mk_id x =? params_id req then f x else x)
                              = false).
    { intros x. destruct (mk_id x =? params_id req); [ right; apply Hf | left; reflexivity ]. }
    specialize (Hlen Hg). unfold counts_for in Hlen. lia.
Qed.

(** X10.  The cap on pending make-ups is an invariant of the make-up
    router.  With the cap configured as [h], a client who has at most [h]
    pending make-ups still has at most [h] after any sequence of make-up
    requests, schedulings and completions, by whomever, served one after
    the other. *)
Theorem pending_makeups_stay_capped (cs : list makeup_call) (w : world) (uid h : Z) :
  writes_left w = None ->
  max_pending w = Some h ->
  pending_makeups uid w <= h ->
  pending_makeups uid (serve_makeups cs w) <= h.
Proof.
  revert w. induction cs as [| c cs IH]; intros w Hw Hh Hle; [ exact Hle | ].
  cbn [serve_makeups].
  destruct (serve_makeup_keeps_cap c w uid h Hw Hh Hle) as (Hw' & Hh' & Hle').
  apply IH; assumption.
Qed.

Lemma pending_makeups_stay_capped_witness :
  pending_makeups 7
    (serve_makeups [AskMakeup nov_1_utc ask_makeup;
                    Settle nov_1_utc (by_instructor 1) Complete;
                    AskMakeup nov_1_utc ask_makeup; AskMakeup nov_1_utc ask_makeup]
                   two_pending)
  <= 2.
Proof.
  apply (pending_makeups_stay_capped
           [AskMakeup nov_1_utc ask_makeup; Settle nov_1_utc (by_instructor 1) Complete;
            AskMakeup nov_1_utc ask_makeup; AskMakeup nov_1_utc ask_makeup]
           two_pending 7 2 eq_refl eq_refl).
  vm_compute. discriminate.
Defined.

Lemma update_makeup_absent (mid : Z) (f : makeup_lesson -> makeup_lesson) (w : world) :
  (forall m, In m (makeup_lessons w) -> mk_id m <> mid) ->
  update_makeup mid f w = w.
Proof.
  intros Habs. unfold update_makeup, set_makeup_lessons.
  assert (Hsame : List.map (fun m => if mk_id m =? mid then f m else m) (makeup_lessons w)
                  = makeup_lessons w).
  { rewrite <- (List.map_id (makeup_lessons w)) at 2. apply List.map_ext_in.
    intros m Hm. destruct (Z.eqb_spec (mk_id m) mid); [ | reflexivity ].
    exfalso. exact (Habs m Hm e). }
  rewrite Hsame. destruct w; reflexivity.
Qed.

(** X11.  The routes that schedule and complete a make-up do not check that
    the make-up exists.  When the instructor names an id that no make-up
    has, the route answers with success and the store is left exactly as it
    was. *)
Theorem settling_unknown_makeup_changes_nothing
        (e : env) (req : request) (t : makeup_transition) (w : world) (a : user) :
  signed_in e req w a ->
  role a = "admin" ->
  writes_left w = None ->
  (forall m, In m (makeup_lessons w) -> mk_id m <> params_id req) ->
  exists msg, run (apply_transition e req t) w = (Reply (ok msg NoData), w).
Proof.
  intros Hin Hrole Hw Habs.
  destruct t as [when |]; cbn [apply_transition];
    unfold makeup_schedule, makeup_complete;
    rewrite run_bind, (run_authenticateToken e req w a Hin);
    cbv beta iota; unfold requireRole; req_simpl; rewrite Hrole; cbn [String.eqb];
    unfold schedule_makeup, complete_makeup; run_steps;
    rewrite (update_makeup_absent _ _ w Habs); eexists; reflexivity.
Qed.

Lemma settling_unknown_makeup_changes_nothing_witness :
  exists msg,
    run (makeup_complete nov_1_utc (by_instructor 5)) two_pending
    = (Reply (ok msg NoData), two_pending).
Proof.
  apply (settling_unknown_makeup_changes_nothing nov_1_utc (by_instructor 5) Complete
           two_pending patricia); [ repeat split | reflexivity | reflexivity | ].
  intros m [<- | [<- | []]]; discriminate.
Defined.

(** ** Settings that do not read as numbers *)

(** X12.  A policy setting whose value does not start with a number reads as
    NaN, and every comparison with NaN is false.  With such a value for
    [cancellation_policy_hours] no cancellation is free: whatever the time
    left before the lesson, the fee is charged.  With such a value for
    [max_reschedules_per_month] the reschedule gate lets every same-month
    request through, and with such a value for [max_pending_makeups] a
    make-up request is recorded however many are pending. *)
Theorem unreadable_limits (e : env) (req : request) (w : world) (u : user) :
  signed_in e req w u ->
  writes_left w = None ->
  (forall b,
     Js.parseInt (setting_or (settings w !! "cancellation_policy_hours") "24") = None ->
     is_verified u = true ->
     NoDup (List.map id (bookings w)) ->
     booking_of_user (params_id req) (u_id u) w = Some b ->
     charged_cancellation e b w (run (bookings_delete e req) w))
  /\ (forall b,
        max_reschedules w = None ->
        booking_of_user (params_id req) (u_id u) w = Some b ->
        same_month (tz e) (Some (lesson_date b)) (Js.new_Date (engine e) (tz e) (body_new_date req))
        = true ->
        run (checkReschedulePolicy e (set_user req u)) w = (Val tt, w))
  /\ (forall ob why,
        max_pending w = None ->
        makeup_eligible_booking (body_original_booking_id req) (u_id u) w = Some ob ->
        body_reason req = Some why ->
        makeup_recorded (u_id u) ob why w (run (makeup_post e req) w)).
Proof.
  intros Hin Hw. split; [ | split ].
  - intros b Hnan Hv Hnd Hb.
    destruct (cancel_goes_through e req w u b Hw Hnd Hin Hv Hb) as [[Hfree _] | [_ Hlate]];
      [ | exact (cancelled_late_charged e req b w _ _ Hlate Hb) ].
    rewrite Hnan in Hfree. discriminate Hfree.
  - intros b Hnan Hb Hsame. unfold max_reschedules in Hnan.
    unfold checkReschedulePolicy, get_setting. req_simpl. run_steps. rewrite Hb. run_steps.
    cbv zeta. rewrite Hsame. cbn [negb]. run_steps. rewrite Hnan. reflexivity.
  - intros ob why Hnan Hob Hwhy. apply makeup_granted_recorded, makeup_succeeds; [ exact Hw | ].
    repeat split; try assumption; try apply Hin. rewrite Hnan. reflexivity.
Qed.

Lemma unreadable_limits_witness :
  charged_cancellation nov_1_utc lesson_nov_10
                 (studio_with "cancellation_policy_hours" "a day")
                 (run (bookings_delete nov_1_utc cancel_nov_10)
                      (studio_with "cancellation_policy_hours" "a day")).
Proof.
  assert (Hin : signed_in nov_1_utc cancel_nov_10
                          (studio_with "cancellation_policy_hours" "a day") ada)
    by (repeat split).
  destruct (unreadable_limits nov_1_utc cancel_nov_10
              (studio_with "cancellation_policy_hours" "a day") ada Hin eq_refl)
    as (Hcancel & _).
  apply Hcancel; [ vm_compute; reflexivity | reflexivity | apply NoDup_singleton | reflexivity ].
Defined.

(** ** The blackout check of a creation *)

(** X13.  What [checkBlackoutDates] does to a creation request of a verified
    client.  The date it looks at is [new_date] when the body carries one and
    [lesson_date] otherwise.  If the UTC calendar day of that date lies in an
    active blackout range, the request is refused with 400 and a message that
    names such a range, and nothing is written.  If the engine reads no date
    in it, the answer is 500 and nothing is written.  And since only that date
    is looked at, a request whose [lesson_date] lies in a closed range is
    still booked when it carries a [new_date] on an open day. *)
Theorem blackout_check_on_creation (e : env) (req : request) (w : world) (u : user) :
  signed_in e req w u ->
  is_verified u = true ->
  Js.truthy (date_checked req) = true ->
  (forall c,
     Js.new_Date (engine e) (tz e) (date_checked req) = Some c ->
     closed_on (Js.utc_date c) w ->
     exists r,
       In r (blackout_dates w) /\ is_active r = true
       /\ Js.ymd_leb (bo_start_date r) (Js.utc_date c) = true
       /\ Js.ymd_leb (Js.utc_date c) (bo_end_date r) = true
       /\ run (bookings_post e req) w
          = (Reply (fail 400 ("Cannot book during " +:+ bo_reason r +:+ " ("
                              +:+ Js.ymd_to_string (bo_start_date r) +:+ " to "
                              +:+ Js.ymd_to_string (bo_end_date r) +:+ ")")), w))
  /\ (Js.new_Date (engine e) (tz e) (date_checked req) = None ->
      run (bookings_post e req) w = (Reply (fail 500 "Failed to check blackout dates"), w))
  /\ (forall t d c,
        store_ok w ->
        Js.truthy (body_new_date req) = true ->
        Js.new_Date (engine e) (tz e) (body_new_date req) = Some c ->
        ~ closed_on (Js.utc_date c) w ->
        Js.new_Date (engine e) (tz e) (body_lesson_date req) = Some t ->
        closed_on (Js.utc_date t) w ->
        body_duration req = Some d -> d <> 0 -> now e < t ->
        conflicting_booking t w = None ->
        booking_recorded e req w u t d (run (bookings_post e req) w)).
Proof.
  intros Hin Hv Htruthy.
  assert (Hroute : run (bookings_post e req) w
                   = run (checkBlackoutDates e (set_user req u) ;;
                          create_booking e (set_user req u))%prog w).
  { unfold bookings_post. rewrite run_bind, (run_authenticateToken e req w u Hin).
    cbv beta iota. unfold requireVerified. req_simpl. rewrite Hv. reflexivity. }
  split; [ | split ].
  - intros c Hc Hclosed.
    destruct (blackout_conflict (Js.utc_date c) w) as [r |] eqn:Hfound.
    + exists r. pose proof Hfound as Hr. apply find_some in Hr as [Hr Hcov].
      apply andb_prop in Hcov as [Hcov He]. apply andb_prop in Hcov as [Ha Hs].
      repeat split; try assumption.
      rewrite Hroute. unfold checkBlackoutDates, toISOString. req_simpl.
      fold (date_checked req). run_steps. rewrite Htruthy, Hc. cbn [negb]. run_steps.
      rewrite Hfound. run_steps. reflexivity.
    + exfalso. apply blackout_conflict_none in Hfound. contradiction.
  - intros Hc. rewrite Hroute. unfold checkBlackoutDates, toISOString. req_simpl.
    fold (date_checked req). run_steps. rewrite Htruthy, Hc. cbn [negb]. run_steps.
    reflexivity.
  - intros t d c Hok Hnew Hc Hopen Ht Hclosed Hd Hd0 Hfuture Hfree.
    apply booked_recorded, (create_succeeds e req w u t d c Hok).
    unfold may_book, date_checked. rewrite Hnew. repeat split; auto; apply Hin.
Qed.

Lemma blackout_check_on_creation_witness :
  exists r,
    In r (blackout_dates thanksgiving_closed) /\ is_active r = true
    /\ Js.ymd_leb (bo_start_date r) (Js.Ymd 2025 11 25) = true
    /\ Js.ymd_leb (Js.Ymd 2025 11 25) (bo_end_date r) = true
    /\ run (bookings_post nov_1_utc book_nov_25) thanksgiving_closed
       = (Reply (fail 400 ("Cannot book during " +:+ bo_reason r +:+ " ("
                           +:+ Js.ymd_to_string (bo_start_date r) +:+ " to "
                           +:+ Js.ymd_to_string (bo_end_date r) +:+ ")")),
          thanksgiving_closed).
Proof.
  assert (Hin : signed_in nov_1_utc book_nov_25 thanksgiving_closed ada) by (repeat split).
  destruct (blackout_check_on_creation nov_1_utc book_nov_25 thanksgiving_closed ada
              Hin eq_refl eq_refl) as (Hclosed & _).
  apply (Hclosed 1764079200000); [ reflexivity | ].
  eexists. split; [ left; reflexivity | repeat split ].
Defined.

(** ** What a reschedule costs *)




(** ** Recurring commitments and their billing cycles *)

Lemma run_recurring_post (e : env) (req : request) (w : world) (u : user)
      (value : string) (d : Z) (p : Q) :
  signed_in e req w u ->
  writes_left w = None ->
  settings w !! price_key req = Some value ->
  Js.parseFloat value = Some p ->
  body_duration req = Some d ->
  run (recurring_post e req) w
  = match run (generateBillingCycles e (recurring_seq w + 1) (u_id u) (body_start_date req)
                                     (academic_year_end w) p (body_frequency req))
              (insert_recurring (commitment_row req w u d p) w) with
    | (Val _, w') =>
        (Reply (ok "Recurring booking created successfully" (Created (recurring_seq w + 1))),
         w')
    | (Reply r, w') => (Reply r, w')
    | (Throw _, w') => (Reply (fail 500 "Failed to create recurring booking"), w')
    end.
Proof.
  intros Hin Hw Hprice Hp Hd. unfold recurring_post, get_setting.
  rewrite run_bind, (run_authenticateToken e req w u Hin). cbv beta iota.
  req_simpl. run_steps. cbv zeta. fold (price_key req). rewrite Hprice. run_steps.
  rewrite Hp, Hd. run_steps. fold (academic_year_end w). fold (commitment_row req w u d p).
  change (recurring_seq w + 1) with (rb_id (commitment_row req w u d p)) at 1.
  destruct (run (generateBillingCycles _ _ _ _ _ _ _) _) as [[[] | r | m] w']; reflexivity.
Qed.

(** For a process in UTC, the cycle of a month from the year 100 on is
    billed on the 1st of that month and due on its 15th. *)
Lemma cycle_dates_in_utc (e : env) (uid rid : Z) (p : Q) (freq : string) (i : Z) :
  tz e = 0 ->
  billing_date (cycle_for e uid rid p freq i) = Js.Ymd (i / 12) (i mod 12 + 1) 1
  /\ due_date (cycle_for e uid rid p freq i) = Js.Ymd (i / 12) (i mod 12 + 1) 15.
Proof. intros Hz. apply cycle_dates_west_of_utc. lia. Qed.

(** X15.  A recurring commitment and its billing cycles, for a process that
    runs in UTC.  For a signed-in caller, a duration whose price is
    configured and reads as a number, a start date that reads as an instant
    of the year 100 or later and an end of the academic year (from the
    settings, [2026-06-30] when absent) that reads as an instant, the route
    inserts the commitment and then one billing cycle for every month from
    the month of the start instant to the month of the end instant, both
    included: none when the end lies in an earlier month.  Every cycle names
    its month and year, counts 4 lessons for the frequency [weekly] and 2
    for any other, amounts to that many times the price, is billed on the
    1st of its month and due on the 15th. *)
Theorem commitment_billed_month_by_month
        (e : env) (req : request) (w : world) (u : user) (value : string) (d : Z) (p : Q)
        (s f : Z) :
  tz e = 0 ->
  signed_in e req w u ->
  writes_left w = None ->
  settings w !! price_key req = Some value ->
  Js.parseFloat value = Some p ->
  body_duration req = Some d ->
  Js.Date_parse (engine e) (tz e) (body_start_date req) = Some s ->
  Js.Date_parse (engine e) (tz e) (academic_year_end w) = Some f ->
  100 <= Js.year (Js.utc_date s) ->
  let months := month_range (month_index (Js.utc_date s)) (month_index (Js.utc_date f)) in
  let cycles :=
    List.map (cycle_for e (u_id u) (recurring_seq w + 1) p (body_frequency req)) months in
  run (recurring_post e req) w
  = (Reply (ok "Recurring booking created successfully" (Created (recurring_seq w + 1))),
     add_cycles cycles (insert_recurring (commitment_row req w u d p) w))
  /\ List.map (fun c => (cycle_year c, cycle_month c)) cycles
     = List.map (fun i => (i / 12, i mod 12 + 1)) months
  /\ recurring_bookings (add_cycles cycles (insert_recurring (commitment_row req w u d p) w))
     = (recurring_bookings w
        ++ [RecurringBooking (recurring_seq w + 1) (u_id u) d p (body_day_of_week req)
              (body_time req) (body_frequency req) (body_start_date req)
              (academic_year_end w) (default "regular" (body_lesson_type req))])%list
  /\ billing_cycles (add_cycles cycles (insert_recurring (commitment_row req w u d p) w))
     = (billing_cycles w ++ cycles)%list
  /\ (forall c, In c cycles ->
        lessons_count c = (if String.eqb (body_frequency req) "weekly" then 4 else 2)
        /\ total_amount c = (p * inject_Z (lessons_count c))%Q
        /\ bc_user_id c = u_id u /\ recurring_booking_id c = recurring_seq w + 1
        /\ billing_date c = Js.Ymd (cycle_year c) (cycle_month c) 1
        /\ due_date c = Js.Ymd (cycle_year c) (cycle_month c) 15).
Proof.
  intros Hz Hin Hw Hprice Hp Hd Hs Hf Hyear months cycles.
  split; [ | split; [ | split; [ | split ] ] ].
  - rewrite (run_recurring_post e req w u value d p Hin Hw Hprice Hp Hd).
    rewrite (generateBillingCycles_spec e _ _ _ _ p _ _ s f);
      [ | exact Hw | exact Hs | exact Hf | ].
    + unfold cycles, months. rewrite Hz, !local_date_utc. reflexivity.
    + unfold Js.getFullYear. rewrite Hz, local_date_utc. exact Hyear.
  - unfold cycles. rewrite List.map_map. reflexivity.
  - rewrite recurring_bookings_add_cycles. reflexivity.
  - rewrite billing_cycles_add_cycles. reflexivity.
  - intros c Hc. apply in_map_iff in Hc as (i & <- & _).
    destruct (cycle_dates_in_utc e (u_id u) (recurring_seq w + 1) p (body_frequency req) i Hz)
      as [Hb Hdue].
    repeat split; assumption.
Qed.

Lemma commitment_billed_month_by_month_witness :
  run (recurring_post utc biweekly_from_sep_1) empty_world
  = (Reply (ok "Recurring booking created successfully" (Created 1)),
     add_cycles (List.map (cycle_for utc 7 1 95 "biweekly") (month_range 24308 24317))
                (insert_recurring (commitment_row biweekly_from_sep_1 empty_world ada 60 95)
                                  empty_world)).
Proof.
  assert (Hin : signed_in utc biweekly_from_sep_1 empty_world ada) by (repeat split).
  destruct (commitment_billed_month_by_month utc biweekly_from_sep_1 empty_world ada
              "95.00" 60 95 1756684800000 1782777600000 eq_refl Hin eq_refl eq_refl eq_refl
              eq_refl eq_refl eq_refl) as [Hrun _].
  - vm_compute. discriminate.
  - exact Hrun.
Defined.

(** X16.  A start date that is no date for the engine does not stop the
    creation of a commitment.  The route stores the commitment with the
    start date as it was sent, writes no billing cycle at all, and answers
    with success; the same happens when the configured end of the academic
    year is no date. *)
Theorem commitment_without_cycles
        (e : env) (req : request) (w : world) (u : user) (value : string) (d : Z) (p : Q) :
  signed_in e req w u ->
  writes_left w = None ->
  settings w !! price_key req = Some value ->
  Js.parseFloat value = Some p ->
  body_duration req = Some d ->
  Js.Date_parse (engine e) (tz e) (body_start_date req) = None
  \/ Js.Date_parse (engine e) (tz e) (academic_year_end w) = None ->
  exists w',
    run (recurring_post e req) w
    = (Reply (ok "Recurring booking created successfully" (Created (recurring_seq w + 1))),
       w')
    /\ recurring_bookings w'
       = (recurring_bookings w
          ++ [RecurringBooking (recurring_seq w + 1) (u_id u) d p (body_day_of_week req)
                (body_time req) (body_frequency req) (body_start_date req)
                (academic_year_end w) (default "regular" (body_lesson_type req))])%list
    /\ billing_cycles w' = billing_cycles w.
Proof.
  intros Hin Hw Hprice Hp Hd Hbad.
  exists (insert_recurring (commitment_row req w u d p) w).
  split; [ | split; reflexivity ].
  rewrite (run_recurring_post e req w u value d p Hin Hw Hprice Hp Hd).
  unfold generateBillingCycles.
  destruct Hbad as [-> | ->]; [ reflexivity | ].
  destruct (Js.Date_parse (engine e) (tz e) (body_start_date req)); reflexivity.
Qed.

Lemma commitment_without_cycles_witness :
  exists w',
    run (recurring_post utc weekly_from_nowhere) empty_world
    = (Reply (ok "Recurring booking created successfully" (Created 1)), w')
    /\ recurring_bookings w'
       = [RecurringBooking 1 7 60 95 1 "16:00" "weekly" "next Monday" "2026-06-30" "regular"]
    /\ billing_cycles w' = [].
Proof.
  apply (commitment_without_cycles utc weekly_from_nowhere empty_world ada "95.00" 60 95);
    try reflexivity; [ repeat split | left; reflexivity ].
Defined.

(** What [billing_row] writes for the local midnight that opens the month
    with index [i]: the month and the year as they are, and the dates of
    the 1st and the 15th in the year that [new Date(year, month, day)]
    makes of that year. *)
Lemma billing_row_of_month (e : env) (uid rid : Z) (amount : Q) (lessons : Z) (i : Z) :
  let y := if (0 <=? i / 12) && (i / 12 <=? 99) then 1900 + i / 12 else i / 12 in
  billing_row e uid rid amount lessons (first_of_month (tz e) i)
  = BillingCycle uid rid (i mod 12 + 1) (i / 12) amount lessons
                 (Js.utc_date (first_of_month (tz e) (12 * y + i mod 12)))
                 (Js.utc_date (first_of_month (tz e) (12 * y + i mod 12) + 14 * Js.msPerDay)).
Proof.
  intros y. unfold billing_row. destruct (fields_first_of_month (tz e) i) as [-> ->].
  unfold Js.make_local. fold y. rewrite !local_midnight_first_of_month.
  replace (i mod 12 + 1 - 1) with (i mod 12) by lia.
  f_equal; f_equal; lia.
Qed.

(** X17.  The dates of a billing cycle, for a process that runs in UTC.
    For the midnight that opens the month with index [i] (months counted
    from January of year 0), [billing_row] names that month and year, and
    from the year 100 on it bills the cycle on the 1st of that month and
    makes it due on the 15th.  For a year from 0 to 99 the two dates fall
    in the year 1900 later, as [new Date(year, month, day)] reads such a
    year. *)
Theorem billing_dates_in_utc
        (e : env) (uid rid : Z) (amount : Q) (lessons : Z) (i : Z) :
  tz e = 0 ->
  let c := billing_row e uid rid amount lessons (first_of_month (tz e) i) in
  cycle_year c = i / 12
  /\ cycle_month c = i mod 12 + 1
  /\ (~ 0 <= i / 12 <= 99 ->
      billing_date c = Js.Ymd (i / 12) (i mod 12 + 1) 1
      /\ due_date c = Js.Ymd (i / 12) (i mod 12 + 1) 15)
  /\ (0 <= i / 12 <= 99 ->
      billing_date c = Js.Ymd (1900 + i / 12) (i mod 12 + 1) 1
      /\ due_date c = Js.Ymd (1900 + i / 12) (i mod 12 + 1) 15).
Proof.
  intros Hz c. unfold c. rewrite billing_row_of_month.
  cbn [cycle_year cycle_month billing_date due_date].
  split; [ reflexivity | split; [ reflexivity | split ] ]; intros Hy.
  - assert (Hout : (0 <=? i / 12) && (i / 12 <=? 99) = false).
    { destruct (Z.leb_spec 0 (i / 12)); destruct (Z.leb_spec (i / 12) 99);
        try reflexivity; lia. }
    rewrite Hout. replace (12 * (i / 12) + i mod 12) with i by dlia.
    exact (cycle_dates_in_utc e uid rid amount "weekly" i Hz).
  - assert (Hin : (0 <=? i / 12) && (i / 12 <=? 99) = true).
    { apply andb_true_intro. split; apply Z.leb_le; lia. }
    rewrite Hin.
    pose proof (cycle_dates_in_utc e uid rid amount "weekly"
                  (12 * (1900 + i / 12) + i mod 12) Hz) as Hdates.
    replace ((12 * (1900 + i / 12) + i mod 12) / 12) with (1900 + i / 12) in Hdates by dlia.
    replace ((12 * (1900 + i / 12) + i mod 12) mod 12) with (i mod 12) in Hdates by dlia.
    exact Hdates.
Qed.

Lemma billing_dates_in_utc_witness :
  billing_date (billing_row nov_1_utc 7 1 85 4 (first_of_month 0 24310)) = Js.Ymd 2025 11 1
  /\ due_date (billing_row nov_1_utc 7 1 85 4 (first_of_month 0 24310)) = Js.Ymd 2025 11 15.
Proof.
  apply (proj1 (proj2 (proj2 (billing_dates_in_utc nov_1_utc 7 1 85 4 24310 eq_refl)))).
  vm_compute. intros [_ H]. apply H. reflexivity.
Defined.

(** The same row for a month of the year 50. *)
Example billing_row_in_the_year_50 :
  let c := billing_row nov_1_utc 7 1 85 4 (first_of_month 0 (12 * 50 + 8)) in
  (cycle_year c, cycle_month c, billing_date c, due_date c)
  = (50, 9, Js.Ymd 1950 9 1, Js.Ymd 1950 9 15).
Proof. vm_compute. reflexivity. Qed.

(** ** Availability *)




Lemma candidate_slots_chronological (fuel : nat) (dayEnd dur cur : Z) :
  chronological (candidate_slots fuel dayEnd dur cur).
Proof.
  revert cur. induction fuel as [| fuel IH]; intros cur; cbn [candidate_slots]; [ exact I | ].
  destruct (cur <? dayEnd); [ | exact I ].
  destruct (Js.is_time _ && (Js.addMinutes cur dur <=? dayEnd)); cbn [app]; [ | apply IH ].
  split; [ | apply IH ].
  intros b Hb. apply candidate_slots_in in Hb as (k & _ & _ & _ & _ & ->).
  cbn [slot_start]. unfold Js.addMinutes, Js.msPerMinute. lia.
Qed.

Lemma chronological_map (g : slot -> slot) (l : list slot) :
  (forall c, slot_start (g c) = slot_start c) ->
  chronological l -> chronological (List.map g l).
Proof.
  intros Hg. induction l as [| a l IH]; [ auto | ].
  cbn [chronological List.map]. intros [Ha Hl]. split; [ | auto ].
  intros b Hb. apply in_map_iff in Hb as (b0 & <- & Hb0). rewrite !Hg. auto.
Qed.

Lemma chronological_filter (p : slot -> bool) (l : list slot) :
  chronological l -> chronological (List.filter p l).
Proof.
  induction l as [| a l IH]; [ auto | ].
  cbn [chronological List.filter]. intros [Ha Hl]. destruct (p a); [ | auto ].
  split; [ | auto ]. intros b Hb. apply filter_In in Hb as [Hb _]. auto.
Qed.

(** X19.  The resolver returns its slots in chronological order: every slot
    of the list starts before all the slots after it, so that no start time
    comes twice. *)
Theorem available_slots_chronological
        (e : env) (date : string) (dur : Z) (w : world) (slots : list slot) :
  run (getAvailableSlots e date dur) w = (Val slots, w) ->
  chronological slots.
Proof.
  unfold getAvailableSlots, get_setting, toISOString. run_steps.
  destruct (Js.Date_parse (engine e) (tz e) _) as [s |]; run_steps;
    [ | intros H; injection H as <-; exact I ].
  destruct (Js.Date_parse (engine e) (tz e) _) as [f |]; run_steps;
    [ | intros H; injection H as <-; exact I ].
  intros H. injection H as <-.
  apply chronological_filter. apply chronological_map.
  { intros c. unfold mark_booked. destruct (negb (available c)); [ reflexivity | ].
    destruct (existsb _ _); reflexivity. }
  apply chronological_map.
  { intros c. unfold mark_busy. destruct (existsb _ _); reflexivity. }
  apply candidate_slots_chronological.
Qed.

Lemma available_slots_chronological_witness :
  chronological
    (match fst (run (getAvailableSlots nov_1_utc "2025-11-25" 60) thanksgiving_closed) with
     | Val l => l
     | _ => []
     end).
Proof.
  apply (available_slots_chronological nov_1_utc "2025-11-25" 60 thanksgiving_closed).
  vm_compute. reflexivity.
Defined.







(** ** Reschedule of a booking *)








(** What the witness looks like. *)
Example lesson_of_ada_moved :
  let out := run (bookings_put nov_1_utc move_within_nov) studio in
  fst out = Reply (Response 200 true "Booking rescheduled successfully"
                            (BookingRescheduled false))
  /\ bookings (snd out)
     = [Booking 1 7 1762956000000 60 85 Confirmed None 1 (Some 1762783200000) None None
                (Some 1761955200000) None].
Proof. repeat split. Qed.

(** ** Bookings while calendar sync is off *)

Lemma push_created_quiet (e : env) (uid lastID t dur : Z) (n : option string) (w : world) :
  calendar_sync_enabled w = false ->
  run (push_created e uid lastID t dur n) w = (Val None, w).
Proof.
  intros Hoff. unfold push_created, isCalendarSyncEnabled. run_steps. rewrite Hoff.
  cbn [andb]. run_steps. reflexivity.
Qed.

Lemma push_updated_quiet (e : env) (uid bid : Z) (b : booking) (t : Z) (n : option string)
      (w : world) :
  calendar_sync_enabled w = false ->
  run (push_updated e uid bid b t n) w = (Val false, w).
Proof.
  intros Hoff. unfold push_updated, isCalendarSyncEnabled. run_steps. rewrite Hoff.
  cbn [andb]. run_steps. reflexivity.
Qed.

Lemma push_deleted_quiet (e : env) (bid : Z) (b : booking) (w : world) :
  calendar_sync_enabled w = false ->
  run (push_deleted e bid b) w = (Val false, w).
Proof.
  intros Hoff. unfold push_deleted, isCalendarSyncEnabled. run_steps. rewrite Hoff.
  cbn [andb]. run_steps. reflexivity.
Qed.

(** Closes the conjunctions left by a run that never reaches the calendar. *)
Ltac quiet_done := repeat split; try reflexivity; try assumption.

Lemma post_quiet (e : env) (cal : calendar) (req : request) (w : world) :
  writes_left w = None ->
  calendar_sync_enabled w = false ->
  run (bookings_post (elsewhere cal e) req) w = run (bookings_post e req) w
  /\ calendar_sync_log (snd (run (bookings_post e req) w)) = calendar_sync_log w
  /\ calendar_sync_enabled (snd (run (bookings_post e req) w)) = false.
Proof.
  intros Hw Hoff. unfold bookings_post. rewrite !run_bind.
  change (authenticateToken (elsewhere cal e) req) with (authenticateToken e req).
  destruct (authenticateToken_cases e req w) as [(c & m & ->) | (u & Hin & ->)];
    cbv beta iota; [ quiet_done | ].
  unfold requireVerified. req_simpl.
  destruct (is_verified u) eqn:Hv; run_steps; [ | quiet_done ].
  unfold checkBlackoutDates. cbn [elsewhere tz now engine]. req_simpl.
  set (dateToCheck := if Js.truthy (body_new_date req) then _ else _).
  run_steps.
  assert (Hcreate :
            run (create_booking (elsewhere cal e) (set_user req u)) w
            = run (create_booking e (set_user req u)) w
            /\ calendar_sync_log (snd (run (create_booking e (set_user req u)) w))
               = calendar_sync_log w
            /\ calendar_sync_enabled (snd (run (create_booking e (set_user req u)) w)) = false).
  { unfold create_booking, user_of, toISOString. cbn [elsewhere tz now engine]. req_simpl.
    run_steps. cbv zeta.
    destruct (negb (Js.truthy (body_lesson_date req)) || _); run_steps; [ quiet_done | ].
    destruct (not_after _ (now e)); run_steps; [ quiet_done | ].
    destruct (Js.new_Date (engine e) (tz e) (body_lesson_date req)) as [t |]; run_steps;
      [ | quiet_done ].
    destruct (conflicting_booking t w); run_steps; [ quiet_done | ].
    rewrite !push_created_quiet by exact Hoff. run_steps. quiet_done. }
  destruct (Js.truthy dateToCheck); cbn [negb]; run_steps; [ | exact Hcreate ].
  unfold toISOString.
  destruct (Js.new_Date (engine e) (tz e) dateToCheck); run_steps; [ | quiet_done ].
  destruct (blackout_conflict _ w); run_steps; [ quiet_done | exact Hcreate ].
Qed.

Lemma put_quiet (e : env) (cal : calendar) (req : request) (w : world) :
  writes_left w = None ->
  calendar_sync_enabled w = false ->
  run (bookings_put (elsewhere cal e) req) w = run (bookings_put e req) w
  /\ calendar_sync_log (snd (run (bookings_put e req) w)) = calendar_sync_log w
  /\ calendar_sync_enabled (snd (run (bookings_put e req) w)) = false.
Proof.
  intros Hw Hoff. unfold bookings_put. rewrite !run_bind.
  change (authenticateToken (elsewhere cal e) req) with (authenticateToken e req).
  destruct (authenticateToken_cases e req w) as [(c & m & ->) | (u & Hin & ->)];
    cbv beta iota; [ quiet_done | ].
  unfold requireVerified. req_simpl.
  destruct (is_verified u) eqn:Hv; run_steps; [ | quiet_done ].
  unfold checkReschedulePolicy, get_setting. cbn [elsewhere tz now engine]. req_simpl. run_steps.
  cbv zeta.
  destruct (booking_of_user (params_id req) (u_id u) w) as [b |] eqn:Hb; run_steps;
    [ | quiet_done ].
  destruct (same_month (tz e) (Some (lesson_date b)) _); cbn [negb]; run_steps;
    [ | quiet_done ].
  destruct (ge_num _ _); run_steps; [ quiet_done | ].
  assert (Hmove :
            run (reschedule_booking (elsewhere cal e) (set_user req u)) w
            = run (reschedule_booking e (set_user req u)) w
            /\ calendar_sync_log (snd (run (reschedule_booking e (set_user req u)) w))
               = calendar_sync_log w
            /\ calendar_sync_enabled (snd (run (reschedule_booking e (set_user req u)) w))
               = false).
  { unfold reschedule_booking, user_of, toISOString. cbn [elsewhere tz now engine]. req_simpl.
    run_steps.
    destruct (Js.truthy (body_lesson_date req)); cbn [negb]; run_steps; [ | quiet_done ].
    rewrite Hb. run_steps.
    destruct (same_month (tz e) (Js.new_Date _ _ _) _) eqn:Hsame; cbn [negb]; run_steps;
      [ | quiet_done ].
    destruct (Js.new_Date (engine e) (tz e) (body_lesson_date req)) as [t |];
      [ | discriminate Hsame ].
    run_steps.
    destruct (conflicting_booking_except t (params_id req) w); run_steps; [ quiet_done | ].
    unfold rescheduled_row. cbn [elsewhere now engine].
    rewrite !push_updated_quiet by exact Hoff. run_steps. quiet_done. }
  unfold checkBlackoutDates. cbn [elsewhere tz now engine]. req_simpl.
  set (dateToCheck := if Js.truthy (body_new_date req) then _ else _).
  run_steps.
  destruct (Js.truthy dateToCheck); cbn [negb]; run_steps; [ | exact Hmove ].
  unfold toISOString.
  destruct (Js.new_Date (engine e) (tz e) dateToCheck); run_steps; [ | quiet_done ].
  destruct (blackout_conflict _ w); run_steps; [ quiet_done | exact Hmove ].
Qed.

Lemma delete_quiet (e : env) (cal : calendar) (req : request) (w : world) :
  writes_left w = None ->
  calendar_sync_enabled w = false ->
  run (bookings_delete (elsewhere cal e) req) w = run (bookings_delete e req) w
  /\ calendar_sync_log (snd (run (bookings_delete e req) w)) = calendar_sync_log w
  /\ calendar_sync_enabled (snd (run (bookings_delete e req) w)) = false.
Proof.
  intros Hw Hoff. unfold bookings_delete. rewrite !run_bind.
  change (authenticateToken (elsewhere cal e) req) with (authenticateToken e req).
  destruct (authenticateToken_cases e req w) as [(c & m & ->) | (u & Hin & ->)];
    cbv beta iota; [ quiet_done | ].
  unfold requireVerified. req_simpl.
  destruct (is_verified u) eqn:Hv; run_steps; [ | quiet_done ].
  unfold checkCancellationPolicy, get_setting, hoursUntilLesson. cbn [elsewhere tz now engine].
  req_simpl. run_steps. cbv zeta.
  destruct (booking_of_user (params_id req) (u_id u) w) as [b |] eqn:Hb; run_steps;
    [ | quiet_done ].
  unfold enforceCancellationCharging. cbn [cancellationAllowed elsewhere now]. req_simpl.
  destruct (within_policy _ _); cbn [negb]; run_steps.
  - unfold cancel_booking, user_of. cbn [elsewhere now engine]. req_simpl. run_steps.
    rewrite Hb. run_steps. unfold cancelled_row. cbn [elsewhere now engine].
    rewrite !push_deleted_quiet by exact Hoff. run_steps. quiet_done.
  - destruct (booking_by_id (params_id req) w) as [b' |]; run_steps; quiet_done.
Qed.

(** X22.  While calendar sync is switched off, the calendar stays out of the
    booking lifecycle.  Creation, reschedule and cancellation give the same
    answer and the same store whatever the calendar service would do, they
    write nothing to the sync log, and they leave the switch off. *)
Theorem sync_off_keeps_calendar_out (cal : calendar) (c : client_request) (w : world) :
  writes_left w = None ->
  calendar_sync_enabled w = false ->
  run (serve (with_calendar cal c)) w = run (serve c) w
  /\ calendar_sync_log (snd (run (serve c) w)) = calendar_sync_log w
  /\ calendar_sync_enabled (snd (run (serve c) w)) = false.
Proof.
  intros Hw Hoff. destruct c as [e req | e req | e req]; cbn [serve with_calendar].
  - apply post_quiet; assumption.
  - apply put_quiet; assumption.
  - apply delete_quiet; assumption.
Qed.

Lemma sync_off_keeps_calendar_out_witness :
  run (serve (with_calendar calendar_down (Cancel nov_1_utc cancel_nov_10))) unsynced_studio
  = run (serve (Cancel nov_1_utc cancel_nov_10)) unsynced_studio
  /\ calendar_sync_log (snd (run (serve (Cancel nov_1_utc cancel_nov_10)) unsynced_studio))
     = calendar_sync_log unsynced_studio
  /\ calendar_sync_enabled (snd (run (serve (Cancel nov_1_utc cancel_nov_10)) unsynced_studio))
     = false.
Proof.
  apply (sync_off_keeps_calendar_out calendar_down (Cancel nov_1_utc cancel_nov_10)
           unsynced_studio eq_refl eq_refl).
Defined.

(** ** The manual calendar sync *)

(** One turn of the loop, with a database that accepts the writes: one of
    the two counters goes up by one, one entry about the booking goes to the
    sync log, and the bookings with the id of the row are linked to the event
    if one was created. *)
Lemma run_sync_one (e : env) (row : booking * user) (counts : Z * Z) (w : world) :
  writes_left w = None ->
  exists (ev : option string) (entry : sync_entry),
    run (sync_one e row counts) w
    = (Val match ev with
           | Some _ => (fst counts + 1, snd counts)
           | None => (fst counts, snd counts + 1)
           end,
       insert_sync_entry entry
         match ev with
         | Some x => update_booking (id (fst row)) (set_google_event x) w
         | None => w
         end)
    /\ log_booking_id entry = id (fst row)
    /\ (forall c x, createBookingEvent (gcal e)
                      (BookingDetails (id (fst row)) (user_id (fst row))
                                      (lesson_date (fst row)) (duration (fst row))
                                      (first_name (snd row) +:+ " " +:+ last_name (snd row))
                                      (email (snd row)) (notes (fst row)))
                    = CalOk (String c x) -> ev = Some (String c x)).
Proof.
  intros Hw. unfold sync_one, sync_log. run_steps.
  destruct (createBookingEvent (gcal e) _) as [[| c x] | |] eqn:Hcal; run_steps.
  - exists None. eexists. repeat split. intros c x H. discriminate H.
  - exists (Some (String c x)). eexists. repeat split. intros c' x' H. congruence.
  - exists None. eexists. repeat split. intros c x H. discriminate H.
  - exists None. eexists. repeat split. intros c x H. discriminate H.
Qed.

(** The whole loop: the counters add up to the number of rows, the local
    state stays as it was, and the sync log gains one entry for each row, in
    the order of the rows. *)
Lemma run_sync_each (e : env) (rows : list (booking * user)) (counts : Z * Z) (w : world) :
  writes_left w = None ->
  exists synced errors w' entries,
    run (sync_each e rows counts) w = (Val (synced, errors), w')
    /\ fst counts <= synced /\ snd counts <= errors
    /\ (synced - fst counts) + (errors - snd counts) = Z.of_nat (List.length rows)
    /\ writes_left w' = None /\ users w' = users w
    /\ local_state w' = local_state w
    /\ calendar_sync_log w' = (calendar_sync_log w ++ entries)%list
    /\ List.map log_booking_id entries = List.map (fun row => id (fst row)) rows
    /\ (creates_every_event (gcal e) ->
        synced - fst counts = Z.of_nat (List.length rows)
        /\ forall b', In b' (bookings w') ->
             google_calendar_event_id b' <> None
             \/ (In b' (bookings w)
                 /\ ~ In (id b') (List.map (fun row => id (fst row)) rows))).
Proof.
  revert counts w. induction rows as [| row rows IH]; intros counts w Hw.
  - exists (fst counts), (snd counts), w, []. cbn [sync_each]. run_steps.
    destruct counts as [s k]. cbn [fst snd List.length List.map].
    rewrite app_nil_r. repeat split; try lia; try reflexivity; try assumption.
    intros b' Hb'. right. split; [ exact Hb' | ]. intros [].
  - cbn [sync_each]. run_steps.
    destruct (run_sync_one e row counts w Hw) as (ev & entry & Hrun & Hentry & Hev).
    rewrite Hrun. cbv beta iota.
    set (w1 := insert_sync_entry entry
                 match ev with
                 | Some x => update_booking (id (fst row)) (set_google_event x) w
                 | None => w
                 end).
    set (counts1 := match ev with
                    | Some _ => (fst counts + 1, snd counts)
                    | None => (fst counts, snd counts + 1)
                    end).
    assert (Hw1 : writes_left w1 = None) by (unfold w1; destruct ev; exact Hw).
    destruct (IH counts1 w1 Hw1)
      as (synced & errors & w' & entries & Hloop & Hs & Hk & Hsum & Hw' & Hu & Hloc & Hlog
          & Hids & Hall).
    exists synced, errors, w', (entry :: entries).
    assert (Hstep : (fst counts1 = fst counts + 1 /\ snd counts1 = snd counts /\ ev <> None)
                    \/ (fst counts1 = fst counts /\ snd counts1 = snd counts + 1
                        /\ ev = None)).
    { unfold counts1. destruct ev; [ left | right ]; repeat split. discriminate. }
    split; [ exact Hloop | ].
    split; [ lia | ]. split; [ lia | ].
    split; [ cbn [List.length]; rewrite Nat2Z.inj_succ; lia | ].
    split; [ exact Hw' | ].
    split; [ rewrite Hu; unfold w1; destruct ev; reflexivity | ].
    split.
    { rewrite Hloc. unfold w1. rewrite insert_sync_entry_log_state.
      destruct ev; [ apply local_state_event | reflexivity ]. }
    split.
    { rewrite Hlog. unfold w1. destruct ev; cbn; rewrite <- app_assoc; reflexivity. }
    split; [ cbn [List.map]; rewrite Hids, Hentry; reflexivity | ].
    intros Hcal. destruct (Hall Hcal) as [Hcount Hlinked].
    destruct (Hcal (BookingDetails (id (fst row)) (user_id (fst row))
                      (lesson_date (fst row)) (duration (fst row))
                      (first_name (snd row) +:+ " " +:+ last_name (snd row))
                      (email (snd row)) (notes (fst row)))) as (c & x & Hcreated).
    pose proof (Hev c x Hcreated) as Hsome.
    split.
    { cbn [List.length]. rewrite Nat2Z.inj_succ.
      destruct Hstep as [(H1 & _ & _) | (_ & _ & Hnone)]; [ lia | congruence ]. }
    intros b' Hb'. destruct (Hlinked b' Hb') as [Hl | [Hin1 Hnot]]; [ left; exact Hl | ].
    unfold w1 in Hin1. rewrite Hsome in Hin1. cbn in Hin1.
    apply in_map_iff in Hin1 as (r & Hr & Hrin).
    destruct (Z.eqb_spec (id r) (id (fst row))) as [Heq | Hne].
    + left. rewrite <- Hr. cbn. discriminate.
    + right. subst b'. split; [ exact Hrin | ].
      cbn [List.map]. intros [Hhead | Htail]; [ congruence | contradiction ].
Qed.

Lemma run_manual_sync (e : env) (req : request) (w : world) (a : user) :
  signed_in e req w a ->
  role a = "admin" ->
  run (manual_sync e req) w
  = match run (sync_each e (bookings_to_sync e w) (0, 0)) w with
    | (Val counts, w') =>
        (Reply (ok ("Manual sync completed. " +:+ pretty (fst counts) +:+ " events created, "
                    +:+ pretty (snd counts) +:+ " errors.") NoData), w')
    | (Reply r, w') => (Reply r, w')
    | (Throw _, w') => (Reply (fail 500 "Manual sync failed"), w')
    end.
Proof.
  intros Hin Hrole. unfold manual_sync.
  rewrite run_bind, (run_authenticateToken e req w a Hin). cbv beta iota.
  unfold requireRole. req_simpl. rewrite Hrole. cbn [String.eqb]. run_steps.
  destruct (run (sync_each e (bookings_to_sync e w) (0, 0)) w) as [[counts | r | m] w'];
    reflexivity.
Qed.


Lemma omap_nil {A B : Type} (f : A -> option B) (l : list A) :
  (forall x, In x l -> f x = None) -> omap f l = [].
Proof.
  induction l as [| x l IH]; intros H; [ reflexivity | ].
  cbn. rewrite (H x) by (left; reflexivity). apply IH. intros y Hy. apply H. right. exact Hy.
Qed.

(** X25.  After a manual sync nothing is left to sync.  If the calendar
    creates every event it is asked for, the route counts every selected
    booking as created and none as an error, and the query that selects the
    bookings to sync finds none afterwards: a second manual sync has nothing
    to do. *)
Theorem manual_sync_leaves_nothing (e : env) (req : request) (w : world) (a : user) :
  signed_in e req w a ->
  role a = "admin" ->
  writes_left w = None ->
  creates_every_event (gcal e) ->
  exists w',
    run (manual_sync e req) w
    = (Reply (ok ("Manual sync completed. "
                  +:+ pretty (Z.of_nat (List.length (bookings_to_sync e w)))
                  +:+ " events created, " +:+ pretty 0 +:+ " errors.") NoData), w')
    /\ bookings_to_sync e w' = [].
Proof.
  intros Hin Hrole Hw Hcal.
  destruct (run_sync_each e (bookings_to_sync e w) (0, 0) w Hw)
    as (synced & errors & w' & entries & Hloop & Hs & Hk & Hsum & _ & Hu & _ & _ & _ & Hall).
  destruct (Hall Hcal) as [Hcount Hlinked]. cbn [fst snd] in *.
  exists w'. rewrite (run_manual_sync e req w a Hin Hrole), Hloop. cbn [fst snd].
  assert (Hsynced : synced = Z.of_nat (List.length (bookings_to_sync e w))) by lia.
  assert (Herrors : errors = 0) by lia.
  rewrite Hsynced, Herrors. split; [ reflexivity | ].
  unfold bookings_to_sync at 1. apply omap_nil. intros b' Hb'.
  destruct (awaits_sync e b') eqn:Hawaits; [ | reflexivity ].
  destruct (Hlinked b' Hb') as [Hl | [Hin0 Hnot]].
  - exfalso. unfold awaits_sync in Hawaits.
    destruct (google_calendar_event_id b'); [ discriminate Hawaits | congruence ].
  - unfold user_by_id. rewrite Hu. fold (user_by_id (user_id b') w).
    destruct (user_by_id (user_id b') w) as [u |] eqn:Hfound; [ exfalso | reflexivity ].
    apply Hnot. apply in_map_iff. exists (b', u). split; [ reflexivity | ].
    apply list_elem_of_In. unfold bookings_to_sync. apply list_elem_of_omap.
    exists b'. split; [ apply list_elem_of_In; exact Hin0 | ].
    rewrite Hawaits, Hfound. reflexivity.
Qed.


Lemma manual_sync_leaves_nothing_witness :
  exists w',
    run (manual_sync nov_1_synced (by_instructor 0)) studio
    = (Reply (ok ("Manual sync completed. "
                  +:+ pretty (Z.of_nat (List.length (bookings_to_sync nov_1_synced studio)))
                  +:+ " events created, " +:+ pretty 0 +:+ " errors.") NoData), w')
    /\ bookings_to_sync nov_1_synced w' = [].
Proof.
  apply (manual_sync_leaves_nothing nov_1_synced (by_instructor 0) studio patricia);
    [ repeat split | reflexivity | reflexivity | ].
  intros d. exists "e"%char, "vt_1". reflexivity.
Defined.

Example manual_sync_of_the_studio :
  List.map (fun row => id (fst row)) (bookings_to_sync nov_1_synced studio) = [1]
  /\ fst (run (manual_sync nov_1_synced (by_instructor 0)) studio)
     = Reply (ok "Manual sync completed. 1 events created, 0 errors." NoData)
  /\ List.map google_calendar_event_id
              (bookings (snd (run (manual_sync nov_1_synced (by_instructor 0)) studio)))
     = [Some "evt_1"].
Proof. repeat split; vm_compute; reflexivity. Qed.

Lemma pad_4_digits (y : Z) : 0 <= y <= 9999 -> Js.pad 4 y = four_digits y.
Proof.
  intros Hy.
  assert (Hall : forallb (fun y => String.eqb (Js.pad 4 y) (four_digits y)) (seqZ 0 10000)
                 = true) by (vm_compute; reflexivity).
  rewrite forallb_forall in Hall. apply String.eqb_eq, Hall.
  apply list_elem_of_In, elem_of_seqZ. lia.
Qed.

Lemma pad_2_digits (n : Z) : 0 <= n <= 99 -> Js.pad 2 n = two_digits n.
Proof.
  intros Hn.
  assert (Hall : forallb (fun n => String.eqb (Js.pad 2 n) (two_digits n)) (seqZ 0 100)
                 = true) by (vm_compute; reflexivity).
  rewrite forallb_forall in Hall. apply String.eqb_eq, Hall.
  apply list_elem_of_In, elem_of_seqZ. lia.
Qed.

Lemma digit_compare (a b : Z) :
  0 <= a <= 9 -> 0 <= b <= 9 -> Ascii.compare (digit a) (digit b) = (a ?= b).
Proof.
  intros Ha Hb.
  assert (Hall : forallb (fun a => forallb (fun b =>
                    match Ascii.compare (digit a) (digit b), a ?= b with
                    | Eq, Eq | Lt, Lt | Gt, Gt => true
                    | _, _ => false
                    end) (seqZ 0 10)) (seqZ 0 10) = true) by (vm_compute; reflexivity).
  rewrite forallb_forall in Hall.
  assert (Ha' : In a (seqZ 0 10)) by (apply list_elem_of_In, elem_of_seqZ; lia).
  specialize (Hall a Ha'). rewrite forallb_forall in Hall.
  assert (Hb' : In b (seqZ 0 10)) by (apply list_elem_of_In, elem_of_seqZ; lia).
  specialize (Hall b Hb').
  destruct (Ascii.compare (digit a) (digit b)), (a ?= b); congruence.
Qed.

Lemma append_cons (c : ascii) (s t : string) : String c s +:+ t = String c (s +:+ t).
Proof. reflexivity. Qed.

Lemma append_nil (t : string) : "" +:+ t = t.
Proof. reflexivity. Qed.

Lemma two_digits_compare (m1 m2 : Z) (s1 s2 : string) :
  0 <= m1 <= 99 -> 0 <= m2 <= 99 ->
  String.compare (two_digits m1 +:+ s1) (two_digits m2 +:+ s2)
  = match m1 ?= m2 with
    | Eq => String.compare s1 s2
    | r => r
    end.
Proof.
  intros H1 H2. unfold two_digits. rewrite !append_cons, !append_nil.
  cbn [String.compare]. rewrite !digit_compare by dlia.
  destruct (Z.compare_spec (m1 / 10) (m2 / 10));
    destruct (Z.compare_spec (m1 mod 10) (m2 mod 10));
    destruct (Z.compare_spec m1 m2); try reflexivity; exfalso; dlia.
Qed.

Lemma four_digits_compare (y1 y2 : Z) (s1 s2 : string) :
  0 <= y1 <= 9999 -> 0 <= y2 <= 9999 ->
  String.compare (four_digits y1 +:+ s1) (four_digits y2 +:+ s2)
  = match y1 ?= y2 with
    | Eq => String.compare s1 s2
    | r => r
    end.
Proof.
  intros H1 H2. unfold four_digits. rewrite !append_cons.
  cbn [String.compare]. rewrite !digit_compare by dlia.
  rewrite (two_digits_compare (y1 mod 100) (y2 mod 100) s1 s2) by dlia.
  destruct (Z.compare_spec (y1 / 1000) (y2 / 1000));
    destruct (Z.compare_spec (y1 / 100 mod 10) (y2 / 100 mod 10));
    destruct (Z.compare_spec (y1 mod 100) (y2 mod 100));
    destruct (Z.compare_spec y1 y2); try reflexivity; exfalso; dlia.
Qed.

Lemma append_assoc (a b c : string) : (a +:+ b) +:+ c = a +:+ (b +:+ c).
Proof. induction a as [| x a IH]; [ reflexivity | ]. rewrite !append_cons, IH. reflexivity. Qed.

(** Day numbers and civil dates are ordered alike. *)
Lemma civil_order (n1 n2 : Z) :
  n1 <= n2
  <-> Js.year (Js.civil_from_days n1) < Js.year (Js.civil_from_days n2)
      \/ (Js.year (Js.civil_from_days n1) = Js.year (Js.civil_from_days n2)
          /\ (Js.month (Js.civil_from_days n1) < Js.month (Js.civil_from_days n2)
              \/ (Js.month (Js.civil_from_days n1) = Js.month (Js.civil_from_days n2)
                  /\ Js.day (Js.civil_from_days n1) <= Js.day (Js.civil_from_days n2)))).
Proof.
  pose proof (civil_inverse n1) as H1. pose proof (civil_inverse n2) as H2.
  pose proof (civil_fields n1) as [Hm1 _]. pose proof (civil_fields n2) as [Hm2 _].
  rewrite days_from_civil_day in H1, H2.
  pose proof (civil_month_index_mono n1 n2) as Hup.
  pose proof (civil_month_index_mono n2 n1) as Hdown.
  unfold month_index in Hup, Hdown.
  revert H1 H2 Hm1 Hm2 Hup Hdown.
  generalize (Js.civil_from_days n1), (Js.civil_from_days n2).
  intros [y1 m1 d1] [y2 m2 d2]. cbn [Js.year Js.month Js.day].
  intros H1 H2 Hm1 Hm2 Hup Hdown.
  destruct (Z.eq_dec y1 y2) as [-> | Hy].
  - destruct (Z.eq_dec m1 m2) as [-> | Hm].
    + revert H1 H2. generalize (Js.days_from_civil y2 m2 1). intros z H1 H2. lia.
    + clear H1 H2. lia.
  - clear H1 H2. lia.
Qed.

Lemma civil_year_range (n : Z) :
  0 <= n < 2932897 -> 1970 <= Js.year (Js.civil_from_days n) <= 9999.
Proof.
  intros Hn.
  pose proof (civil_month_index_mono 0 n ltac:(lia)) as Hlow.
  pose proof (civil_month_index_mono n 2932896 ltac:(lia)) as Hhigh.
  pose proof (civil_fields n) as [Hm _].
  change (month_index (Js.civil_from_days 0)) with (1970 * 12 + 1 - 1) in Hlow.
  assert (Hlast : month_index (Js.civil_from_days 2932896) = 9999 * 12 + 12 - 1)
    by (vm_compute; reflexivity).
  rewrite Hlast in Hhigh. unfold month_index in Hlow, Hhigh. lia.
Qed.

Lemma compare_same_head (c : ascii) (s1 s2 : string) :
  String.compare (String c s1) (String c s2) = String.compare s1 s2.
Proof.
  cbn [String.compare]. unfold Ascii.compare. rewrite N.compare_refl. reflexivity.
Qed.

Lemma ymd_text (c : Js.ymd) (rest : string) :
  0 <= Js.year c <= 9999 -> 1 <= Js.month c <= 12 -> 1 <= Js.day c <= 31 ->
  Js.ymd_to_string c +:+ rest
  = four_digits (Js.year c)
    +:+ String "-" (two_digits (Js.month c) +:+ String "-" (two_digits (Js.day c) +:+ rest)).
Proof.
  intros Hy Hm Hd. unfold Js.ymd_to_string.
  rewrite pad_4_digits by lia. rewrite !pad_2_digits by lia.
  rewrite !append_assoc, !append_cons, !append_nil. reflexivity.
Qed.

(** The text of a stored lesson date is greater than the text of
    [datetime('now')] exactly when the lesson is on the UTC day of now or on
    a later day. *)
Lemma text_after_now (t0 t : Z) :
  0 <= t0 < 253402300800000 ->
  0 <= t < 253402300800000 ->
  String.ltb (sqlite_datetime t0) (iso_text t) = true
  <-> t0 / Js.msPerDay <= t / Js.msPerDay.
Proof.
  intros H0 Ht.
  assert (Hn0 : 0 <= t0 / Js.msPerDay < 2932897) by (unfold Js.msPerDay; dlia).
  assert (Hn : 0 <= t / Js.msPerDay < 2932897) by (unfold Js.msPerDay; dlia).
  rewrite (civil_order (t0 / Js.msPerDay) (t / Js.msPerDay)).
  pose proof (civil_year_range _ Hn0) as Hy0. pose proof (civil_year_range _ Hn) as Hy.
  pose proof (civil_fields (t0 / Js.msPerDay)) as [Hm0 Hd0].
  pose proof (civil_fields (t / Js.msPerDay)) as [Hm Hd].
  unfold sqlite_datetime, iso_text, year_text, Js.utc_date. cbv zeta.
  revert Hy0 Hy Hm0 Hd0 Hm Hd.
  generalize (Js.civil_from_days (t0 / Js.msPerDay)), (Js.civil_from_days (t / Js.msPerDay)).
  intros c0 c Hy0 Hy Hm0 Hd0 Hm Hd.
  assert (Hin : (0 <=? Js.year c) && (Js.year c <=? 9999) = true).
  { apply andb_true_intro. split; apply Z.leb_le; lia. }
  rewrite Hin.
  match goal with
  | |- context [Js.pad 4 (Js.year c) +:+ "-" +:+ Js.pad 2 (Js.month c) +:+ "-"
                +:+ Js.pad 2 (Js.day c) +:+ ?rest] =>
      change (Js.pad 4 (Js.year c) +:+ "-" +:+ Js.pad 2 (Js.month c) +:+ "-"
              +:+ Js.pad 2 (Js.day c) +:+ rest)
        with (Js.pad 4 (Js.year c)
              +:+ String "-" (Js.pad 2 (Js.month c)
                              +:+ String "-" (Js.pad 2 (Js.day c) +:+ rest)))
  end.
  rewrite pad_4_digits by lia. rewrite !(pad_2_digits (Js.month c)) by lia.
  rewrite !(pad_2_digits (Js.day c)) by lia.
  rewrite (ymd_text c0) by lia.
  unfold String.ltb.
  rewrite four_digits_compare by lia. rewrite compare_same_head.
  rewrite two_digits_compare by lia. rewrite compare_same_head.
  rewrite two_digits_compare by lia.
  rewrite !append_cons. cbn [String.compare].
  change (Ascii.compare " " "T") with Lt.
  destruct (Z.compare_spec (Js.year c0) (Js.year c));
    destruct (Z.compare_spec (Js.month c0) (Js.month c));
    destruct (Z.compare_spec (Js.day c0) (Js.day c));
    split; intros; try discriminate; try reflexivity; try lia.
Qed.

(** X26. The manual sync selects its bookings by comparing the stored ISO text
    of the lesson date with the text of [datetime('now')]: a booking without a
    calendar event and with status confirmed or pending is selected exactly
    when its lesson is on the current UTC day or on a later one, so also when
    the lesson of today is already over. *)
Theorem manual_sync_selects_by_day (e : env) (b : booking) :
  0 <= now e < 253402300800000 ->
  0 <= lesson_date b < 253402300800000 ->
  awaits_sync e b = true
  <-> google_calendar_event_id b = None
      /\ non_terminal (status b) = true
      /\ now e / Js.msPerDay <= lesson_date b / Js.msPerDay.
Proof.
  intros Hnow Hdate. unfold awaits_sync.
  rewrite !andb_true_iff, (text_after_now _ _ Hnow Hdate).
  destruct (google_calendar_event_id b) as [ev|].
  - split.
    + intros [[Hev _] _]. rewrite bool_decide_true in Hev by eauto. discriminate.
    + intros [Hev _]. discriminate.
  - split.
    + intros [[_ Hs] Hd]. auto.
    + intros (_ & Hs & Hd). repeat split; auto.
Qed.

Lemma manual_sync_selects_by_day_witness :
  lesson_date lesson_nov_10 < now nov_10_evening
  /\ awaits_sync nov_10_evening lesson_nov_10 = true.
Proof.
  split; [ reflexivity | ].
  apply (manual_sync_selects_by_day nov_10_evening lesson_nov_10);
    [ split; [ discriminate | reflexivity ]
    | split; [ discriminate | reflexivity ]
    | repeat split; discriminate ].
Defined.

(** ** The reschedule gate where the local clock is UTC *)




(** A move within November, seen from UTC with nothing rescheduled yet, goes
    through. *)
Example reschedule_within_month_done :
  reschedule_done nov_1_utc move_within_nov studio
                  (run (bookings_put nov_1_utc move_within_nov) studio).
Proof.
  exists (ok "Booking rescheduled successfully" (BookingRescheduled false)),
         ada, lesson_nov_10, 1762956000000.
  repeat split. intros h Hh. vm_compute in Hh. injection Hh as <-. reflexivity.
Qed.
